(** * Telegram admin bot for Matrix Synapse: model and verified properties

    The repository ships several variants of one bot:
    - the first bot (the script bundled after the README): its
      authorization function is modelled in [Basic_auth], its callback
      listener in [Basic];
    - [bot-secure.js], modelled in [Secure_auth] and [Secure];
    - the "Complete Version" (search, user info, admin protection),
      modelled in [Complete]; the Russian bot is a translation of it with
      the same authorization function, candidate filter and deactivation
      flow, and is not modelled apart.

    JavaScript values are modelled as follows: a string is the sequence
    of the UTF-8 bytes of its text ([string]), numbers are exact integers
    or [NaN] ([jsnum]; the engine is exact on integers of magnitude up to
    2^53, which ids, page numbers and list lengths are), arrays are lists, optional object properties are
    [option]s, the [userStates] map is a [gmap] keyed by the chat id.
    Searching, splitting and comparing text give the same answers on the
    UTF-8 bytes as on the code units of the engine; white space is the
    engine's list of code points; lower-casing text that need not be
    ASCII (the search) is left to the engine, see [Env].  Message texts
    and button captions
    are kept symbolic (template plus interpolated data); callback tokens
    are real strings, because the handler dispatches on them.  Handlers
    run one at a time, each to its end. *)

From Stdlib Require Import ZArith List Bool Ascii String Lia.
From Stdlib Require Import DecimalString.
From Stdlib Require DecimalPos.
From stdpp Require Import base gmap list.

Open Scope string_scope.
Open Scope list_scope.
Open Scope Z_scope.

Infix "+:+" := String.append (at level 60, right associativity).
Arguments String.append !s1 s2 : simpl nomatch.

(** ** JavaScript primitives used by the bots *)

Module JS.

(** *** Strings *)

Definition is_upper (c : ascii) : bool :=
  ((65 <=? nat_of_ascii c) && (nat_of_ascii c <=? 90))%nat.

Definition lower_char (c : ascii) : ascii :=
  if is_upper c then ascii_of_nat (nat_of_ascii c + 32) else c.

(** [s.toLowerCase()] on ASCII text, where it turns [A]..[Z] into
    [a]..[z] and keeps every other character.  The authorization code
    applies it to Telegram handles (letters, digits and underscores); the
    search lower-cases arbitrary text and uses [toLowerCase] of [Env]. *)
Fixpoint toLowerCase (s : string) : string :=
  match s with
  | EmptyString => EmptyString
  | String c s' => String (lower_char c) (toLowerCase s')
  end.

(** The text is ASCII: every byte is below 128. *)
Fixpoint is_ascii (s : string) : bool :=
  match s with
  | EmptyString => true
  | String c s' => (nat_of_ascii c <? 128)%nat && is_ascii s'
  end.

(** [s.startsWith(p)] *)
Definition startsWith (s p : string) : bool := String.prefix p s.

(** [s.includes(sub)] *)
Fixpoint includes (s sub : string) : bool :=
  startsWith s sub ||
  match s with
  | EmptyString => false
  | String _ s' => includes s' sub
  end.

(** [s.substring(n)] *)
Fixpoint substring (n : nat) (s : string) : string :=
  match n, s with
  | O, _ => s
  | S n', String _ s' => substring n' s'
  | S _, EmptyString => EmptyString
  end.

(** [s.split(sep)] for a one-character separator: never an empty array. *)
Fixpoint split (sep : ascii) (s : string) : list string :=
  match s with
  | EmptyString => [EmptyString]
  | String c s' =>
      if Ascii.eqb c sep then EmptyString :: split sep s'
      else match split sep s' with
           | [] => [String c EmptyString]
           | w :: ws => String c w :: ws
           end
  end.

(** White space and line terminators, the characters [trim] strips and
    [parseInt] skips: TAB, LF, VT, FF, CR and SP, which are one byte each,
    and U+00A0, U+1680, U+2000..U+200A, U+2028, U+2029, U+202F, U+205F,
    U+3000 and U+FEFF, which are two or three bytes in UTF-8. *)
Definition is_space (c : ascii) : bool :=
  let n := nat_of_ascii c in
  ((n =? 32) || ((9 <=? n) && (n <=? 13)))%nat.

Definition byte (c : ascii) (n : nat) : bool := (nat_of_ascii c =? n)%nat.

(** U+00A0 is C2 A0. *)
Definition is_space2 (a b : ascii) : bool := byte a 194 && byte b 160.

(** U+1680 is E1 9A 80; U+2000..U+200A are E2 80 80 .. E2 80 8A; U+2028,
    U+2029 and U+202F are E2 80 A8, E2 80 A9 and E2 80 AF; U+205F is
    E2 81 9F; U+3000 is E3 80 80; U+FEFF is EF BB BF. *)
Definition is_space3 (a b c : ascii) : bool :=
  (byte a 225 && byte b 154 && byte c 128)
  || (byte a 226 && byte b 128
      && (((128 <=? nat_of_ascii c) && (nat_of_ascii c <=? 138))%nat
          || byte c 168 || byte c 169 || byte c 175))
  || (byte a 226 && byte b 129 && byte c 159)
  || (byte a 227 && byte b 128 && byte c 128)
  || (byte a 239 && byte b 187 && byte c 191).

Fixpoint trimStart (s : string) : string :=
  match s with
  | EmptyString => EmptyString
  | String a s1 =>
      if is_space a then trimStart s1
      else match s1 with
           | String b s2 =>
               if is_space2 a b then trimStart s2
               else match s2 with
                    | String c s3 => if is_space3 a b c then trimStart s3 else s
                    | EmptyString => s
                    end
           | EmptyString => s
           end
  end.

(** The string is white space from its first to its last character. *)
Fixpoint blank (s : string) : bool :=
  match s with
  | EmptyString => true
  | String a s1 =>
      if is_space a then blank s1
      else match s1 with
           | String b s2 =>
               if is_space2 a b then blank s2
               else match s2 with
                    | String c s3 => is_space3 a b c && blank s3
                    | EmptyString => false
                    end
           | EmptyString => false
           end
  end.

Fixpoint trimEnd (s : string) : string :=
  match s with
  | EmptyString => EmptyString
  | String c s' => if blank s then EmptyString else String c (trimEnd s')
  end.

(** [s.trim()] *)
Definition trim (s : string) : string := trimEnd (trimStart s).

(** Truthiness of an optional string property: [undefined] and the empty
    string are falsy. *)
Definition truthy (o : option string) : bool :=
  match o with
  | Some s => negb (String.eqb s "")
  | None => false
  end.

(** [a || b] on optional strings. *)
Definition or_else (o : option string) (d : string) : string :=
  match o with
  | Some s => if String.eqb s "" then d else s
  | None => d
  end.

(** *** Numbers *)

Inductive jsnum : Type :=
| Num (z : Z)
| NaN.

Definition jsnum_eqb (a b : jsnum) : bool :=
  match a, b with
  | Num x, Num y => x =? y
  | NaN, NaN => true   (* SameValueZero, as [Array.prototype.includes] uses *)
  | _, _ => false
  end.

Definition mul (a b : jsnum) : jsnum :=
  match a, b with Num x, Num y => Num (x * y) | _, _ => NaN end.
Definition add (a b : jsnum) : jsnum :=
  match a, b with Num x, Num y => Num (x + y) | _, _ => NaN end.
Definition sub (a b : jsnum) : jsnum :=
  match a, b with Num x, Num y => Num (x - y) | _, _ => NaN end.
(** [Math.min(a, b)] *)
Definition min (a b : jsnum) : jsnum :=
  match a, b with Num x, Num y => Num (Z.min x y) | _, _ => NaN end.
(** [a < b] and [a > b]: false as soon as one side is [NaN]. *)
Definition lt (a b : jsnum) : bool :=
  match a, b with Num x, Num y => x <? y | _, _ => false end.
Definition gt (a b : jsnum) : bool := lt b a.

Definition toString (a : jsnum) : string :=
  match a with
  | Num z => NilZero.string_of_int (Z.to_int z)
  | NaN => "NaN"
  end.

Definition digit_of (radix : Z) (c : ascii) : option Z :=
  let n := Z.of_nat (nat_of_ascii c) in
  let d := if (48 <=? n) && (n <=? 57) then Some (n - 48)
           else if (97 <=? n) && (n <=? 122) then Some (n - 87)
           else if (65 <=? n) && (n <=? 90) then Some (n - 55)
           else None in
  match d with
  | Some v => if v <? radix then Some v else None
  | None => None
  end.

(** Longest prefix of digits, read in [radix]; [None] when it is empty. *)
Fixpoint digits (radix : Z) (acc : option Z) (s : string) : option Z :=
  match s with
  | EmptyString => acc
  | String c s' =>
      match digit_of radix c with
      | Some d =>
          digits radix
            (Some (match acc with Some a => a * radix + d | None => d end)) s'
      | None => acc
      end
  end.

Definition unsigned (s : string) : option Z :=
  if startsWith s "0x" || startsWith s "0X"
  then digits 16 None (substring 2 s)
  else digits 10 None s.

(** [parseInt(s)] with no radix argument: leading white space, a sign,
    an optional [0x], then the longest run of digits.  The result is the
    integer the digits denote, which is what the engine returns as long as
    that integer has a magnitude of at most 2^53. *)
Definition parseInt (s : string) : jsnum :=
  match trimStart s with
  | String "-" r => match unsigned r with Some z => Num (- z) | None => NaN end
  | String "+" r => match unsigned r with Some z => Num z | None => NaN end
  | r => match unsigned r with Some z => Num z | None => NaN end
  end.

(** [parseInt(x)] where [x] may be [undefined]. *)
Definition parseInt_opt (o : option string) : jsnum :=
  match o with
  | Some s => parseInt s
  | None => NaN
  end.

(** *** Arrays *)

(** Relative index of [Array.prototype.slice]: [NaN] counts as 0, a
    negative index counts from the end, and the result is clamped to the
    array. *)
Definition rel_index (len : Z) (i : jsnum) : Z :=
  match i with
  | NaN => 0
  | Num z => if z <? 0 then Z.max (len + z) 0 else Z.min z len
  end.

(** [a.slice(start, end)] *)
Definition slice {A} (a : list A) (start end_ : jsnum) : list A :=
  let len := Z.of_nat (length a) in
  let k := rel_index len start in
  let final := rel_index len end_ in
  firstn (Z.to_nat (final - k)) (skipn (Z.to_nat k) a).

(** [a.includes(x)] *)
Definition includes_num (a : list jsnum) (x : jsnum) : bool :=
  existsb (jsnum_eqb x) a.
Definition includes_str (a : list string) (x : string) : bool :=
  existsb (String.eqb x) a.

(** [a.length] as a number *)
Definition len {A} (a : list A) : jsnum := Num (Z.of_nat (length a)).

End JS.

(** ** Data *)

(** The sender of a Telegram update ([msg.from], [callbackQuery.from]). *)
Record TgUser : Type := {
  id : Z;
  username : option string;
  first_name : option string;
  last_name : option string
}.

(** A user object of the Synapse admin API. *)
Record User : Type := {
  name : string;
  displayname : option string;
  deactivated : bool;
  admin : bool;
  user_type : option string
}.

(** The security configuration read from the environment. *)
Record Config : Type := {
  AUTHORIZED_USERS : list JS.jsnum;
  AUTHORIZED_USERNAMES : list string
}.

(** [process.env.AUTHORIZED_USERS] and [process.env.AUTHORIZED_USERNAMES]
    turned into the two lists; an unset or empty variable gives []. *)
Definition parse_users (env : option string) : list JS.jsnum :=
  if JS.truthy env
  then map (fun id => JS.parseInt (JS.trim id)) (JS.split "," (JS.or_else env ""))
  else [].

Definition parse_usernames (env : option string) : list string :=
  if JS.truthy env
  then map (fun username => JS.toLowerCase (JS.trim username))
           (JS.split "," (JS.or_else env ""))
  else [].

Definition config_of_env (users usernames : option string) : Config :=
  {| AUTHORIZED_USERS := parse_users users;
     AUTHORIZED_USERNAMES := parse_usernames usernames |}.

(** ** Authorization *)

Module Secure_auth.

(** [isAuthorized] of [bot-secure.js]; the complete and the Russian bot
    have the same function. *)
Definition isAuthorized (cfg : Config) (user : TgUser) : bool :=
  if (length (AUTHORIZED_USERS cfg) =? 0)%nat
     && (length (AUTHORIZED_USERNAMES cfg) =? 0)%nat
  then false
  else if JS.includes_num (AUTHORIZED_USERS cfg) (JS.Num (id user)) then true
  else if JS.truthy (username user)
          && JS.includes_str (AUTHORIZED_USERNAMES cfg)
               (JS.toLowerCase (JS.or_else (username user) ""))
  then true
  else false.

End Secure_auth.

Module Basic_auth.

(** [isAuthorized] of the first bot: with nothing configured it lets
    everybody in ("allow all (backward compatibility)"). *)
Definition isAuthorized (cfg : Config) (user : TgUser) : bool :=
  if (length (AUTHORIZED_USERS cfg) =? 0)%nat
     && (length (AUTHORIZED_USERNAMES cfg) =? 0)%nat
  then true
  else if JS.includes_num (AUTHORIZED_USERS cfg) (JS.Num (id user)) then true
  else if JS.truthy (username user)
          && JS.includes_str (AUTHORIZED_USERNAMES cfg)
               (JS.toLowerCase (JS.or_else (username user) ""))
  then true
  else false.

End Basic_auth.

(** ** Telegram objects *)

(** Button captions.  [UserLabel shown kind] is the caption
    "<shown> (<kind>)" of the secure bot; [UserStatusLabel] is the caption
    of the complete bot: a status mark, the shown name, then a crown for
    admins or the user type in brackets. *)
Inductive Label : Type :=
| GetAllUsers | SearchUsers | DeactivateUser | ShowMyInfo
| BackToMenu | Previous | Next
| YesDeactivate | Cancel | DeactivateAnother | TryAgain
| UserLabel (shown kind : string)
| UserStatusLabel (is_deactivated : bool) (shown : string) (is_admin : bool)
    (kind : option string)
| DeactivatedMark | AdminProtected | DeactivateAction
| NewSearch | UserAlreadyDeactivated | DeactivateThisUser | BackToSearch
| MainMenu.

Record Button : Type := {
  text : Label;
  callback_data : string
}.

(** [reply_markup.inline_keyboard]: rows of buttons. *)
Definition Keyboard : Type := list (list Button).

(** Message texts: one constructor per template, carrying what the template
    interpolates. *)
Inductive Text : Type :=
| AccessDeniedText                      (* "Access Denied ... not authorized" *)
| AccessDeniedAnswer                    (* answerCallbackQuery text 'Access denied' *)
| WelcomeText (userInfo : TgUser)
| HelpText
| ChooseAction                          (* 'Choose an action:' *)
| AuthorizationInfo (user : TgUser)
| SearchPrompt                          (* "Search Users ... enter the search term" *)
| FetchingUsers                         (* 'Fetching users from Matrix server...' *)
| NoUsersFound                          (* 'No users found on the server.' *)
| UsersList (users : list User)         (* numbered list, cut when over 4096 characters *)
| LoadingUsers                          (* 'Loading users for deactivation...' *)
| NoActiveUsers                         (* 'No active users found to deactivate.' *)
| NoUsersAvailable (adminCount : nat)   (* 'No users available for deactivation.' *)
| SelectUser                            (* 'Select user to deactivate:' *)
| ConfirmDeactivation (userId : string) (* "Confirm Deactivation ... Are you sure" *)
| DeactivatingUser (userId : string)
| UserDeactivated (userId : string)     (* 'User Deactivated Successfully' *)
| DeactivationFailed (message : string)
| ErrorText (message : string)          (* 'Error: <message>' *)
| Searching (searchTerm : string)
| NoSearchResults (searchTerm : string)
| SearchResults (total : nat) (searchTerm : option string)
| SearchFailed (message : string)
| InvalidSearchTerm                     (* 'Please enter a valid search term.' *)
| UserInformation (userInfo : User)
| ErrorGettingUserInfo (message : string).

Inductive TgCall : Type :=
| sendMessage (chatId : Z) (t : Text) (markup : option Keyboard)
| editMessageText (t : Text) (chat_id message_id : Z) (markup : option Keyboard)
| editMessageReplyMarkup (markup : Keyboard) (chat_id message_id : Z)
| answerCallbackQuery (queryId : string) (t : option Text).

(** A callback query, flattened: [message.chat.id] is [chat_id] and
    [message.message_id] is [message_id]. *)
Record CallbackQuery : Type := {
  query_id : string;
  from : TgUser;
  data : string;
  chat_id : Z;
  message_id : Z
}.

Record Message : Type := {
  msg_from : TgUser;
  msg_chat_id : Z;
  msg_text : option string
}.

(** ** The Synapse admin API *)

Inductive Request : Type :=
| GetUsersReq (from limit : Z)               (* GET  /_synapse/admin/v2/users?from=&limit= *)
| DeactivateReq (userId : string) (erase : bool)
                                             (* POST /_synapse/admin/v1/deactivate/<userId> {erase} *)
| GetUserReq (userId : string).              (* GET  /_synapse/admin/v2/users/<userId> *)

(** Console lines. *)
Inductive LogEntry : Type :=
| LockedDown
| UnauthorizedAccess (user : TgUser) (command : string)
| AuthorizedAccess (user : TgUser) (command : string)
| ErrorAnswering (message : string)
| ClientError (r : Request) (message : string)
| DeactivatedBy (admin_user : TgUser) (userId : string)
| CallbackQueryError (message : string).

Inductive Effect : Type :=
| Http (r : Request)
| Tg (c : TgCall)
| Console (l : LogEntry).

(** What the outside world answers.  A failing call yields the message of
    the error it raises (for the admin API: what
    [error.response?.data?.error || error.message] evaluates to).  A
    successful [GET users] yields the [users] property of the response
    body, which may be missing; a successful Telegram call yields the id of
    the message it sent or edited. *)
Record Env : Type := {
  get_users : Z -> Z -> string + option (list User);
  post_deactivate : string -> bool -> string + unit;
  get_user : string -> string + User;
  telegram : TgCall -> string + Z;
  toLowerCase : string -> string
}.

(** [toLowerCase] is [String.prototype.toLowerCase] of the engine the bot
    runs on.  It follows the case tables of the Unicode standard, which
    are no part of the repository, so nothing is assumed about it here:
    what is proved of the search holds for every such function.  On ASCII
    text it is [JS.toLowerCase]. *)
Definition ascii_lowering (env : Env) : Prop :=
  forall s, JS.is_ascii s = true -> toLowerCase env s = JS.toLowerCase s.

(** ** Session store *)

(** One entry of [userStates]: an object with optional properties. *)
Record State : Type := {
  waiting_for_search : bool;
  users : option (list User);
  page : option JS.jsnum;
  search_results : option (list User);
  search_term : option string;
  search_page : option JS.jsnum
}.

Definition empty_state : State :=
  {| waiting_for_search := false; users := None; page := None;
     search_results := None; search_term := None; search_page := None |}.

(** [state.page = p] and [state.search_page = p] *)
Definition set_page (st : State) (p : JS.jsnum) : State :=
  {| waiting_for_search := waiting_for_search st;
     users := users st; page := Some p;
     search_results := search_results st;
     search_term := search_term st;
     search_page := search_page st |}.

Definition set_search_page (st : State) (p : JS.jsnum) : State :=
  {| waiting_for_search := waiting_for_search st;
     users := users st; page := page st;
     search_results := search_results st;
     search_term := search_term st;
     search_page := Some p |}.

Abbreviation States := (gmap Z State).

(** ** Handlers as computations

    A handler run starts from the session store, ends with a value or a
    thrown error, the new store, and the calls it made in order. *)

Inductive Outcome (A : Type) : Type :=
| Ok (a : A)
| Throw (message : string).
Arguments Ok {A} a.
Arguments Throw {A} message.

Definition M (A : Type) : Type := States -> Outcome A * States * list Effect.

Definition ret {A} (a : A) : M A := fun s => (Ok a, s, []).

Definition bind {A B} (m : M A) (f : A -> M B) : M B := fun s =>
  match m s with
  | (Ok a, s1, t1) => let '(r, s2, t2) := f a s1 in (r, s2, t1 ++ t2)
  | (Throw e, s1, t1) => (Throw e, s1, t1)
  end.

Definition throw {A} (message : string) : M A := fun s => (Throw message, s, []).

(** [try { m } catch (error) { h error }] *)
Definition try_catch {A} (m : M A) (h : string -> M A) : M A := fun s =>
  match m s with
  | (Throw e, s1, t1) => let '(r, s2, t2) := h e s1 in (r, s2, t1 ++ t2)
  | r => r
  end.

Declare Scope js_scope.
Delimit Scope js_scope with js.
Notation "x <- m ;; k" := (bind m (fun x => k))
  (at level 100, m at next level, right associativity) : js_scope.
Notation "m ;; k" := (bind m (fun _ => k))
  (at level 100, right associativity) : js_scope.
Open Scope js_scope.

Definition emit (e : Effect) : M unit := fun s => (Ok tt, s, [e]).

Definition console (l : LogEntry) : M unit := emit (Console l).

(** [userStates.get], [userStates.set], [userStates.delete] *)
Definition userStates_get (chatId : Z) : M (option State) :=
  fun s => (Ok (s !! chatId), s, []).
Definition userStates_set (chatId : Z) (v : State) : M unit :=
  fun s => (Ok tt, <[chatId := v]> s, []).
Definition userStates_delete (chatId : Z) : M unit :=
  fun s => (Ok tt, delete chatId s, []).

(** [await bot.<call>]: the call is made, and raises when Telegram refuses. *)
Definition await_tg (env : Env) (c : TgCall) : M Z := fun s =>
  match telegram env c with
  | inr mid => (Ok mid, s, [Tg c])
  | inl e => (Throw e, s, [Tg c])
  end.

(** [bot.<call>] without [await]: the call is made and its promise dropped. *)
Definition fire_tg (c : TgCall) : M unit := emit (Tg c).

(** The way a handler body ends: by reaching its end or by [return]. *)
Inductive Completion : Type := Fallthrough | Return.

(** ** Matrix API client *)

(** The object returned by [searchUsers]. *)
Module SearchResult.
Record t : Type := {
  users : list User;
  total : nat;
  from : Z;
  limit : Z
}.
End SearchResult.

Module MatrixClient.

(** The three [axios] calls: the request goes out, and the call raises when
    the server or the network fails. *)
Definition axios_get_users (env : Env) (from limit : Z)
  : M (option (list User)) := fun s =>
  match get_users env from limit with
  | inr d => (Ok d, s, [Http (GetUsersReq from limit)])
  | inl e => (Throw e, s, [Http (GetUsersReq from limit)])
  end.

Definition axios_post_deactivate (env : Env) (userId : string) (erase : bool)
  : M unit := fun s =>
  match post_deactivate env userId erase with
  | inr d => (Ok d, s, [Http (DeactivateReq userId erase)])
  | inl e => (Throw e, s, [Http (DeactivateReq userId erase)])
  end.

Definition axios_get_user (env : Env) (userId : string) : M User := fun s =>
  match get_user env userId with
  | inr d => (Ok d, s, [Http (GetUserReq userId)])
  | inl e => (Throw e, s, [Http (GetUserReq userId)])
  end.

(** [async getUsers(from = 0, limit = 100)] *)
Definition getUsers (env : Env) (from limit : option Z)
  : M (option (list User)) :=
  let from := default 0 from in
  let limit := default 100 limit in
  try_catch (axios_get_users env from limit)
    (fun error =>
       console (ClientError (GetUsersReq from limit) error) ;;
       throw ("Failed to fetch users: " +:+ error)).

(** [async deactivateUser(userId)] *)
Definition deactivateUser (env : Env) (userId : string) : M unit :=
  try_catch (axios_post_deactivate env userId false)
    (fun error =>
       console (ClientError (DeactivateReq userId false) error) ;;
       throw ("Failed to deactivate user: " +:+ error)).

(** The filter callback of [searchUsers]. *)
Definition search_filter (env : Env) (searchTerm searchLower : string)
    (user : User) : bool :=
  JS.includes (toLowerCase env (name user)) searchLower
  || (JS.truthy (displayname user)
      && JS.includes (toLowerCase env (JS.or_else (displayname user) ""))
           searchLower)
  || String.eqb (name user) searchTerm.

Definition filteredUsers (env : Env) (searchTerm : string) (allUsers : list User)
  : list User :=
  let searchLower := toLowerCase env searchTerm in
  List.filter (search_filter env searchTerm searchLower) allUsers.

(** [async searchUsers(searchTerm, from = 0, limit = 100)] *)
Definition searchUsers (env : Env) (searchTerm : string) (from limit : option Z)
  : M SearchResult.t :=
  let from := default 0 from in
  let limit := default 100 limit in
  try_catch
    (response <- axios_get_users env 0 1000 ;;
     let allUsers := default [] response in
     let filteredUsers := filteredUsers env searchTerm allUsers in
     let startIndex := JS.Num from in
     let endIndex := JS.min (JS.add startIndex (JS.Num limit)) (JS.len filteredUsers) in
     let paginatedUsers := JS.slice filteredUsers startIndex endIndex in
     ret {| SearchResult.users := paginatedUsers;
            SearchResult.total := length filteredUsers;
            SearchResult.from := from;
            SearchResult.limit := limit |})
    (fun error =>
       console (ClientError (GetUsersReq 0 1000) error) ;;
       throw ("Failed to search users: " +:+ error)).

(** [async getUserInfo(userId)] *)
Definition getUserInfo (env : Env) (userId : string) : M User :=
  try_catch (axios_get_user env userId)
    (fun error =>
       console (ClientError (GetUserReq userId) error) ;;
       throw ("Failed to get user info: " +:+ error)).

End MatrixClient.

(** ** Keyboards *)

Definition back_to_menu_button : Button :=
  {| text := BackToMenu; callback_data := "back_to_menu" |}.

(** The four-button main menu of the secure and the complete bot. *)
Definition createMainKeyboard : Keyboard :=
  [ [ {| text := GetAllUsers; callback_data := "get_users" |} ];
    [ {| text := SearchUsers; callback_data := "search_users" |} ];
    [ {| text := DeactivateUser; callback_data := "deactivate_menu" |} ];
    [ {| text := ShowMyInfo; callback_data := "show_my_info" |} ] ].

(** The first three lines shared by every paged keyboard. *)
Definition startIndex (page usersPerPage : JS.jsnum) : JS.jsnum :=
  JS.mul page usersPerPage.

Definition endIndex {A} (users : list A) (page usersPerPage : JS.jsnum) : JS.jsnum :=
  JS.min (JS.add (startIndex page usersPerPage) usersPerPage) (JS.len users).

Definition pageUsers {A} (users : list A) (page usersPerPage : JS.jsnum) : list A :=
  JS.slice users (startIndex page usersPerPage) (endIndex users page usersPerPage).

(** The navigation row: "Previous" when [page > 0], "Next" when
    [endIndex < users.length]; [prefix] is the token prefix of the keyboard. *)
Definition navRow {A} (prefix : string) (users : list A)
    (page usersPerPage : JS.jsnum) : list Button :=
  (if JS.gt page (JS.Num 0)
   then [ {| text := Previous;
             callback_data := prefix +:+ JS.toString (JS.sub page (JS.Num 1)) |} ]
   else [])
  ++
  (if JS.lt (endIndex users page usersPerPage) (JS.len users)
   then [ {| text := Next;
             callback_data := prefix +:+ JS.toString (JS.add page (JS.Num 1)) |} ]
   else []).

(** [if (navRow.length > 0) keyboard.push(navRow)] *)
Definition push_navRow (row : list Button) : Keyboard :=
  if (0 <? length row)%nat then [row] else [].

(** The confirmation prompt keyboard, the same in every bot. *)
Definition confirm_keyboard (userId : string) : Keyboard :=
  [ [ {| text := YesDeactivate;
         callback_data := "confirm_deactivate_" +:+ userId |};
      {| text := Cancel; callback_data := "deactivate_menu" |} ] ].

Definition deactivated_keyboard : Keyboard :=
  [ [ {| text := DeactivateAnother; callback_data := "deactivate_menu" |} ];
    [ back_to_menu_button ] ].

Definition failed_keyboard : Keyboard :=
  [ [ {| text := TryAgain; callback_data := "deactivate_menu" |} ];
    [ back_to_menu_button ] ].

(** ** Command patterns *)

(** [/\/start/], [/\/help/], [/\/menu/], [/\/whoami/]: the command occurs
    somewhere in the text. *)
Definition re_start (t : string) : bool := JS.includes t "/start".
Definition re_help (t : string) : bool := JS.includes t "/help".
Definition re_menu (t : string) : bool := JS.includes t "/menu".
Definition re_whoami (t : string) : bool := JS.includes t "/whoami".

(** The line terminators, which [.] does not match: LF and CR, and U+2028
    and U+2029, which are E2 80 A8 and E2 80 A9. *)
Definition is_line_terminator (c : ascii) : bool :=
  ((nat_of_ascii c =? 10) || (nat_of_ascii c =? 13))%nat.

Definition starts_line_separator (s : string) : bool :=
  match s with
  | String a (String b (String c _)) =>
      JS.byte a 226 && JS.byte b 128 && (JS.byte c 168 || JS.byte c 169)
  | _ => false
  end.

(** The longest run of characters that [.] matches. *)
Fixpoint dot_plus (s : string) : string :=
  match s with
  | EmptyString => EmptyString
  | String c s' => if is_line_terminator c || starts_line_separator s
                   then EmptyString
                   else String c (dot_plus s')
  end.

(** [/\/search (.+)/]: the capture group of the leftmost match, if any. *)
Fixpoint re_search (t : string) : option string :=
  if JS.startsWith t "/search "
     && negb (String.eqb (dot_plus (JS.substring 8 t)) "")
  then Some (dot_plus (JS.substring 8 t))
  else match t with
       | EmptyString => None
       | String _ t' => re_search t'
       end.

(** ** Authorization middleware (secure and complete bot) *)

Section Middleware.
Context (cfg : Config) (env : Env).

(** [isAuthorized] together with the console line it prints when the bot is
    locked down. *)
Definition check_authorized (user : TgUser) : M bool :=
  (if (length (AUTHORIZED_USERS cfg) =? 0)%nat
      && (length (AUTHORIZED_USERNAMES cfg) =? 0)%nat
   then console LockedDown else ret tt) ;;
  ret (Secure_auth.isAuthorized cfg user).

Definition sendUnauthorizedMessage (chatId : Z) : M unit :=
  fire_tg (sendMessage chatId AccessDeniedText None).

Definition requireAuth (handler : Message -> M unit) (msg : Message) : M unit :=
  let user := msg_from msg in
  let command := JS.or_else (msg_text msg) "callback" in
  ok <- check_authorized user ;;
  if negb ok then
    console (UnauthorizedAccess user command) ;;
    sendUnauthorizedMessage (msg_chat_id msg)
  else
    console (AuthorizedAccess user command) ;;
    handler msg.

Definition requireAuthCallback (handler : CallbackQuery -> M unit)
    (callbackQuery : CallbackQuery) : M unit :=
  let user := from callbackQuery in
  let command := "callback: " +:+ data callbackQuery in
  ok <- check_authorized user ;;
  if negb ok then
    console (UnauthorizedAccess user command) ;;
    sendUnauthorizedMessage (chat_id callbackQuery) ;;
    fire_tg (answerCallbackQuery (query_id callbackQuery) (Some AccessDeniedAnswer))
  else
    console (AuthorizedAccess user command) ;;
    handler callbackQuery.

(** The four plain commands. *)
Definition start_command (msg : Message) : M unit :=
  fire_tg (sendMessage (msg_chat_id msg) (WelcomeText (msg_from msg))
             (Some createMainKeyboard)).
Definition help_command (msg : Message) : M unit :=
  fire_tg (sendMessage (msg_chat_id msg) HelpText None).
Definition menu_command (msg : Message) : M unit :=
  fire_tg (sendMessage (msg_chat_id msg) ChooseAction (Some createMainKeyboard)).
Definition whoami_command (msg : Message) : M unit :=
  fire_tg (sendMessage (msg_chat_id msg) (AuthorizationInfo (msg_from msg)) None).

(** A listener is started and its promise dropped: an error it raises does
    not reach the dispatcher. *)
Definition detached (m : M unit) : M unit := fun s =>
  let '(_, s1, t1) := m s in (Ok tt, s1, t1).

(** [bot.onText(regexp, requireAuth(handler))]: the listener runs when the
    regular expression finds a match in the text. *)
Definition onText (regexp : string -> bool) (handler : Message -> M unit)
    (msg : Message) : M unit :=
  match msg_text msg with
  | Some t => if regexp t then detached (requireAuth handler msg) else ret tt
  | None => ret tt
  end.

End Middleware.

(** ** The secure bot ([bot-secure.js]) *)

Module Secure.

Definition user_button (user : User) : list Button :=
  [ {| text := UserLabel (JS.or_else (displayname user) (name user))
                         (JS.or_else (user_type user) "regular");
       callback_data := "deactivate_" +:+ name user |} ].

(** [createUserSelectionKeyboard(users, page = 0, usersPerPage = 10)] *)
Definition createUserSelectionKeyboard (users : list User)
    (page usersPerPage : option JS.jsnum) : Keyboard :=
  let page := default (JS.Num 0) page in
  let usersPerPage := default (JS.Num 10) usersPerPage in
  map user_button (pageUsers users page usersPerPage)
  ++ push_navRow (navRow "users_page_" users page usersPerPage)
  ++ [ [ back_to_menu_button ] ].

(** The filter of the [deactivate_menu] branch. *)
Definition activeUsers (usersData : option (list User)) : list User :=
  List.filter (fun user => negb (deactivated user)) (default [] usersData).

Section Handlers.
Context (cfg : Config) (env : Env).

(** The [try] block of the callback query handler. *)
Definition callback_query_body (callbackQuery : CallbackQuery) : M Completion :=
  let data := data callbackQuery in
  let chatId := chat_id callbackQuery in
  let messageId := message_id callbackQuery in
  let user := from callbackQuery in
  if String.eqb data "show_my_info" then
    await_tg env (editMessageText (AuthorizationInfo user) chatId messageId
                    (Some [ [ back_to_menu_button ] ])) ;;
    ret Fallthrough
  else if String.eqb data "search_users" then
    await_tg env (editMessageText SearchPrompt chatId messageId
                    (Some [ [ back_to_menu_button ] ])) ;;
    userStates_set chatId
      {| waiting_for_search := true; users := None; page := None;
         search_results := None; search_term := None; search_page := None |} ;;
    ret Fallthrough
  else if String.eqb data "get_users" then
    await_tg env (editMessageText FetchingUsers chatId messageId None) ;;
    usersData <- MatrixClient.getUsers env None None ;;
    let users := default [] usersData in
    if (length users =? 0)%nat then
      await_tg env (editMessageText NoUsersFound chatId messageId
                      (Some [ [ back_to_menu_button ] ])) ;;
      ret Return
    else
      await_tg env (editMessageText (UsersList users) chatId messageId
                      (Some [ [ back_to_menu_button ] ])) ;;
      ret Fallthrough
  else if String.eqb data "search_users" then
    await_tg env (editMessageText SearchPrompt chatId messageId
                    (Some [ [ back_to_menu_button ] ])) ;;
    userStates_set chatId
      {| waiting_for_search := true; users := None; page := None;
         search_results := None; search_term := None; search_page := None |} ;;
    ret Fallthrough
  else if String.eqb data "deactivate_menu" then
    await_tg env (editMessageText LoadingUsers chatId messageId None) ;;
    usersData <- MatrixClient.getUsers env None None ;;
    let activeUsers := activeUsers usersData in
    if (length activeUsers =? 0)%nat then
      await_tg env (editMessageText NoActiveUsers chatId messageId
                      (Some [ [ back_to_menu_button ] ])) ;;
      ret Return
    else
      userStates_set chatId
        {| waiting_for_search := false; users := Some activeUsers;
           page := Some (JS.Num 0);
           search_results := None; search_term := None; search_page := None |} ;;
      await_tg env (editMessageText SelectUser chatId messageId
                      (Some (createUserSelectionKeyboard activeUsers
                               (Some (JS.Num 0)) None))) ;;
      ret Fallthrough
  else if JS.startsWith data "users_page_" then
    let page := JS.parseInt_opt (nth_error (JS.split "_" data) 2) in
    state <- userStates_get chatId ;;
    match state with
    | Some st =>
        match users st with
        | Some state_users =>
            userStates_set chatId (set_page st page) ;;
            await_tg env (editMessageReplyMarkup
                            (createUserSelectionKeyboard state_users (Some page) None)
                            chatId messageId) ;;
            ret Fallthrough
        | None => ret Fallthrough
        end
    | None => ret Fallthrough
    end
  else if JS.startsWith data "deactivate_" then
    let userId := JS.substring (String.length "deactivate_") data in
    await_tg env (editMessageText (ConfirmDeactivation userId) chatId messageId
                    (Some (confirm_keyboard userId))) ;;
    ret Fallthrough
  else if JS.startsWith data "confirm_deactivate_" then
    let userId := JS.substring (String.length "confirm_deactivate_") data in
    await_tg env (editMessageText (DeactivatingUser userId) chatId messageId None) ;;
    try_catch
      (MatrixClient.deactivateUser env userId ;;
       console (DeactivatedBy user userId) ;;
       await_tg env (editMessageText (UserDeactivated userId) chatId messageId
                       (Some deactivated_keyboard)) ;;
       ret Fallthrough)
      (fun error =>
         await_tg env (editMessageText (DeactivationFailed error) chatId messageId
                         (Some failed_keyboard)) ;;
         ret Fallthrough)
  else if String.eqb data "back_to_menu" then
    userStates_delete chatId ;;
    await_tg env (editMessageText ChooseAction chatId messageId
                    (Some createMainKeyboard)) ;;
    ret Fallthrough
  else ret Fallthrough.

(** The callback query handler: acknowledge, run the [try] block with its
    [catch], then acknowledge once more unless the block returned. *)
Definition callback_query (callbackQuery : CallbackQuery) : M unit :=
  try_catch
    (await_tg env (answerCallbackQuery (query_id callbackQuery) None) ;; ret tt)
    (fun answerError => console (ErrorAnswering answerError)) ;;
  c <- try_catch (callback_query_body callbackQuery)
         (fun error =>
            console (CallbackQueryError error) ;;
            await_tg env (editMessageText (ErrorText error)
                            (chat_id callbackQuery) (message_id callbackQuery)
                            (Some [ [ back_to_menu_button ] ])) ;;
            ret Fallthrough) ;;
  match c with
  | Fallthrough => fire_tg (answerCallbackQuery (query_id callbackQuery) None)
  | Return => ret tt
  end.

(** What the bot does with an incoming callback query and with an incoming
    message. *)
Definition on_callback_query (callbackQuery : CallbackQuery) : M unit :=
  requireAuthCallback cfg (callback_query) callbackQuery.

Definition on_message (msg : Message) : M unit :=
  onText cfg re_start start_command msg ;;
  onText cfg re_help help_command msg ;;
  onText cfg re_menu menu_command msg ;;
  onText cfg re_whoami whoami_command msg.

End Handlers.

End Secure.

(** ** The complete bot *)

Module Complete.

Definition user_label (user : User) : Label :=
  UserStatusLabel (deactivated user)
    (JS.or_else (displayname user) (name user))
    (admin user)
    (if JS.truthy (user_type user) then user_type user else None).

(** [createUserSelectionKeyboard(users, page = 0, usersPerPage = 10,
    actionPrefix = 'deactivate')] *)
Definition createUserSelectionKeyboard (users : list User)
    (page usersPerPage : option JS.jsnum) (actionPrefix : option string)
  : Keyboard :=
  let page := default (JS.Num 0) page in
  let usersPerPage := default (JS.Num 10) usersPerPage in
  let actionPrefix := default "deactivate" actionPrefix in
  map (fun user =>
         [ {| text := user_label user;
              callback_data := actionPrefix +:+ "_" +:+ name user |} ])
      (pageUsers users page usersPerPage)
  ++ push_navRow (navRow (actionPrefix +:+ "_page_") users page usersPerPage)
  ++ [ [ back_to_menu_button ] ].

Definition actionButton (user : User) : Button :=
  if deactivated user then {| text := DeactivatedMark; callback_data := "noop" |}
  else if admin user then {| text := AdminProtected; callback_data := "noop" |}
  else {| text := DeactivateAction; callback_data := "deactivate_" +:+ name user |}.

(** [createSearchResultKeyboard(users, searchTerm, page = 0, usersPerPage = 10)] *)
Definition createSearchResultKeyboard (users : list User)
    (searchTerm : option string) (page usersPerPage : option JS.jsnum)
  : Keyboard :=
  let page := default (JS.Num 0) page in
  let usersPerPage := default (JS.Num 10) usersPerPage in
  map (fun user =>
         [ {| text := user_label user;
              callback_data := "userinfo_" +:+ name user |};
           actionButton user ])
      (pageUsers users page usersPerPage)
  ++ push_navRow (navRow "search_page_" users page usersPerPage)
  ++ [ [ {| text := NewSearch; callback_data := "search_users" |};
         back_to_menu_button ] ].

(** The filter of the [deactivate_menu] branch: "Filter out deactivated
    users AND admin users for safety". *)
Definition deactivatableUsers (usersData : option (list User)) : list User :=
  List.filter (fun user => negb (deactivated user) && negb (admin user))
    (default [] usersData).

Definition adminCount (usersData : option (list User)) : nat :=
  length (List.filter (fun user => negb (deactivated user) && admin user)
            (default [] usersData)).

Definition no_results_keyboard : Keyboard :=
  [ [ {| text := NewSearch; callback_data := "search_users" |} ];
    [ back_to_menu_button ] ].

Definition userinfo_keyboard (userInfo : User) (userId : string) : Keyboard :=
  [ (if deactivated userInfo
     then [ {| text := UserAlreadyDeactivated; callback_data := "noop" |} ]
     else [ {| text := DeactivateThisUser;
               callback_data := "deactivate_" +:+ userId |} ]);
    [ {| text := BackToSearch; callback_data := "back_to_search" |} ];
    [ {| text := MainMenu; callback_data := "back_to_menu" |} ] ].

(** [state.search_page || 0] *)
Definition search_page_or_0 (st : State) : JS.jsnum :=
  match search_page st with
  | Some (JS.Num z) => if z =? 0 then JS.Num 0 else JS.Num z
  | Some JS.NaN => JS.Num 0
  | None => JS.Num 0
  end.

Section Handlers.
Context (cfg : Config) (env : Env).

(** The part of the search handlers after the "Searching ..." message was
    sent: the [try] block, without its [catch]. *)
Definition show_search_results (chatId searching_id : Z) (searchTerm : string)
    (clear_when_empty : bool) : M unit :=
  searchResults <- MatrixClient.searchUsers env searchTerm None None ;;
  let users := SearchResult.users searchResults in
  if (length users =? 0)%nat then
    await_tg env (editMessageText (NoSearchResults searchTerm) chatId searching_id
                    (Some no_results_keyboard)) ;;
    (if clear_when_empty then userStates_delete chatId else ret tt)
  else
    userStates_set chatId
      {| waiting_for_search := false; users := None; page := None;
         search_results := Some users; search_term := Some searchTerm;
         search_page := Some (JS.Num 0) |} ;;
    await_tg env (editMessageText
                    (SearchResults (SearchResult.total searchResults) (Some searchTerm))
                    chatId searching_id
                    (Some (createSearchResultKeyboard users (Some searchTerm)
                             (Some (JS.Num 0)) None))) ;;
    ret tt.

(** The [/search <term>] command; [match_1] is [match[1]], absent when the
    caller hands over no match object. *)
Definition search_command (msg : Message) (match_1 : option string) : M unit :=
  let chatId := msg_chat_id msg in
  match match_1 with
  | None => throw "Cannot read properties of undefined (reading '1')"
  | Some m =>
      let searchTerm := JS.trim m in
      searching_id <- await_tg env (sendMessage chatId (Searching searchTerm) None) ;;
      try_catch (show_search_results chatId searching_id searchTerm false)
        (fun error =>
           await_tg env (editMessageText (SearchFailed error) chatId searching_id
                           (Some [ [ back_to_menu_button ] ])) ;;
           ret tt)
  end.

(** The ['message'] listener: free text while a search term is awaited. *)
Definition message_listener (msg : Message) : M unit :=
  if JS.truthy (msg_text msg) && JS.startsWith (JS.or_else (msg_text msg) "") "/"
  then ret tt
  else
    let chatId := msg_chat_id msg in
    userState <- userStates_get chatId ;;
    match userState with
    | Some st =>
        if waiting_for_search st then
          match msg_text msg with
          | None => throw "Cannot read properties of undefined (reading 'trim')"
          | Some t =>
              let searchTerm := JS.trim t in
              if String.eqb searchTerm "" then
                fire_tg (sendMessage chatId InvalidSearchTerm None)
              else
                searching_id <-
                  await_tg env (sendMessage chatId (Searching searchTerm) None) ;;
                try_catch (show_search_results chatId searching_id searchTerm true)
                  (fun error =>
                     await_tg env (editMessageText (SearchFailed error) chatId
                                     searching_id
                                     (Some [ [ back_to_menu_button ] ])) ;;
                     userStates_delete chatId)
          end
        else ret tt
    | None => ret tt
    end.

(** The [try] block of the callback query handler. *)
Definition callback_query_body (callbackQuery : CallbackQuery) : M unit :=
  let data := data callbackQuery in
  let chatId := chat_id callbackQuery in
  let messageId := message_id callbackQuery in
  let user := from callbackQuery in
  if String.eqb data "show_my_info" then
    await_tg env (editMessageText (AuthorizationInfo user) chatId messageId
                    (Some [ [ back_to_menu_button ] ])) ;;
    ret tt
  else if String.eqb data "search_users" then
    await_tg env (editMessageText SearchPrompt chatId messageId
                    (Some [ [ back_to_menu_button ] ])) ;;
    userStates_set chatId
      {| waiting_for_search := true; users := None; page := None;
         search_results := None; search_term := None; search_page := None |}
  else if JS.startsWith data "search_page_" then
    let page := JS.parseInt_opt (nth_error (JS.split "_" data) 2) in
    state <- userStates_get chatId ;;
    match state with
    | Some st =>
        match search_results st with
        | Some results =>
            userStates_set chatId (set_search_page st page) ;;
            await_tg env (editMessageReplyMarkup
                            (createSearchResultKeyboard results (search_term st)
                               (Some page) None)
                            chatId messageId) ;;
            ret tt
        | None => ret tt
        end
    | None => ret tt
    end
  else if JS.startsWith data "userinfo_" then
    let userId := JS.substring (String.length "userinfo_") data in
    try_catch
      (userInfo <- MatrixClient.getUserInfo env userId ;;
       await_tg env (editMessageText (UserInformation userInfo) chatId messageId
                       (Some (userinfo_keyboard userInfo userId))) ;;
       ret tt)
      (fun error =>
         await_tg env (editMessageText (ErrorGettingUserInfo error) chatId messageId
                         (Some [ [ back_to_menu_button ] ])) ;;
         ret tt)
  else if String.eqb data "back_to_search" then
    state <- userStates_get chatId ;;
    match state with
    | Some st =>
        match search_results st with
        | Some results =>
            await_tg env (editMessageText
                            (SearchResults (length results) (search_term st))
                            chatId messageId
                            (Some (createSearchResultKeyboard results (search_term st)
                                     (Some (search_page_or_0 st)) None))) ;;
            ret tt
        | None =>
            await_tg env (editMessageText ChooseAction chatId messageId
                            (Some createMainKeyboard)) ;;
            ret tt
        end
    | None =>
        await_tg env (editMessageText ChooseAction chatId messageId
                        (Some createMainKeyboard)) ;;
        ret tt
    end
  else if String.eqb data "get_users" then
    await_tg env (editMessageText FetchingUsers chatId messageId None) ;;
    usersData <- MatrixClient.getUsers env None None ;;
    let users := default [] usersData in
    if (length users =? 0)%nat then
      await_tg env (editMessageText NoUsersFound chatId messageId
                      (Some [ [ back_to_menu_button ] ])) ;;
      ret tt
    else
      await_tg env (editMessageText (UsersList users) chatId messageId
                      (Some [ [ back_to_menu_button ] ])) ;;
      ret tt
  else if String.eqb data "deactivate_menu" then
    await_tg env (editMessageText LoadingUsers chatId messageId None) ;;
    usersData <- MatrixClient.getUsers env None None ;;
    let deactivatableUsers := deactivatableUsers usersData in
    if (length deactivatableUsers =? 0)%nat then
      await_tg env (editMessageText (NoUsersAvailable (adminCount usersData))
                      chatId messageId (Some [ [ back_to_menu_button ] ])) ;;
      ret tt
    else
      userStates_set chatId
        {| waiting_for_search := false; users := Some deactivatableUsers;
           page := Some (JS.Num 0);
           search_results := None; search_term := None; search_page := None |} ;;
      await_tg env (editMessageText SelectUser chatId messageId
                      (Some (createUserSelectionKeyboard deactivatableUsers
                               (Some (JS.Num 0)) None None))) ;;
      ret tt
  else if JS.startsWith data "deactivate_page_" then
    let page := JS.parseInt_opt (nth_error (JS.split "_" data) 2) in
    state <- userStates_get chatId ;;
    match state with
    | Some st =>
        match users st with
        | Some state_users =>
            userStates_set chatId (set_page st page) ;;
            await_tg env (editMessageReplyMarkup
                            (createUserSelectionKeyboard state_users (Some page)
                               None None)
                            chatId messageId) ;;
            ret tt
        | None => ret tt
        end
    | None => ret tt
    end
  else if JS.startsWith data "deactivate_" then
    let userId := JS.substring (String.length "deactivate_") data in
    await_tg env (editMessageText (ConfirmDeactivation userId) chatId messageId
                    (Some (confirm_keyboard userId))) ;;
    ret tt
  else if JS.startsWith data "confirm_deactivate_" then
    let userId := JS.substring (String.length "confirm_deactivate_") data in
    await_tg env (editMessageText (DeactivatingUser userId) chatId messageId None) ;;
    try_catch
      (MatrixClient.deactivateUser env userId ;;
       console (DeactivatedBy user userId) ;;
       await_tg env (editMessageText (UserDeactivated userId) chatId messageId
                       (Some deactivated_keyboard)) ;;
       ret tt)
      (fun error =>
         await_tg env (editMessageText (DeactivationFailed error) chatId messageId
                         (Some failed_keyboard)) ;;
         ret tt)
  else if String.eqb data "back_to_menu" then
    userStates_delete chatId ;;
    await_tg env (editMessageText ChooseAction chatId messageId
                    (Some createMainKeyboard)) ;;
    ret tt
  else if String.eqb data "noop" then ret tt
  else ret tt.

(** The callback query handler: acknowledge, then the [try] block with its
    [catch]. *)
Definition callback_query (callbackQuery : CallbackQuery) : M unit :=
  try_catch
    (await_tg env (answerCallbackQuery (query_id callbackQuery) None) ;; ret tt)
    (fun answerError => console (ErrorAnswering answerError)) ;;
  try_catch (callback_query_body callbackQuery)
    (fun error =>
       console (CallbackQueryError error) ;;
       await_tg env (editMessageText (ErrorText error)
                       (chat_id callbackQuery) (message_id callbackQuery)
                       (Some [ [ back_to_menu_button ] ])) ;;
       ret tt).

Definition on_callback_query (callbackQuery : CallbackQuery) : M unit :=
  requireAuthCallback cfg callback_query callbackQuery.

(** An incoming message reaches the ['message'] listener first, then the
    command listeners in the order they were registered.  The wrapper hands
    the [/search] listener the message only, never the match. *)
Definition on_message (msg : Message) : M unit :=
  detached (requireAuth cfg message_listener msg) ;;
  onText cfg re_start start_command msg ;;
  onText cfg re_help help_command msg ;;
  onText cfg re_menu menu_command msg ;;
  onText cfg re_whoami whoami_command msg ;;
  onText cfg (fun t => bool_decide (is_Some (re_search t)))
    (fun msg => search_command msg None) msg.

End Handlers.

End Complete.

(** ** Executions of a bot *)

Inductive Update : Type :=
| MessageUpdate (msg : Message)
| CallbackUpdate (callbackQuery : CallbackQuery).

Definition secure_bot (cfg : Config) (env : Env) (u : Update) : M unit :=
  match u with
  | MessageUpdate msg => Secure.on_message cfg msg
  | CallbackUpdate q => Secure.on_callback_query cfg env q
  end.

Definition complete_bot (cfg : Config) (env : Env) (u : Update) : M unit :=
  match u with
  | MessageUpdate msg => Complete.on_message cfg env msg
  | CallbackUpdate q => Complete.on_callback_query cfg env q
  end.

Definition outcome_of {A} (r : Outcome A * States * list Effect) : Outcome A :=
  fst (fst r).
Definition store_of {A} (r : Outcome A * States * list Effect) : States :=
  snd (fst r).
Definition calls_of {A} (r : Outcome A * States * list Effect) : list Effect :=
  snd r.

(** The keyboard a Telegram call carries, and its callback tokens. *)
Definition markup_of (c : TgCall) : Keyboard :=
  match c with
  | sendMessage _ _ (Some k) => k
  | editMessageText _ _ _ (Some k) => k
  | editMessageReplyMarkup k _ _ => k
  | _ => []
  end.

Definition tokens (k : Keyboard) : list string := map callback_data (concat k).

(** The tokens an effect puts on the operator's screen: those of the
    keyboard of a Telegram call that went through. *)
Definition shown (env : Env) (e : Effect) : list string :=
  match e with
  | Tg c => match telegram env c with
            | inr _ => tokens (markup_of c)
            | inl _ => []
            end
  | _ => []
  end.

Definition shown_tokens (env : Env) (t : list Effect) : list string :=
  concat (map (shown env) t).

(** One processed update: the state of the outside world while it was
    processed, the update, and the calls the bot made. *)
Record Moment : Type := {
  world : Env;
  update : Update;
  calls : list Effect
}.

(** A button can be pressed only if the bot has put it on the screen. *)
Definition pressable (history : list Moment) (u : Update) : Prop :=
  match u with
  | MessageUpdate _ => True
  | CallbackUpdate q =>
      exists m, In m history /\ In (data q) (shown_tokens (world m) (calls m))
  end.

(** The executions of a bot, from the empty session store. *)
Inductive execution (bot : Env -> Update -> M unit)
  : list Moment -> States -> Prop :=
| execution_start : execution bot [] ∅
| execution_step history s env u :
    execution bot history s ->
    pressable history u ->
    execution bot
      (history ++ [ {| world := env; update := u;
                       calls := calls_of (bot env u s) |} ])
      (store_of (bot env u s)).

(** A call that shows the operator something new: a message sent or
    edited, or an acknowledgement that carries a text. *)
Definition is_notice (e : Effect) : bool :=
  match e with
  | Tg (sendMessage _ _ _) => true
  | Tg (editMessageText _ _ _ _) => true
  | Tg (editMessageReplyMarkup _ _ _) => true
  | Tg (answerCallbackQuery _ (Some _)) => true
  | _ => false
  end.

Definition is_request (e : Effect) : bool :=
  match e with
  | Http _ => true
  | _ => false
  end.

Definition is_deactivation (e : Effect) : bool :=
  match e with
  | Http (DeactivateReq _ _) => true
  | _ => false
  end.

(** ** Predicates on the calls of a run *)

(** Every call the computation makes satisfies [P], whatever the store it
    starts from. *)
Definition emits {A} (P : Effect -> Prop) (m : M A) : Prop :=
  forall s, Forall P (calls_of (m s)).

(** A deactivation request is the answer to the token
    [confirm_deactivate_<userId>] and does not ask for erasure. *)
Definition confirmed_deactivation (data : string) (e : Effect) : Prop :=
  match e with
  | Http (DeactivateReq userId erase) =>
      data = "confirm_deactivate_" +:+ userId /\ erase = false
  | _ => True
  end.

Definition no_deactivation (e : Effect) : Prop :=
  match e with
  | Http (DeactivateReq _ _) => False
  | _ => True
  end.

(** No button of the keyboard carries a confirmation token. *)
Definition token_ok (b : Button) : bool :=
  negb (JS.startsWith (callback_data b) "confirm_deactivate_").

Definition no_confirm (k : Keyboard) : bool := forallb token_ok (concat k).

(** The confirmation prompt for [userId], as an edit of the message the
    pressed button belongs to. *)
Definition prompt (q : CallbackQuery) (userId : string) : TgCall :=
  editMessageText (ConfirmDeactivation userId) (chat_id q) (message_id q)
    (Some (confirm_keyboard userId)).

(** A keyboard with a confirmation token is the prompt, shown in answer to
    the token [deactivate_<userId>]. *)
Definition confirm_only_in_prompt (q : CallbackQuery) (e : Effect) : Prop :=
  match e with
  | Tg c =>
      no_confirm (markup_of c) = true
      \/ exists userId, data q = "deactivate_" +:+ userId /\ c = prompt q userId
  | _ => True
  end.

Definition no_confirm_shown (e : Effect) : Prop :=
  match e with
  | Tg c => no_confirm (markup_of c) = true
  | _ => True
  end.

(** Every deactivation request of the history answers a press of the
    "Yes" button of a confirmation prompt for that user, and the prompt
    was put on the screen earlier, in answer to [deactivate_<userId>], by
    a step that sent no deactivation request itself. *)
Definition confirmed_before (history : list Moment) : Prop :=
  forall before m after userId erase,
    history = before ++ m :: after ->
    In (Http (DeactivateReq userId erase)) (calls m) ->
    exists q,
      update m = CallbackUpdate q
      /\ data q = "confirm_deactivate_" +:+ userId
      /\ exists m' q',
           In m' before
           /\ update m' = CallbackUpdate q'
           /\ data q' = "deactivate_" +:+ userId
           /\ In (Tg (prompt q' userId)) (calls m')
           /\ (exists mid, telegram (world m') (prompt q' userId) = inr mid)
           /\ Forall no_deactivation (calls m').

(** ** The "Cancel" button and stale buttons *)

Definition is_cancel (l : Label) : bool :=
  match l with
  | Cancel => true
  | _ => false
  end.

(** The token the "Cancel" button of a keyboard sends. *)
Definition cancel_token (k : Keyboard) : option string :=
  option_map callback_data (List.find (fun b => is_cancel (text b)) (concat k)).

(** What a cancel that only went back to the listing would do: the session
    keeps its page, and the run sends no request to the directory. *)
Definition cancel_as_claimed (env : Env) (s : States) (q : CallbackQuery) : Prop :=
  (store_of (Secure.callback_query env q s) !! chat_id q ≫= page)
  = (s !! chat_id q ≫= page)
  /\ Forall (fun e => is_request e = false)
            (calls_of (Secure.callback_query env q s)).

(** The session of a chat holds no user list, or no search results. *)
Definition no_user_list (s : States) (chatId : Z) : Prop :=
  s !! chatId ≫= users = None.

Definition no_search_results (s : States) (chatId : Z) : Prop :=
  s !! chatId ≫= search_results = None.

(** A run that changes nothing and shows nothing: it ends normally, leaves
    the store as it was, sends no request and no notice. *)
Definition silent_no_op (r : Outcome unit * States * list Effect) (s : States)
  : Prop :=
  outcome_of r = Ok tt
  /\ store_of r = s
  /\ Forall (fun e => is_notice e = false /\ is_request e = false) (calls_of r).

(** ** Paging, in words *)

(** The items whose index is at least [start] and below [stop]. *)
Definition items_between {A} (items : list A) (start stop : Z) : list A :=
  firstn (Z.to_nat (stop - start)) (skipn (Z.to_nat start) items).


(** ** Case-insensitive containment, stated without [toLowerCase] *)

(** Two characters are the same up to case when they are equal or are the
    upper-case and the lower-case form of one ASCII letter. *)
Definition same_char (c d : ascii) : Prop :=
  c = d
  \/ (JS.is_upper c = true /\ nat_of_ascii d = (nat_of_ascii c + 32)%nat)
  \/ (JS.is_upper d = true /\ nat_of_ascii c = (nat_of_ascii d + 32)%nat).

Inductive same_text : string -> string -> Prop :=
| same_empty : same_text EmptyString EmptyString
| same_cons c d s t :
    same_char c d -> same_text s t -> same_text (String c s) (String d t).

(** [s] contains [t] case-insensitively: some stretch of [s] is [t] up to
    case. *)
Definition contains_nocase (s t : string) : Prop :=
  exists before stretch after,
    s = before +:+ stretch +:+ after /\ same_text stretch t.

(** The matching rule of the search on ASCII text, in words. *)
Definition search_rule (searchTerm : string) (user : User) : Prop :=
  contains_nocase (name user) searchTerm
  \/ (exists d, displayname user = Some d /\ contains_nocase d searchTerm)
  \/ name user = searchTerm.

(** ** Case-insensitive containment, for any text *)

(** [s] contains [t] case-insensitively, as the search means it: the
    lower-cased [s] contains the lower-cased [t], both lower-cased by the
    engine. *)
Definition contains_lowered (env : Env) (s t : string) : Prop :=
  exists before after,
    toLowerCase env s = before +:+ toLowerCase env t +:+ after.

(** The matching rule of the search: the id contains the term
    case-insensitively, or the display name is present (set and not empty)
    and contains it case-insensitively, or the id is the term. *)
Definition matching_rule (env : Env) (searchTerm : string) (user : User) : Prop :=
  contains_lowered env (name user) searchTerm
  \/ (exists d, displayname user = Some d /\ d <> ""
                /\ contains_lowered env d searchTerm)
  \/ name user = searchTerm.

(** The id and the display name of the account are ASCII text. *)
Definition ascii_account (user : User) : Prop :=
  JS.is_ascii (name user) = true
  /\ forall d, displayname user = Some d -> JS.is_ascii d = true.

(** ** A directory behind the admin API *)

(** Modelled from the spec: the remote directory, which is not part of the
    repository.  [GET users(offset, limit)] answers with the accounts from
    [offset] on, at most [limit] of them; the other calls succeed.  The
    scenarios below are ASCII text, so the lower-casing of this world is
    the one of ASCII text. *)
Definition directory_env (directory : list User) (telegram_ok : TgCall -> string + Z)
  : Env :=
  {| get_users := fun from limit =>
       inr (Some (firstn (Z.to_nat limit) (skipn (Z.to_nat from) directory)));
     post_deactivate := fun _ _ => inr tt;
     get_user := fun userId =>
       match List.find (fun u => String.eqb (name u) userId) directory with
       | Some u => inr u
       | None => inl "User not found"
       end;
     telegram := telegram_ok;
     toLowerCase := JS.toLowerCase |}.

(** ** Scenario data *)

Definition john : User :=
  {| name := "@john:x"; displayname := Some "J. Public";
     deactivated := false; admin := false; user_type := None |}.

Definition mary : User :=
  {| name := "@mary:x"; displayname := Some "Mary Johnson";
     deactivated := false; admin := false; user_type := None |}.

(** Account number [n] of a generated directory. *)
Definition account (n : nat) : User :=
  {| name := "@u" +:+ JS.toString (JS.Num (Z.of_nat n)) +:+ ":x";
     displayname := None; deactivated := false; admin := false;
     user_type := None |}.

Definition accounts (n : nat) : list User := map account (seq 0 n).

Definition operator : TgUser :=
  {| id := 42; username := Some "admin"; first_name := Some "Ada";
     last_name := None |}.

(** Every Telegram call goes through. *)
Definition telegram_up : TgCall -> string + Z := fun _ => inr 1.

(** One more processed update, for building executions by hand. *)
Definition run_step (bot : Env -> Update -> M unit) (env : Env) (u : Update)
    (hs : list Moment * States) : list Moment * States :=
  (fst hs ++ [ {| world := env; update := u;
                  calls := calls_of (bot env u (snd hs)) |} ],
   store_of (bot env u (snd hs))).

Definition cfg42 : Config := config_of_env (Some "42") None.

Definition small_directory : Env := directory_env [john; mary] telegram_up.

Definition press (token : string) : Update :=
  CallbackUpdate {| query_id := "q"; from := operator; data := token;
                    chat_id := 5; message_id := 9 |}.

Definition say (t : string) : Update :=
  MessageUpdate {| msg_from := operator; msg_chat_id := 5; msg_text := Some t |}.

(** The operator opens the menu, asks for the deactivation list, selects
    [@john:x] and confirms. *)
Definition deactivation_scenario : list Moment * States :=
  run_step (secure_bot cfg42) small_directory (press "confirm_deactivate_@john:x")
    (run_step (secure_bot cfg42) small_directory (press "deactivate_@john:x")
       (run_step (secure_bot cfg42) small_directory (press "deactivate_menu")
          (run_step (secure_bot cfg42) small_directory (say "/start")
             ([], ∅)))).

(** The session entry of a chat that shows page [p] of a candidate list. *)
Definition listing_state (candidates : list User) (p : Z) : State :=
  {| waiting_for_search := false; users := Some candidates;
     page := Some (JS.Num p);
     search_results := None; search_term := None; search_page := None |}.

(** The operator is on page 2 of a list of twenty-five candidates. *)
Definition page_two_session : States :=
  {[ 5 := listing_state (accounts 25) 2 ]}.

Definition query (token : string) : CallbackQuery :=
  {| query_id := "q"; from := operator; data := token;
     chat_id := 5; message_id := 9 |}.

(** ** More predicates on runs *)

(** The chat an update belongs to. *)
Definition update_chat (u : Update) : Z :=
  match u with
  | MessageUpdate msg => msg_chat_id msg
  | CallbackUpdate q => chat_id q
  end.

(** The sender of an update. *)
Definition update_sender (u : Update) : TgUser :=
  match u with
  | MessageUpdate msg => msg_from msg
  | CallbackUpdate q => from q
  end.

(** The console line [isAuthorized] prints when nothing is configured. *)
Definition locked_down_line (cfg : Config) : list Effect :=
  if (length (AUTHORIZED_USERS cfg) =? 0)%nat
     && (length (AUTHORIZED_USERNAMES cfg) =? 0)%nat
  then [Console LockedDown] else [].

(** What a rejected sender may cause: console lines, the denial message in
    the chat of the update, and the "Access denied" answer to a press. *)
Definition is_denial (chatId : Z) (e : Effect) : Prop :=
  match e with
  | Console _ => True
  | Tg (sendMessage c AccessDeniedText None) => c = chatId
  | Tg (answerCallbackQuery _ (Some AccessDeniedAnswer)) => True
  | _ => False
  end.

(** The store after a run is related to the store before it. *)
Definition store_rel {A} (R : States -> States -> Prop) (m : M A) : Prop :=
  forall s, R s (store_of (m s)).

(** Two stores agree on every chat but [chatId]. *)
Definition same_elsewhere (chatId : Z) (s s' : States) : Prop :=
  forall c, c <> chatId -> s' !! c = s !! c.

(** A run can only raise errors that satisfy [P]. *)
Definition throws_only {A} (P : string -> Prop) (m : M A) : Prop :=
  forall s e, outcome_of (m s) = Throw e -> P e.

(** The message that renders an error caught by the callback handler. *)
Definition error_message (q : CallbackQuery) (message : string) : TgCall :=
  editMessageText (ErrorText message) (chat_id q) (message_id q)
    (Some [ [ back_to_menu_button ] ]).

(** A run that ends normally, leaves the store as it was and makes only
    calls that satisfy [P]. *)
Definition quiet_run (P : Effect -> Prop) (m : M unit) : Prop :=
  forall s, exists t, m s = (Ok tt, s, t) /\ Forall P t.

(** Telegram is unreachable: every call fails. *)
Definition telegram_down : TgCall -> string + Z := fun _ => inl "ETELEGRAM".

Definition is_yes (l : Label) : bool :=
  match l with
  | YesDeactivate => true
  | _ => false
  end.

(** The token the "Yes, Deactivate" button of a keyboard sends. *)
Definition yes_token (k : Keyboard) : option string :=
  option_map callback_data (List.find (fun b => is_yes (text b)) (concat k)).

(** A directory that refuses every request with the same error. *)
Definition failing_directory (message : string) (tg : TgCall -> string + Z) : Env :=
  {| get_users := fun _ _ => inl message;
     post_deactivate := fun _ _ => inl message;
     get_user := fun _ => inl message;
     telegram := tg;
     toLowerCase := JS.toLowerCase |}.

(** The session entry of a chat that was asked for a search term, and of a
    chat that shows page [p] of the results of a search. *)
Definition waiting_session : State :=
  {| waiting_for_search := true; users := None; page := None;
     search_results := None; search_term := None; search_page := None |}.

Definition search_session (searchTerm : string) (results : list User) (p : Z)
  : State :=
  {| waiting_for_search := false; users := None; page := None;
     search_results := Some results; search_term := Some searchTerm;
     search_page := Some (JS.Num p) |}.

(** A text message of the operator in chat 5. *)
Definition text_message (t : string) : Message :=
  {| msg_from := operator; msg_chat_id := 5; msg_text := Some t |}.

(** The chat of the message was asked for a search term and the message
    carries one: its text is no command and is not blank. *)
Definition search_awaited (s : States) (msg : Message) : Prop :=
  exists st t,
    s !! msg_chat_id msg = Some st /\ waiting_for_search st = true
    /\ msg_text msg = Some t /\ JS.startsWith t "/" = false /\ JS.trim t <> "".

Definition no_request (e : Effect) : Prop :=
  match e with
  | Http _ => False
  | _ => True
  end.

Definition search_request_only (e : Effect) : Prop :=
  match e with
  | Http r => r = GetUsersReq 0 1000
  | _ => True
  end.

(** ** The first bot (the script bundled after the README) *)

(** Its [MatrixClient] has the [getUsers] and [deactivateUser] above, its
    [createUserSelectionKeyboard] is the one of the secure bot, and its
    main menu has two buttons.  It defines [isAuthorized]
    ([Basic_auth.isAuthorized]) but registers its listeners unwrapped. *)
Module Basic.

Definition createMainKeyboard : Keyboard :=
  [ [ {| text := GetAllUsers; callback_data := "get_users" |} ];
    [ {| text := DeactivateUser; callback_data := "deactivate_menu" |} ] ].

Section Handlers.
Context (env : Env).

(** The [try] block of the callback query handler. *)
Definition callback_query_body (callbackQuery : CallbackQuery) : M Completion :=
  let data := data callbackQuery in
  let chatId := chat_id callbackQuery in
  let messageId := message_id callbackQuery in
  if String.eqb data "get_users" then
    await_tg env (editMessageText FetchingUsers chatId messageId None) ;;
    usersData <- MatrixClient.getUsers env None None ;;
    let users := default [] usersData in
    if (length users =? 0)%nat then
      await_tg env (editMessageText NoUsersFound chatId messageId
                      (Some [ [ back_to_menu_button ] ])) ;;
      ret Return
    else
      await_tg env (editMessageText (UsersList users) chatId messageId
                      (Some [ [ back_to_menu_button ] ])) ;;
      ret Fallthrough
  else if String.eqb data "deactivate_menu" then
    await_tg env (editMessageText LoadingUsers chatId messageId None) ;;
    usersData <- MatrixClient.getUsers env None None ;;
    let activeUsers := Secure.activeUsers usersData in
    if (length activeUsers =? 0)%nat then
      await_tg env (editMessageText NoActiveUsers chatId messageId
                      (Some [ [ back_to_menu_button ] ])) ;;
      ret Return
    else
      userStates_set chatId
        {| waiting_for_search := false; users := Some activeUsers;
           page := Some (JS.Num 0);
           search_results := None; search_term := None; search_page := None |} ;;
      await_tg env (editMessageText SelectUser chatId messageId
                      (Some (Secure.createUserSelectionKeyboard activeUsers
                               (Some (JS.Num 0)) None))) ;;
      ret Fallthrough
  else if JS.startsWith data "users_page_" then
    let page := JS.parseInt_opt (nth_error (JS.split "_" data) 2) in
    state <- userStates_get chatId ;;
    match state with
    | Some st =>
        match users st with
        | Some state_users =>
            userStates_set chatId (set_page st page) ;;
            await_tg env (editMessageReplyMarkup
                            (Secure.createUserSelectionKeyboard state_users
                               (Some page) None)
                            chatId messageId) ;;
            ret Fallthrough
        | None => ret Fallthrough
        end
    | None => ret Fallthrough
    end
  else if JS.startsWith data "deactivate_" then
    let userId := JS.substring (String.length "deactivate_") data in
    await_tg env (editMessageText (ConfirmDeactivation userId) chatId messageId
                    (Some (confirm_keyboard userId))) ;;
    ret Fallthrough
  else if JS.startsWith data "confirm_deactivate_" then
    let userId := JS.substring (String.length "confirm_deactivate_") data in
    await_tg env (editMessageText (DeactivatingUser userId) chatId messageId None) ;;
    try_catch
      (MatrixClient.deactivateUser env userId ;;
       await_tg env (editMessageText (UserDeactivated userId) chatId messageId
                       (Some deactivated_keyboard)) ;;
       ret Fallthrough)
      (fun error =>
         await_tg env (editMessageText (DeactivationFailed error) chatId messageId
                         (Some failed_keyboard)) ;;
         ret Fallthrough)
  else if String.eqb data "back_to_menu" then
    userStates_delete chatId ;;
    await_tg env (editMessageText ChooseAction chatId messageId
                    (Some createMainKeyboard)) ;;
    ret Fallthrough
  else ret Fallthrough.

(** The listener as registered: the [try] block with its [catch], then the
    acknowledgement unless the block returned.  No wrapper stands in front
    of it. *)
Definition on_callback_query (callbackQuery : CallbackQuery) : M unit :=
  c <- try_catch (callback_query_body callbackQuery)
         (fun error =>
            console (CallbackQueryError error) ;;
            await_tg env (editMessageText (ErrorText error)
                            (chat_id callbackQuery) (message_id callbackQuery)
                            (Some [ [ back_to_menu_button ] ])) ;;
            ret Fallthrough) ;;
  match c with
  | Fallthrough => fire_tg (answerCallbackQuery (query_id callbackQuery) None)
  | Return => ret tt
  end.

End Handlers.

End Basic.

(** A sender who is on no allow-list. *)
Definition stranger : TgUser :=
  {| id := 7; username := Some "eve"; first_name := None; last_name := None |}.

(** A number the model holds exactly as the engine does: not a number, or
    an integer of magnitude at most 2^53. *)
Definition exact_number (x : JS.jsnum) : Prop :=
  match x with
  | JS.Num z => Z.abs z <= 2 ^ 53
  | JS.NaN => True
  end.

(** The world's directory holds these accounts: [GET users(offset, limit)]
    answers with the accounts from [offset] on, at most [limit] of them. *)
Definition serves (env : Env) (directory : list User) : Prop :=
  forall from limit,
    get_users env from limit
    = inr (Some (firstn (Z.to_nat limit) (skipn (Z.to_nat from) directory))).

(** * Properties *)

(** ** The primitives on examples *)

Example parseInt_examples :
  JS.parseInt " 42" = JS.Num 42 /\ JS.parseInt "-7x" = JS.Num (-7) /\
  JS.parseInt "0x1F" = JS.Num 31 /\ JS.parseInt "" = JS.NaN /\
  JS.parseInt "abc" = JS.NaN /\ JS.toString (JS.Num 12) = "12" /\
  JS.toString (JS.Num (-3)) = "-3" /\ JS.toString (JS.Num 0) = "0".
Proof. repeat split; vm_compute; reflexivity. Qed.

Example split_examples :
  JS.split "_" "users_page_3" = ["users"; "page"; "3"] /\
  JS.split "," "" = [""] /\ JS.split "," "a,, b " = ["a"; ""; " b "] /\
  JS.trim "  a b  " = "a b" /\ JS.toLowerCase "Alice_9" = "alice_9" /\
  JS.includes "mary johnson" "john" = true /\ JS.includes "abc" "" = true /\
  JS.includes "abc" "abd" = false.
Proof. repeat split; vm_compute; reflexivity. Qed.

(** [trim] strips the engine's white space: here a no-break space
    (U+00A0) in front and an ideographic space (U+3000) behind, but not a
    zero-width space (U+200B). *)
Example trim_examples :
  JS.trim (String (ascii_of_nat 194) (String (ascii_of_nat 160) " alice"))
  = "alice"
  /\ JS.trim ("bob" +:+ String (ascii_of_nat 227) (String (ascii_of_nat 128)
                          (String (ascii_of_nat 128) "")))
     = "bob"
  /\ JS.trim (String (ascii_of_nat 226) (String (ascii_of_nat 128)
                (String (ascii_of_nat 139) "x")))
     = String (ascii_of_nat 226) (String (ascii_of_nat 128)
         (String (ascii_of_nat 139) "x"))
  /\ JS.parseInt (String (ascii_of_nat 194) (String (ascii_of_nat 160) "42"))
     = JS.Num 42.
Proof. repeat split; vm_compute; reflexivity. Qed.

Example config_examples :
  config_of_env (Some "42, 7") (Some "Alice , BOB") =
    {| AUTHORIZED_USERS := [JS.Num 42; JS.Num 7];
       AUTHORIZED_USERNAMES := ["alice"; "bob"] |} /\
  config_of_env None (Some "") =
    {| AUTHORIZED_USERS := []; AUTHORIZED_USERNAMES := [] |}.
Proof. split; vm_compute; reflexivity. Qed.

(** ** Strings *)

Lemma append_assoc (a b c : string) : (a +:+ b) +:+ c = a +:+ b +:+ c.
Proof. induction a as [|x a IH]; simpl; [reflexivity | now rewrite IH]. Qed.

Lemma append_empty_r (a : string) : a +:+ "" = a.
Proof. induction a as [|x a IH]; simpl; [reflexivity | now rewrite IH]. Qed.

Lemma startsWith_spec (s p : string) :
  JS.startsWith s p = true <-> exists rest, s = p +:+ rest.
Proof.
  unfold JS.startsWith. revert s.
  induction p as [|c p IH]; intros s.
  - split; [intros _; now exists s | now destruct s].
  - destruct s as [|d s]; simpl;
      [split; [discriminate | intros [r Hr]; discriminate]|].
    destruct (Ascii.ascii_dec c d) as [->|Hne].
    + rewrite IH. split; intros [r Hr]; exists r; congruence.
    + split; [discriminate | intros [r Hr]; congruence].
Qed.

Lemma startsWith_substring (s p : string) :
  JS.startsWith s p = true -> s = p +:+ JS.substring (String.length p) s.
Proof.
  intros H. apply startsWith_spec in H as [rest ->]. f_equal.
  induction p as [|c p IH]; simpl; [reflexivity | exact IH].
Qed.

Lemma includes_cons (c : ascii) (s t : string) :
  JS.includes (String c s) t = JS.startsWith (String c s) t || JS.includes s t.
Proof. reflexivity. Qed.

Lemma includes_empty (t : string) : JS.includes "" t = JS.startsWith "" t.
Proof. apply orb_false_r. Qed.

Lemma includes_spec (s t : string) :
  JS.includes s t = true <-> exists before after, s = before +:+ t +:+ after.
Proof.
  induction s as [|c s IH]; [rewrite includes_empty | rewrite includes_cons].
  - rewrite startsWith_spec. split.
    + intros [r Hr]. now exists "", r.
    + intros (b & a & H). destruct b; [now exists a | discriminate].
  - rewrite orb_true_iff, startsWith_spec, IH. split.
    + intros [[r Hr] | (b & a & H)].
      * now exists "", r.
      * exists (String c b), a. simpl. now rewrite H.
    + intros (b & a & H). destruct b as [|x b]; simpl in H.
      * left. now exists a.
      * right. exists b, a. congruence.
Qed.

Lemma toLowerCase_append (a b : string) :
  JS.toLowerCase (a +:+ b) = JS.toLowerCase a +:+ JS.toLowerCase b.
Proof. induction a as [|x a IH]; simpl; [reflexivity | now rewrite IH]. Qed.

(** A split of the lower-cased string is the image of a split of the
    string. *)
Lemma toLowerCase_split (s x y : string) :
  JS.toLowerCase s = x +:+ y ->
  exists a b, s = a +:+ b /\ JS.toLowerCase a = x /\ JS.toLowerCase b = y.
Proof.
  revert s. induction x as [|c x IH]; intros s H; simpl in H.
  - now exists "", s.
  - destruct s as [|d s]; [discriminate|]. simpl in H.
    injection H as Hc Hs. destruct (IH _ Hs) as (a & b & -> & Ha & Hb).
    exists (String d a), b. simpl. now rewrite Hc, Ha.
Qed.

Lemma is_upper_bounds (c : ascii) :
  JS.is_upper c = true <-> (65 <= nat_of_ascii c <= 90)%nat.
Proof.
  unfold JS.is_upper. rewrite andb_true_iff, !Nat.leb_le. tauto.
Qed.

Lemma nat_of_ascii_inj (c d : ascii) : nat_of_ascii c = nat_of_ascii d -> c = d.
Proof.
  intros H. rewrite <- (ascii_nat_embedding c), <- (ascii_nat_embedding d).
  now rewrite H.
Qed.

Lemma nat_of_lower_upper (c : ascii) :
  JS.is_upper c = true ->
  nat_of_ascii (JS.lower_char c) = (nat_of_ascii c + 32)%nat.
Proof.
  intros H. unfold JS.lower_char. rewrite H.
  apply is_upper_bounds in H. apply nat_ascii_embedding. lia.
Qed.

Lemma lower_char_same (c d : ascii) :
  JS.lower_char c = JS.lower_char d <-> same_char c d.
Proof.
  unfold same_char. split.
  - intros H. apply (f_equal nat_of_ascii) in H.
    destruct (JS.is_upper c) eqn:Hc, (JS.is_upper d) eqn:Hd.
    + rewrite !nat_of_lower_upper in H by assumption.
      left. apply nat_of_ascii_inj. lia.
    + rewrite nat_of_lower_upper in H by assumption.
      unfold JS.lower_char in H. rewrite Hd in H. right; left. split; congruence.
    + rewrite (nat_of_lower_upper d) in H by assumption.
      unfold JS.lower_char in H. rewrite Hc in H. right; right. split; congruence.
    + unfold JS.lower_char in H. rewrite Hc, Hd in H.
      left. now apply nat_of_ascii_inj.
  - intros [-> | [[Hc Hd] | [Hd Hc]]]; [reflexivity | |].
    + apply nat_of_ascii_inj. rewrite nat_of_lower_upper by assumption.
      assert (JS.is_upper d = false) as Hn.
      { apply not_true_iff_false. rewrite is_upper_bounds.
        apply is_upper_bounds in Hc. lia. }
      unfold JS.lower_char. rewrite Hn. congruence.
    + apply nat_of_ascii_inj. rewrite (nat_of_lower_upper d) by assumption.
      assert (JS.is_upper c = false) as Hn.
      { apply not_true_iff_false. rewrite is_upper_bounds.
        apply is_upper_bounds in Hd. lia. }
      unfold JS.lower_char. rewrite Hn. congruence.
Qed.

Lemma toLowerCase_same (s t : string) :
  JS.toLowerCase s = JS.toLowerCase t <-> same_text s t.
Proof.
  split.
  - revert t. induction s as [|c s IH]; intros [|d t] H; simpl in H;
      try discriminate; [constructor|].
    injection H as Hc Hs. constructor; [now apply lower_char_same | now apply IH].
  - induction 1 as [|c d s t Hc _ IH]; simpl; [reflexivity|].
    apply lower_char_same in Hc. now rewrite Hc, IH.
Qed.

(** The test the code makes, [lower(s).includes(lower(t))], decides
    case-insensitive containment. *)
Lemma includes_lower_spec (s t : string) :
  JS.includes (JS.toLowerCase s) (JS.toLowerCase t) = true <-> contains_nocase s t.
Proof.
  rewrite includes_spec. unfold contains_nocase. split.
  - intros (x & z & H).
    destruct (toLowerCase_split _ _ _ H) as (a & r & -> & Ha & Hr).
    destruct (toLowerCase_split _ _ _ Hr) as (m & b & -> & Hm & Hb).
    exists a, m, b. split; [reflexivity | now apply toLowerCase_same].
  - intros (a & m & b & -> & Hm). apply toLowerCase_same in Hm.
    exists (JS.toLowerCase a), (JS.toLowerCase b).
    now rewrite !toLowerCase_append, Hm.
Qed.

Lemma same_text_refl (s : string) : same_text s s.
Proof. now apply toLowerCase_same. Qed.

Lemma contains_nocase_refl (s : string) : contains_nocase s s.
Proof.
  exists "", s, "". split; [simpl; now rewrite append_empty_r | apply same_text_refl].
Qed.

Lemma same_text_empty (s t : string) : same_text s t -> s = "" <-> t = "".
Proof. destruct 1; [tauto | split; discriminate]. Qed.

(** ** Authorization gate *)

Lemma jsnum_eqb_eq (a b : JS.jsnum) : JS.jsnum_eqb a b = true <-> a = b.
Proof.
  destruct a as [x|], b as [y|]; simpl; try (split; [discriminate | congruence]);
    [|tauto].
  rewrite Z.eqb_eq. split; congruence.
Qed.

Lemma includes_num_spec (l : list JS.jsnum) (x : JS.jsnum) :
  JS.includes_num l x = true <-> In x l.
Proof.
  unfold JS.includes_num. rewrite existsb_exists. split.
  - intros (y & Hy & E). apply jsnum_eqb_eq in E. now subst.
  - intros H. exists x. split; [assumption | now apply jsnum_eqb_eq].
Qed.

Lemma includes_str_spec (l : list string) (x : string) :
  JS.includes_str l x = true <-> In x l.
Proof.
  unfold JS.includes_str. rewrite existsb_exists. split.
  - intros (y & Hy & E). apply String.eqb_eq in E. now subst.
  - intros H. exists x. split; [assumption | apply String.eqb_refl].
Qed.

Lemma truthy_spec (o : option string) :
  JS.truthy o = true <-> exists h, o = Some h /\ h <> "".
Proof.
  destruct o as [h|]; simpl.
  - rewrite negb_true_iff, String.eqb_neq. split.
    + intros H. now exists h.
    + intros (h' & E & H). congruence.
  - split; [discriminate | intros (h & E & _); discriminate].
Qed.

Lemma or_else_truthy (o : option string) (h d : string) :
  o = Some h -> h <> "" -> JS.or_else o d = h.
Proof. intros -> H. simpl. apply String.eqb_neq in H. now rewrite H. Qed.

Lemma allow_list_empty (cfg : Config) :
  (length (AUTHORIZED_USERS cfg) =? 0)%nat
  && (length (AUTHORIZED_USERNAMES cfg) =? 0)%nat = true
  <-> AUTHORIZED_USERS cfg = [] /\ AUTHORIZED_USERNAMES cfg = [].
Proof.
  rewrite andb_true_iff, !Nat.eqb_eq.
  destruct (AUTHORIZED_USERS cfg), (AUTHORIZED_USERNAMES cfg); simpl;
    split; intros [? ?]; split; congruence.
Qed.

(** The name check of [isAuthorized], as a proposition. *)
Lemma handle_check_spec (cfg : Config) (user : TgUser) :
  JS.truthy (username user)
  && JS.includes_str (AUTHORIZED_USERNAMES cfg)
       (JS.toLowerCase (JS.or_else (username user) "")) = true
  <-> exists h, username user = Some h /\ h <> ""
                /\ In (JS.toLowerCase h) (AUTHORIZED_USERNAMES cfg).
Proof.
  rewrite andb_true_iff, truthy_spec, includes_str_spec. split.
  - intros [(h & E & Hne) Hin]. exists h.
    rewrite (or_else_truthy _ h "" E Hne) in Hin. auto.
  - intros (h & E & Hne & Hin). split; [now exists h |].
    now rewrite (or_else_truthy _ h "" E Hne).
Qed.

Lemma isAuthorized_spec (cfg : Config) (user : TgUser) :
  Secure_auth.isAuthorized cfg user = true <->
  ~ (AUTHORIZED_USERS cfg = [] /\ AUTHORIZED_USERNAMES cfg = []) /\
  (In (JS.Num (id user)) (AUTHORIZED_USERS cfg) \/
   exists h, username user = Some h /\ h <> ""
             /\ In (JS.toLowerCase h) (AUTHORIZED_USERNAMES cfg)).
Proof.
  unfold Secure_auth.isAuthorized.
  rewrite <- allow_list_empty, <- handle_check_spec, <- includes_num_spec.
  destruct ((length (AUTHORIZED_USERS cfg) =? 0)%nat
            && (length (AUTHORIZED_USERNAMES cfg) =? 0)%nat).
  - split; [discriminate | intros [H _]; now destruct H].
  - destruct (JS.includes_num (AUTHORIZED_USERS cfg) (JS.Num (id user))).
    + split; [intros _; split; [discriminate | now left] | reflexivity].
    + destruct (JS.truthy (username user)
                && JS.includes_str (AUTHORIZED_USERNAMES cfg)
                     (JS.toLowerCase (JS.or_else (username user) ""))).
      * split; [intros _; split; [discriminate | now right] | reflexivity].
      * split; [discriminate | intros [_ [H | H]]; discriminate].
Qed.

(** C1 (amended).  When both the id list and the handle list are empty, the
    [isAuthorized] of the secure bot (shared by the complete and the
    Russian bot) returns false for every actor, with or without a handle;
    the [isAuthorized] of the first bot returns true for every actor
    instead. *)
Theorem isAuthorized_empty_allow_list (cfg : Config) (user : TgUser) :
  AUTHORIZED_USERS cfg = [] -> AUTHORIZED_USERNAMES cfg = [] ->
  Secure_auth.isAuthorized cfg user = false
  /\ Basic_auth.isAuthorized cfg user = true.
Proof.
  intros Hids Hnames.
  unfold Secure_auth.isAuthorized, Basic_auth.isAuthorized.
  rewrite Hids, Hnames. split; reflexivity.
Qed.

Lemma isAuthorized_empty_allow_list_witness :
  Secure_auth.isAuthorized (config_of_env None None)
    {| id := 7; username := None; first_name := None; last_name := None |} = false
  /\ Basic_auth.isAuthorized (config_of_env None None)
    {| id := 7; username := None; first_name := None; last_name := None |} = true.
Proof. apply isAuthorized_empty_allow_list; reflexivity. Defined.

(** With nothing configured the first bot authorizes an actor that has no
    handle: it does not fail closed. *)
Lemma isAuthorized_fail_open_counterexample :
  Basic_auth.isAuthorized
    {| AUTHORIZED_USERS := []; AUTHORIZED_USERNAMES := [] |}
    {| id := 7; username := None; first_name := None; last_name := None |}
  <> false.
Proof. discriminate. Qed.

(** C4.  For a non-empty allow-list, [isAuthorized] returns true exactly
    when the actor's id is in the id list or the actor has a (non-empty)
    handle whose lower-cased form is in the handle list.  So a listed id
    authorizes whatever the handle is, and two actors with the same id
    whose handles differ only in case get the same answer. *)
Theorem isAuthorized_nonempty_allow_list (cfg : Config) (user : TgUser) :
  AUTHORIZED_USERS cfg <> [] \/ AUTHORIZED_USERNAMES cfg <> [] ->
  (Secure_auth.isAuthorized cfg user = true <->
   In (JS.Num (id user)) (AUTHORIZED_USERS cfg) \/
   exists h, username user = Some h /\ h <> ""
             /\ In (JS.toLowerCase h) (AUTHORIZED_USERNAMES cfg))
  /\ (In (JS.Num (id user)) (AUTHORIZED_USERS cfg) ->
      Secure_auth.isAuthorized cfg user = true)
  /\ (forall user' h h',
        id user' = id user ->
        username user = Some h -> username user' = Some h' -> same_text h h' ->
        Secure_auth.isAuthorized cfg user' = Secure_auth.isAuthorized cfg user).
Proof.
  intros Hne.
  assert (forall u, Secure_auth.isAuthorized cfg u = true <->
            In (JS.Num (id u)) (AUTHORIZED_USERS cfg) \/
            exists h, username u = Some h /\ h <> ""
                      /\ In (JS.toLowerCase h) (AUTHORIZED_USERNAMES cfg)) as Hiff.
  { intros u. rewrite isAuthorized_spec. split; [tauto|].
    intros H. split; [|exact H]. intros [E1 E2]. destruct Hne; contradiction. }
  split; [apply Hiff|]. split; [intros H; apply Hiff; now left|].
  intros user' h h' Hid Hu Hu' Hsame.
  assert (Secure_auth.isAuthorized cfg user' = true
          <-> Secure_auth.isAuthorized cfg user = true) as Heq.
  { rewrite !Hiff, Hid. apply or_iff_compat_l.
    pose proof (same_text_empty _ _ Hsame) as Hemp.
    apply toLowerCase_same in Hsame.
    split; intros (x & E & Hx & Hin).
    - exists h. rewrite Hu' in E. injection E as <-.
      rewrite Hsame. tauto.
    - exists h'. rewrite Hu in E. injection E as <-.
      rewrite <- Hsame. tauto. }
  destruct (Secure_auth.isAuthorized cfg user'), (Secure_auth.isAuthorized cfg user);
    try reflexivity; [symmetry|]; apply Heq; reflexivity.
Qed.

(** Handle [Alice] in the configuration, actor handle [ALICE], id not
    listed. *)
Lemma isAuthorized_nonempty_allow_list_witness :
  Secure_auth.isAuthorized (config_of_env (Some "42") (Some "Alice , bob"))
    {| id := 7; username := Some "ALICE"; first_name := None; last_name := None |}
  = true.
Proof.
  assert (AUTHORIZED_USERS (config_of_env (Some "42") (Some "Alice , bob")) <> []
          \/ AUTHORIZED_USERNAMES (config_of_env (Some "42") (Some "Alice , bob")) <> [])
    as Hne by (left; vm_compute; discriminate).
  apply (proj2 (proj1 (isAuthorized_nonempty_allow_list _
           {| id := 7; username := Some "ALICE";
              first_name := None; last_name := None |} Hne))).
  right. exists "ALICE". split; [reflexivity|]. split; [discriminate|].
  vm_compute. left. reflexivity.
Defined.

(** ** Slices *)

Lemma slice_between {A} (items : list A) (start stop : Z) :
  0 <= start -> 0 <= stop <= Z.of_nat (length items) ->
  JS.slice items (JS.Num start) (JS.Num stop) = items_between items start stop.
Proof.
  intros Hs Hstop. unfold JS.slice, items_between, JS.rel_index.
  destruct (start <? 0) eqn:E1; [lia|]. destruct (stop <? 0) eqn:E2; [lia|].
  rewrite (Z.min_l stop) by lia.
  destruct (Z.le_gt_cases start (Z.of_nat (length items))) as [Hle | Hgt].
  - now rewrite Z.min_l by lia.
  - rewrite Z.min_r by lia. rewrite Nat2Z.id.
    rewrite !skipn_all2 by lia. now rewrite !firstn_nil.
Qed.

Lemma items_between_length {A} (items : list A) (start stop : Z) :
  Z.of_nat (length (items_between items start stop)) <= Z.max 0 (stop - start).
Proof. unfold items_between. rewrite length_firstn. lia. Qed.

Lemma firstn_min_length {A} (l : list A) (k : Z) :
  0 <= k ->
  firstn (Z.to_nat (Z.min k (Z.of_nat (length l)))) l = firstn (Z.to_nat k) l.
Proof.
  intros Hk. destruct (Z.le_gt_cases k (Z.of_nat (length l))) as [Hle | Hgt].
  - now rewrite Z.min_l by lia.
  - rewrite Z.min_r by lia. rewrite Nat2Z.id, firstn_all.
    symmetry. apply firstn_all2. lia.
Qed.

(** ** Deactivation candidates *)

Lemma filter_sublist {A} (f : A -> bool) (l : list A) :
  List.filter f l `sublist_of` l.
Proof.
  induction l as [|x l IH]; simpl; [constructor|].
  destruct (f x); now constructor.
Qed.

(** C2 (amended).  The candidate filter of the complete bot excludes exactly
    the accounts that are deactivated or admins: its output is a sub-list of
    the fetched accounts, and an account is in it exactly when it was
    fetched with both flags false.  The filter of the secure bot excludes
    exactly the deactivated accounts, whatever their admin flag. *)
Theorem deactivation_candidates (usersData : option (list User)) :
  Complete.deactivatableUsers usersData `sublist_of` default [] usersData
  /\ (forall a, In a (Complete.deactivatableUsers usersData) <->
                In a (default [] usersData)
                /\ deactivated a = false /\ admin a = false)
  /\ Secure.activeUsers usersData `sublist_of` default [] usersData
  /\ (forall a, In a (Secure.activeUsers usersData) <->
                In a (default [] usersData) /\ deactivated a = false).
Proof.
  unfold Complete.deactivatableUsers, Secure.activeUsers.
  repeat split; try apply filter_sublist.
  - now apply filter_In in H.
  - apply filter_In in H as [_ H]. apply andb_true_iff in H as [H _].
    now apply negb_true_iff.
  - apply filter_In in H as [_ H]. apply andb_true_iff in H as [_ H].
    now apply negb_true_iff.
  - intros (Hin & Hd & Ha). apply filter_In. now rewrite Hd, Ha.
  - now apply filter_In in H.
  - apply filter_In in H as [_ H]. now apply negb_true_iff.
  - intros (Hin & Hd). apply filter_In. now rewrite Hd.
Qed.

(** The secure bot offers an active admin as a deactivation target. *)
Lemma secure_candidates_counterexample :
  ~ (forall a,
       In a (Secure.activeUsers
               (Some [ {| name := "@root:x"; displayname := None;
                          deactivated := false; admin := true;
                          user_type := None |} ])) ->
       deactivated a = false /\ admin a = false).
Proof.
  intros H.
  destruct (H {| name := "@root:x"; displayname := None; deactivated := false;
                 admin := true; user_type := None |}) as [_ Ha];
    [now left | discriminate].
Qed.

(** ** Search *)

Lemma contains_nocase_empty (s : string) : contains_nocase s "".
Proof. exists "", "", s. split; [reflexivity | constructor]. Qed.

Lemma contains_nocase_in_empty (t : string) : contains_nocase "" t -> t = "".
Proof.
  intros (b & m & a & E & Hm).
  destruct b; [|discriminate]. destruct m; [|discriminate]. now inversion Hm.
Qed.

Lemma contains_lowered_spec (env : Env) (s t : string) :
  JS.includes (toLowerCase env s) (toLowerCase env t) = true
  <-> contains_lowered env s t.
Proof. apply includes_spec. Qed.

Lemma search_filter_spec (env : Env) (searchTerm : string) (user : User) :
  MatrixClient.search_filter env searchTerm (toLowerCase env searchTerm) user = true
  <-> matching_rule env searchTerm user.
Proof.
  unfold MatrixClient.search_filter, matching_rule.
  rewrite !orb_true_iff, andb_true_iff, !contains_lowered_spec, String.eqb_eq,
    truthy_spec.
  split.
  - intros [[H | [(d & E & Hd) H]] | H]; auto.
    right; left. exists d. split; [assumption|]. split; [assumption|].
    now rewrite (or_else_truthy _ d "" E Hd) in H.
  - intros [H | [(d & E & Hd & H) | H]]; auto.
    left; right. split; [now exists d|].
    now rewrite (or_else_truthy _ d "" E Hd).
Qed.

(** On ASCII text the rule is containment up to the case of letters,
    stated without [toLowerCase]. *)
Lemma contains_lowered_ascii (env : Env) (s t : string) :
  ascii_lowering env -> JS.is_ascii s = true -> JS.is_ascii t = true ->
  contains_lowered env s t <-> contains_nocase s t.
Proof.
  intros Hlow Hs Ht.
  rewrite <- contains_lowered_spec, (Hlow s Hs), (Hlow t Ht).
  apply includes_lower_spec.
Qed.

Lemma matching_rule_ascii (env : Env) (searchTerm : string) (user : User) :
  ascii_lowering env -> JS.is_ascii searchTerm = true -> ascii_account user ->
  matching_rule env searchTerm user <-> search_rule searchTerm user.
Proof.
  intros Hlow Ht [Hname Hdisplay]. unfold matching_rule, search_rule.
  rewrite (contains_lowered_ascii env _ _ Hlow Hname Ht). split.
  - intros [H | [(d & E & Hd & H) | H]]; auto.
    right; left. exists d. split; [assumption|].
    now apply (contains_lowered_ascii env d _ Hlow (Hdisplay d E) Ht).
  - intros [H | [(d & E & H) | H]]; auto.
    destruct (String.eqb_spec d "") as [-> | Hd].
    + apply contains_nocase_in_empty in H as ->.
      left. apply contains_nocase_empty.
    + right; left. exists d. split; [assumption|]. split; [assumption|].
      now apply (contains_lowered_ascii env d _ Hlow (Hdisplay d E) Ht).
Qed.

(** What [searchUsers] returns when the fetch succeeds: the filtered users,
    cut to the first [limit] ones, and their number. *)
Lemma searchUsers_ok (env : Env) (searchTerm : string) (s : States)
    (response : option (list User)) :
  get_users env 0 1000 = inr response ->
  MatrixClient.searchUsers env searchTerm None None s =
    (Ok {| SearchResult.users :=
             firstn 100
               (MatrixClient.filteredUsers env searchTerm (default [] response));
           SearchResult.total :=
             length (MatrixClient.filteredUsers env searchTerm (default [] response));
           SearchResult.from := 0;
           SearchResult.limit := 100 |},
     s, [Http (GetUsersReq 0 1000)]).
Proof.
  intros H. unfold MatrixClient.searchUsers, try_catch, bind, ret,
    MatrixClient.axios_get_users. rewrite H. simpl.
  repeat f_equal.
  set (l := MatrixClient.filteredUsers env searchTerm (default [] response)).
  change (JS.slice l (JS.Num 0) (JS.Num (Z.min (0 + 100) (Z.of_nat (length l))))
          = firstn 100 l).
  rewrite slice_between by lia. unfold items_between.
  rewrite Z.sub_0_r. simpl (0 + 100). simpl (skipn _ _).
  now rewrite firstn_min_length by lia.
Qed.

(** C5.  When the fetch succeeds, a fetched account is among the filtered
    users of [searchUsers] exactly when its id contains the term
    case-insensitively, or its display name is present and contains the
    term case-insensitively, or its id is the term.  Case-insensitively
    means what the code computes, for every text and whatever the engine's
    lower-casing is: the lower-cased id or name contains the lower-cased
    term.  When term, id and display name are ASCII text, which the engine
    lower-cases by turning [A]..[Z] into [a]..[z], this is containment up
    to the case of letters.  [total] counts the filtered users and [users]
    holds the first hundred of them. *)
Theorem searchUsers_matching_rule (env : Env) (searchTerm : string) (s : States)
    (response : option (list User)) (user : User) :
  get_users env 0 1000 = inr response ->
  In user (default [] response) ->
  (In user (MatrixClient.filteredUsers env searchTerm (default [] response))
   <-> matching_rule env searchTerm user)
  /\ (ascii_lowering env -> JS.is_ascii searchTerm = true -> ascii_account user ->
      (In user (MatrixClient.filteredUsers env searchTerm (default [] response))
       <-> search_rule searchTerm user))
  /\ exists result,
       outcome_of (MatrixClient.searchUsers env searchTerm None None s) = Ok result
       /\ SearchResult.total result =
            length (MatrixClient.filteredUsers env searchTerm (default [] response))
       /\ SearchResult.users result =
            firstn 100
              (MatrixClient.filteredUsers env searchTerm (default [] response)).
Proof.
  intros Hfetch Hin.
  assert (In user (MatrixClient.filteredUsers env searchTerm (default [] response))
          <-> matching_rule env searchTerm user) as Hrule.
  { unfold MatrixClient.filteredUsers. rewrite filter_In, search_filter_spec. tauto. }
  split; [exact Hrule|]. split.
  - intros Hlow Ht Hu. rewrite Hrule. now apply matching_rule_ascii.
  - rewrite (searchUsers_ok _ _ _ _ Hfetch). eexists. repeat split.
Qed.

(** The scenario of the specification: the term "john" finds the account
    with id "@john:x" and the account named "Mary Johnson"; the term
    "@john:x" finds the first. *)
Lemma searchUsers_matching_rule_witness :
  In john (MatrixClient.filteredUsers small_directory "john" [john; mary])
  /\ In mary (MatrixClient.filteredUsers small_directory "john" [john; mary])
  /\ In john (MatrixClient.filteredUsers small_directory "@john:x" [john; mary]).
Proof.
  assert (get_users small_directory 0 1000 = inr (Some [john; mary])) as Hfetch
    by (vm_compute; reflexivity).
  assert (ascii_lowering small_directory) as Hlow by (intros t _; reflexivity).
  assert (ascii_account john /\ ascii_account mary) as [Hjohn Hmary]
    by (split; split; [reflexivity | intros d [= <-]; reflexivity
                      | reflexivity | intros d [= <-]; reflexivity]).
  repeat split.
  - apply (proj2 (proj1 (proj2 (searchUsers_matching_rule small_directory "john" ∅
                                  _ john Hfetch (or_introl eq_refl)))
                    Hlow eq_refl Hjohn)).
    left. exists "@", "john", ":x". split; [reflexivity | apply same_text_refl].
  - apply (proj2 (proj1 (proj2 (searchUsers_matching_rule small_directory "john" ∅
                                  _ mary Hfetch (or_intror (or_introl eq_refl))))
                    Hlow eq_refl Hmary)).
    right; left. exists "Mary Johnson". split; [reflexivity|].
    exists "Mary ", "John", "son". split; [reflexivity|].
    apply same_cons; [right; left; split; reflexivity | apply same_text_refl].
  - apply (proj2 (proj1 (proj2 (searchUsers_matching_rule small_directory "@john:x" ∅
                                  _ john Hfetch (or_introl eq_refl)))
                    Hlow eq_refl Hjohn)).
    right; right. reflexivity.
Defined.

(** ** Paging *)

Section Paging.
Context {A : Type} (users : list A) (p n : Z).

Let start := p * n.
Let stop := Z.min (start + n) (Z.of_nat (length users)).

Lemma startIndex_value : startIndex (JS.Num p) (JS.Num n) = JS.Num start.
Proof. reflexivity. Qed.

Lemma endIndex_value : endIndex users (JS.Num p) (JS.Num n) = JS.Num stop.
Proof. reflexivity. Qed.

Lemma pageUsers_value :
  0 <= p -> 0 <= n ->
  pageUsers users (JS.Num p) (JS.Num n) = items_between users start stop.
Proof.
  intros Hp Hn. unfold pageUsers. rewrite startIndex_value, endIndex_value.
  apply slice_between; subst start stop; nia.
Qed.




End Paging.

Lemma push_navRow_concat (row : list Button) : concat (push_navRow row) = row.
Proof. destruct row; simpl; [reflexivity | now rewrite app_nil_r]. Qed.


Lemma secure_keyboard_eq (users : list User) (page size : JS.jsnum) :
  Secure.createUserSelectionKeyboard users (Some page) (Some size)
  = map Secure.user_button (pageUsers users page size)
    ++ push_navRow (navRow "users_page_" users page size)
    ++ [ [ back_to_menu_button ] ].
Proof. reflexivity. Qed.






(** ** Reasoning about the calls of a handler *)

Section Emits.
Context (P : Effect -> Prop).

Lemma emits_ret {A} (a : A) : emits P (ret a).
Proof. intros s. constructor. Qed.

Lemma emits_throw {A} (e : string) : emits P (@throw A e).
Proof. intros s. constructor. Qed.

Lemma emits_bind {A B} (m : M A) (f : A -> M B) :
  emits P m -> (forall a, emits P (f a)) -> emits P (bind m f).
Proof.
  intros Hm Hf s. unfold bind. specialize (Hm s).
  destruct (m s) as [[[a | e] s1] t1]; simpl in *; [|assumption].
  specialize (Hf a s1). destruct (f a s1) as [[r s2] t2]. simpl in *.
  apply Forall_app. now split.
Qed.

Lemma emits_try_catch {A} (m : M A) (h : string -> M A) :
  emits P m -> (forall e, emits P (h e)) -> emits P (try_catch m h).
Proof.
  intros Hm Hh s. unfold try_catch. specialize (Hm s).
  destruct (m s) as [[[a | e] s1] t1]; simpl in *; [assumption|].
  specialize (Hh e s1). destruct (h e s1) as [[r s2] t2]. simpl in *.
  apply Forall_app. now split.
Qed.

Lemma emits_emit (e : Effect) : P e -> emits P (emit e).
Proof. intros H s. simpl. now constructor. Qed.

Lemma emits_console (l : LogEntry) : P (Console l) -> emits P (console l).
Proof. apply emits_emit. Qed.

Lemma emits_fire_tg (c : TgCall) : P (Tg c) -> emits P (fire_tg c).
Proof. apply emits_emit. Qed.

Lemma emits_await_tg (env : Env) (c : TgCall) : P (Tg c) -> emits P (await_tg env c).
Proof.
  intros H s. unfold await_tg. destruct (telegram env c); simpl; now constructor.
Qed.

Lemma emits_get (chatId : Z) : emits P (userStates_get chatId).
Proof. intros s. constructor. Qed.

Lemma emits_set (chatId : Z) (v : State) : emits P (userStates_set chatId v).
Proof. intros s. constructor. Qed.

Lemma emits_delete (chatId : Z) : emits P (userStates_delete chatId).
Proof. intros s. constructor. Qed.

Lemma emits_detached (m : M unit) : emits P m -> emits P (detached m).
Proof.
  intros H s. unfold detached. specialize (H s).
  now destruct (m s) as [[r s1] t1].
Qed.

Lemma emits_axios_get_users (env : Env) (from limit : Z) :
  P (Http (GetUsersReq from limit)) ->
  emits P (MatrixClient.axios_get_users env from limit).
Proof.
  intros H s. unfold MatrixClient.axios_get_users.
  destruct (get_users env from limit); simpl; now constructor.
Qed.

Lemma emits_axios_post_deactivate (env : Env) (userId : string) (erase : bool) :
  P (Http (DeactivateReq userId erase)) ->
  emits P (MatrixClient.axios_post_deactivate env userId erase).
Proof.
  intros H s. unfold MatrixClient.axios_post_deactivate.
  destruct (post_deactivate env userId erase); simpl; now constructor.
Qed.

Lemma emits_axios_get_user (env : Env) (userId : string) :
  P (Http (GetUserReq userId)) ->
  emits P (MatrixClient.axios_get_user env userId).
Proof.
  intros H s. unfold MatrixClient.axios_get_user.
  destruct (get_user env userId); simpl; now constructor.
Qed.

End Emits.

Lemma emits_impl {A} (P Q : Effect -> Prop) (m : M A) :
  (forall e, P e -> Q e) -> emits P m -> emits Q m.
Proof. intros H Hm s. eapply List.Forall_impl; [exact H | apply Hm]. Qed.

Lemma emits_in {A} (P : Effect -> Prop) (m : M A) (s : States) (e : Effect) :
  emits P m -> In e (calls_of (m s)) -> P e.
Proof. intros H Hin. specialize (H s). rewrite List.Forall_forall in H. auto. Qed.

(** One step through the structure of a computation; what is left are the
    side conditions on single calls. *)
Ltac emits_step :=
  lazymatch goal with
  | |- emits _ (ret _) => apply emits_ret
  | |- emits _ (throw _) => apply emits_throw
  | |- emits _ (bind _ _) => apply emits_bind; [| intros ?]
  | |- emits _ (try_catch _ _) => apply emits_try_catch; [| intros ?]
  | |- emits _ (console _) => apply emits_console
  | |- emits _ (emit _) => apply emits_emit
  | |- emits _ (fire_tg _) => apply emits_fire_tg
  | |- emits _ (await_tg _ _) => apply emits_await_tg
  | |- emits _ (userStates_get _) => apply emits_get
  | |- emits _ (userStates_set _ _) => apply emits_set
  | |- emits _ (userStates_delete _) => apply emits_delete
  | |- emits _ (detached _) => apply emits_detached
  | |- emits _ (MatrixClient.axios_get_users _ _ _) => apply emits_axios_get_users
  | |- emits _ (MatrixClient.axios_post_deactivate _ _ _) =>
      apply emits_axios_post_deactivate
  | |- emits _ (MatrixClient.axios_get_user _ _) => apply emits_axios_get_user
  | |- emits _ (if ?b then _ else _) => destruct b eqn:?
  | |- emits _ (match ?x with _ => _ end) => destruct x eqn:?
  end.

Ltac emits_client :=
  unfold MatrixClient.getUsers, MatrixClient.deactivateUser,
    MatrixClient.searchUsers, MatrixClient.getUserInfo; cbv zeta.

Ltac emits_walk := emits_client; repeat (emits_step; emits_client).

(** ** Deactivation requests *)

Ltac confirmed_side :=
  lazymatch goal with
  | |- confirmed_deactivation _ (Http (DeactivateReq _ _)) =>
      split; [now apply startsWith_substring | reflexivity]
  | |- confirmed_deactivation _ _ => exact I
  | |- no_deactivation _ => exact I
  end.

Lemma check_authorized_emits (P : Effect -> Prop) (cfg : Config) (user : TgUser) :
  (forall l, P (Console l)) -> emits P (check_authorized cfg user).
Proof. intros H. unfold check_authorized. emits_walk; apply H. Qed.

Lemma requireAuth_emits (P : Effect -> Prop) (cfg : Config)
    (handler : Message -> M unit) (msg : Message) :
  (forall l, P (Console l)) ->
  P (Tg (sendMessage (msg_chat_id msg) AccessDeniedText None)) ->
  emits P (handler msg) ->
  emits P (requireAuth cfg handler msg).
Proof.
  intros Hc Hd Hh. unfold requireAuth, sendUnauthorizedMessage. cbv zeta.
  apply emits_bind; [now apply check_authorized_emits | intros ok].
  emits_walk; auto.
Qed.

Lemma requireAuthCallback_emits (P : Effect -> Prop) (cfg : Config)
    (handler : CallbackQuery -> M unit) (q : CallbackQuery) :
  (forall l, P (Console l)) ->
  P (Tg (sendMessage (chat_id q) AccessDeniedText None)) ->
  P (Tg (answerCallbackQuery (query_id q) (Some AccessDeniedAnswer))) ->
  emits P (handler q) ->
  emits P (requireAuthCallback cfg handler q).
Proof.
  intros Hc Hd Ha Hh. unfold requireAuthCallback, sendUnauthorizedMessage. cbv zeta.
  apply emits_bind; [now apply check_authorized_emits | intros ok].
  emits_walk; auto.
Qed.

Lemma onText_emits (P : Effect -> Prop) (cfg : Config) (regexp : string -> bool)
    (handler : Message -> M unit) (msg : Message) :
  (forall l, P (Console l)) ->
  P (Tg (sendMessage (msg_chat_id msg) AccessDeniedText None)) ->
  emits P (handler msg) ->
  emits P (onText cfg regexp handler msg).
Proof.
  intros Hc Hd Hh. unfold onText.
  destruct (msg_text msg); [|apply emits_ret].
  destruct (regexp s); [|apply emits_ret].
  apply emits_detached. now apply requireAuth_emits.
Qed.

Lemma secure_callback_confirmed (env : Env) (q : CallbackQuery) :
  emits (confirmed_deactivation (data q)) (Secure.callback_query env q).
Proof.
  unfold Secure.callback_query, Secure.callback_query_body. cbv zeta.
  emits_walk; confirmed_side.
Qed.

Lemma complete_callback_confirmed (env : Env) (q : CallbackQuery) :
  emits (confirmed_deactivation (data q)) (Complete.callback_query env q).
Proof.
  unfold Complete.callback_query, Complete.callback_query_body. cbv zeta.
  emits_walk; confirmed_side.
Qed.

Lemma secure_message_no_deactivation (cfg : Config) (msg : Message) :
  emits no_deactivation (Secure.on_message cfg msg).
Proof.
  unfold Secure.on_message.
  repeat (apply emits_bind; [|intros ?]);
    apply onText_emits; try (intros; exact I);
    unfold start_command, help_command, menu_command, whoami_command;
    emits_walk; exact I.
Qed.

Lemma show_search_results_no_deactivation (env : Env) (chatId mid : Z)
    (term : string) (clear : bool) :
  emits no_deactivation (Complete.show_search_results env chatId mid term clear).
Proof. unfold Complete.show_search_results. emits_walk; exact I. Qed.

Lemma complete_message_no_deactivation (cfg : Config) (env : Env) (msg : Message) :
  emits no_deactivation (Complete.on_message cfg env msg).
Proof.
  unfold Complete.on_message.
  apply emits_bind; [|intros ?].
  { apply emits_detached, requireAuth_emits; try (intros; exact I).
    unfold Complete.message_listener. cbv zeta.
    emits_walk; try exact I; apply show_search_results_no_deactivation. }
  repeat (apply emits_bind; [|intros ?]);
    apply onText_emits; try (intros; exact I);
    unfold start_command, help_command, menu_command, whoami_command,
      Complete.search_command;
    emits_walk; exact I.
Qed.

(** Whatever update either bot processes, a deactivation request goes out
    only for the token [confirm_deactivate_<userId>], and with
    [erase = false]. *)
Lemma bots_deactivation (cfg : Config) (env : Env) (u : Update) (s : States)
    (userId : string) (erase : bool) :
  In (Http (DeactivateReq userId erase)) (calls_of (secure_bot cfg env u s))
  \/ In (Http (DeactivateReq userId erase)) (calls_of (complete_bot cfg env u s)) ->
  exists q, u = CallbackUpdate q
            /\ data q = "confirm_deactivate_" +:+ userId /\ erase = false.
Proof.
  destruct u as [msg | q]; simpl.
  - intros [H | H].
    + now apply (emits_in _ _ _ _ (secure_message_no_deactivation cfg msg)) in H.
    + now apply (emits_in _ _ _ _ (complete_message_no_deactivation cfg env msg)) in H.
  - intros H. exists q. split; [reflexivity|].
    assert (confirmed_deactivation (data q) (Http (DeactivateReq userId erase)))
      as Hc; [|exact Hc].
    destruct H as [H | H]; revert H; apply emits_in;
      apply requireAuthCallback_emits; try (intros; exact I).
    + apply secure_callback_confirmed.
    + apply complete_callback_confirmed.
Qed.

(** C9.  Whatever update the secure or the complete bot processes, every
    deactivation request it sends carries [erase = false]. *)
Theorem deactivation_never_erases (cfg : Config) (env : Env) (u : Update)
    (s : States) (userId : string) (erase : bool) :
  In (Http (DeactivateReq userId erase)) (calls_of (secure_bot cfg env u s))
  \/ In (Http (DeactivateReq userId erase)) (calls_of (complete_bot cfg env u s)) ->
  erase = false.
Proof.
  intros H. now destruct (bots_deactivation _ _ _ _ _ _ H) as (q & _ & _ & ->).
Qed.

Ltac in_calls := vm_compute; repeat (first [left; reflexivity | right]).

Lemma deactivation_never_erases_witness :
  In (Http (DeactivateReq "@bob:x" false))
     (calls_of (secure_bot (config_of_env (Some "42") None)
                  (directory_env [john; mary] telegram_up)
                  (CallbackUpdate
                     {| query_id := "q1"; from := operator;
                        data := "confirm_deactivate_@bob:x";
                        chat_id := 5; message_id := 9 |})
                  ∅))
  /\ false = false.
Proof.
  assert (In (Http (DeactivateReq "@bob:x" false))
            (calls_of (secure_bot (config_of_env (Some "42") None)
                         (directory_env [john; mary] telegram_up)
                         (CallbackUpdate
                            {| query_id := "q1"; from := operator;
                               data := "confirm_deactivate_@bob:x";
                               chat_id := 5; message_id := 9 |})
                         ∅))) as H by in_calls.
  split; [exact H|].
  exact (deactivation_never_erases _ _ _ _ _ _ (or_introl H)).
Defined.

(** ** Keyboards without confirmation tokens *)

Lemma no_confirm_paged {B} (row : B -> list Button) (items : list B)
    (nav last : list Button) :
  (forall x, forallb token_ok (row x) = true) ->
  forallb token_ok nav = true ->
  forallb token_ok last = true ->
  no_confirm (map row items ++ push_navRow nav ++ [last]) = true.
Proof.
  intros Hrow Hnav Hlast. unfold no_confirm.
  rewrite !concat_app, push_navRow_concat, !forallb_app. simpl.
  rewrite app_nil_r, Hnav, Hlast, andb_true_r.
  induction items as [|x items IH]; simpl; [reflexivity|].
  now rewrite forallb_app, Hrow, IH.
Qed.

Lemma navRow_token_ok {A} (prefix : string) (users : list A) (page size : JS.jsnum) :
  (forall x, JS.startsWith (prefix +:+ x) "confirm_deactivate_" = false) ->
  forallb token_ok (navRow prefix users page size) = true.
Proof.
  intros H. unfold navRow.
  destruct (JS.gt _ _), (JS.lt _ _); simpl; unfold token_ok; simpl;
    now rewrite ?H.
Qed.

Lemma secure_keyboard_no_confirm (users : list User) (page size : option JS.jsnum) :
  no_confirm (Secure.createUserSelectionKeyboard users page size) = true.
Proof.
  unfold Secure.createUserSelectionKeyboard. cbv zeta. apply no_confirm_paged.
  - reflexivity.
  - now apply navRow_token_ok.
  - reflexivity.
Qed.

Lemma complete_keyboard_no_confirm (users : list User) (page size : option JS.jsnum) :
  no_confirm (Complete.createUserSelectionKeyboard users page size None) = true.
Proof.
  unfold Complete.createUserSelectionKeyboard. cbv zeta. apply no_confirm_paged.
  - reflexivity.
  - now apply navRow_token_ok.
  - reflexivity.
Qed.

Lemma search_keyboard_no_confirm (users : list User) (term : option string)
    (page size : option JS.jsnum) :
  no_confirm (Complete.createSearchResultKeyboard users term page size) = true.
Proof.
  unfold Complete.createSearchResultKeyboard. cbv zeta. apply no_confirm_paged.
  - intros x. unfold Complete.actionButton.
    destruct (deactivated x), (admin x); reflexivity.
  - now apply navRow_token_ok.
  - reflexivity.
Qed.

Lemma userinfo_keyboard_no_confirm (userInfo : User) (userId : string) :
  no_confirm (Complete.userinfo_keyboard userInfo userId) = true.
Proof. unfold Complete.userinfo_keyboard. now destruct (deactivated userInfo). Qed.

Lemma no_confirm_tokens (k : Keyboard) (tk : string) :
  no_confirm k = true -> In tk (tokens k) ->
  JS.startsWith tk "confirm_deactivate_" = false.
Proof.
  unfold no_confirm, tokens. rewrite forallb_forall, in_map_iff.
  intros H (b & <- & Hb). apply H in Hb. now apply negb_true_iff.
Qed.

Ltac prompt_side :=
  lazymatch goal with
  | |- confirm_only_in_prompt _ (Tg (editMessageText (ConfirmDeactivation _) _ _ _)) =>
      right; eexists; split; [now apply startsWith_substring | reflexivity]
  | |- confirm_only_in_prompt _ (Tg _) =>
      left;
      first [ reflexivity
            | apply secure_keyboard_no_confirm
            | apply complete_keyboard_no_confirm
            | apply search_keyboard_no_confirm
            | apply userinfo_keyboard_no_confirm ]
  | |- confirm_only_in_prompt _ _ => exact I
  | |- no_confirm_shown (Tg _) =>
      first [ reflexivity
            | apply search_keyboard_no_confirm ]
  | |- no_confirm_shown _ => exact I
  end.

Lemma secure_callback_prompt (env : Env) (q : CallbackQuery) :
  emits (confirm_only_in_prompt q) (Secure.callback_query env q).
Proof.
  unfold Secure.callback_query, Secure.callback_query_body. cbv zeta.
  emits_walk; prompt_side.
Qed.

Lemma complete_callback_prompt (env : Env) (q : CallbackQuery) :
  emits (confirm_only_in_prompt q) (Complete.callback_query env q).
Proof.
  unfold Complete.callback_query, Complete.callback_query_body. cbv zeta.
  emits_walk; prompt_side.
Qed.

Lemma secure_message_no_confirm (cfg : Config) (msg : Message) :
  emits no_confirm_shown (Secure.on_message cfg msg).
Proof.
  unfold Secure.on_message.
  repeat (apply emits_bind; [|intros ?]);
    apply onText_emits; try (intros; exact I); try reflexivity;
    unfold start_command, help_command, menu_command, whoami_command;
    emits_walk; prompt_side.
Qed.

Lemma show_search_results_no_confirm (env : Env) (chatId mid : Z)
    (term : string) (clear : bool) :
  emits no_confirm_shown (Complete.show_search_results env chatId mid term clear).
Proof. unfold Complete.show_search_results. emits_walk; prompt_side. Qed.

Lemma complete_message_no_confirm (cfg : Config) (env : Env) (msg : Message) :
  emits no_confirm_shown (Complete.on_message cfg env msg).
Proof.
  unfold Complete.on_message.
  apply emits_bind; [|intros ?].
  { apply emits_detached, requireAuth_emits; try (intros; exact I);
      try reflexivity.
    unfold Complete.message_listener. cbv zeta.
    emits_walk; try prompt_side; apply show_search_results_no_confirm. }
  repeat (apply emits_bind; [|intros ?]);
    apply onText_emits; try (intros; exact I); try reflexivity;
    unfold start_command, help_command, menu_command, whoami_command,
      Complete.search_command;
    emits_walk; prompt_side.
Qed.

(** ** Confirmation before deactivation *)

Lemma append_inj_l (p a b : string) : p +:+ a = p +:+ b -> a = b.
Proof. induction p as [|c p IH]; simpl; [auto | intros H; injection H; auto]. Qed.

Lemma shown_confirm_token (env : Env) (q : CallbackQuery) (t : list Effect)
    (tk : string) :
  Forall (confirm_only_in_prompt q) t ->
  In tk (shown_tokens env t) ->
  JS.startsWith tk "confirm_deactivate_" = true ->
  exists userId,
    data q = "deactivate_" +:+ userId
    /\ tk = "confirm_deactivate_" +:+ userId
    /\ In (Tg (prompt q userId)) t
    /\ exists mid, telegram env (prompt q userId) = inr mid.
Proof.
  intros Hall Hin Htk. unfold shown_tokens in Hin.
  apply in_concat in Hin as (l & Hl & Hin).
  apply in_map_iff in Hl as (e & <- & He).
  rewrite List.Forall_forall in Hall. specialize (Hall e He).
  destruct e as [r | c | l]; simpl in Hin; try contradiction.
  destruct (telegram env c) as [err | mid] eqn:Hc; [contradiction|].
  destruct Hall as [Hno | (userId & Hdata & ->)].
  - rewrite (no_confirm_tokens _ _ Hno Hin) in Htk. discriminate.
  - exists userId. simpl in Hin. destruct Hin as [<- | [<- | []]].
    + repeat split; try assumption. now exists mid.
    + discriminate.
Qed.

Lemma shown_no_confirm (env : Env) (t : list Effect) (tk : string) :
  Forall no_confirm_shown t ->
  In tk (shown_tokens env t) ->
  JS.startsWith tk "confirm_deactivate_" = false.
Proof.
  intros Hall Hin. unfold shown_tokens in Hin.
  apply in_concat in Hin as (l & Hl & Hin).
  apply in_map_iff in Hl as (e & <- & He).
  rewrite List.Forall_forall in Hall. specialize (Hall e He).
  destruct e as [r | c | l]; simpl in Hin; try contradiction.
  destruct (telegram env c); [contradiction|].
  now apply (no_confirm_tokens (markup_of c)).
Qed.

Section Confirmation.
Context (bot : Env -> Update -> M unit).

Hypothesis deactivation_token :
  forall env u s userId erase,
    In (Http (DeactivateReq userId erase)) (calls_of (bot env u s)) ->
    exists q, u = CallbackUpdate q /\ data q = "confirm_deactivate_" +:+ userId.

Hypothesis confirm_token :
  forall env u s tk,
    In tk (shown_tokens env (calls_of (bot env u s))) ->
    JS.startsWith tk "confirm_deactivate_" = true ->
    exists q userId,
      u = CallbackUpdate q
      /\ data q = "deactivate_" +:+ userId
      /\ tk = "confirm_deactivate_" +:+ userId
      /\ In (Tg (prompt q userId)) (calls_of (bot env u s))
      /\ exists mid, telegram env (prompt q userId) = inr mid.

(** Every moment of an execution is a run of the bot on a button that was
    pressable when it was pressed. *)
Lemma execution_moment (history : list Moment) (s : States) :
  execution bot history s ->
  forall before m after,
    history = before ++ m :: after ->
    (exists s0, calls m = calls_of (bot (world m) (update m) s0))
    /\ pressable before (update m).
Proof.
  induction 1 as [|history s env u Hexec IH Hpress]; intros before m after E.
  - now destruct before.
  - destruct after as [|x after _] using rev_ind.
    + apply app_inj_tail in E as [-> <-]. simpl. split; [now exists s | assumption].
    + rewrite app_comm_cons, app_assoc in E.
      apply app_inj_tail in E as [E _]. now apply (IH _ _ _ E).
Qed.

Lemma execution_confirmed (history : list Moment) (s : States) :
  execution bot history s -> confirmed_before history.
Proof.
  intros Hexec before m after userId erase E Hin.
  destruct (execution_moment _ _ Hexec _ _ _ E) as [[s0 Hcalls] Hpress].
  rewrite Hcalls in Hin.
  destruct (deactivation_token _ _ _ _ _ Hin) as (q & Hu & Hdata).
  exists q. split; [assumption|]. split; [assumption|].
  rewrite Hu in Hpress. destruct Hpress as (m' & Hm' & Htk).
  destruct (in_split _ _ Hm') as (b1 & b2 & Hb).
  assert (history = b1 ++ m' :: (b2 ++ m :: after)) as E'.
  { rewrite E, Hb, <- app_assoc. reflexivity. }
  destruct (execution_moment _ _ Hexec _ _ _ E') as [[s1 Hcalls'] _].
  rewrite Hcalls' in Htk.
  destruct (confirm_token _ _ _ _ Htk) as (q' & uid & Hu' & Hdata' & Heq & Hp & Hok).
  { rewrite Hdata. apply startsWith_spec. now exists userId. }
  rewrite Hdata in Heq. apply append_inj_l in Heq as <-.
  exists m', q'. repeat split; try assumption.
  - now rewrite Hcalls'.
  - rewrite Hcalls'. apply List.Forall_forall. intros e He.
    destruct e as [[ | uid' erase' | ] | | ]; try exact I.
    destruct (deactivation_token _ _ _ _ _ He) as (q'' & Hq'' & Hd'').
    rewrite Hu' in Hq''. injection Hq'' as <-.
    rewrite Hdata' in Hd''. discriminate.
Qed.

End Confirmation.

Lemma select_no_deactivation (cfg : Config) (env : Env) (q : CallbackQuery)
    (s : States) (userId : string) :
  data q = "deactivate_" +:+ userId ->
  Forall no_deactivation (calls_of (secure_bot cfg env (CallbackUpdate q) s))
  /\ Forall no_deactivation (calls_of (complete_bot cfg env (CallbackUpdate q) s)).
Proof.
  intros Hdata.
  split; apply List.Forall_forall; intros e He;
    destruct e as [[ | uid erase | ] | | ]; try exact I.
  - destruct (bots_deactivation cfg env _ s uid erase (or_introl He))
      as (q' & Hq & Hd & _).
    injection Hq as <-. rewrite Hdata in Hd. discriminate.
  - destruct (bots_deactivation cfg env _ s uid erase (or_intror He))
      as (q' & Hq & Hd & _).
    injection Hq as <-. rewrite Hdata in Hd. discriminate.
Qed.

(** C3.  In every execution of the secure bot and of the complete bot, a
    deactivation request is sent only in answer to the "Yes" button of a
    confirmation prompt for that user, which an earlier step put on the
    screen in answer to the selection token [deactivate_<userId>] without
    sending any deactivation request; and no run on a selection token sends
    one. *)
Theorem confirmation_is_mandatory (cfg : Config) (history : list Moment)
    (s : States) :
  execution (secure_bot cfg) history s \/ execution (complete_bot cfg) history s ->
  confirmed_before history
  /\ forall env q s' userId,
       data q = "deactivate_" +:+ userId ->
       Forall no_deactivation (calls_of (secure_bot cfg env (CallbackUpdate q) s'))
       /\ Forall no_deactivation
            (calls_of (complete_bot cfg env (CallbackUpdate q) s')).
Proof.
  intros Hexec. split; [|intros env q s' userId; apply select_no_deactivation].
  destruct Hexec as [Hexec | Hexec]; revert Hexec; apply execution_confirmed.
  - intros env u s0 userId erase H.
    destruct (bots_deactivation cfg env u s0 userId erase (or_introl H))
      as (q & ? & ? & _). now exists q.
  - intros env u s0 tk H Htk.
    destruct u as [msg | q].
    + eapply shown_no_confirm in H; [rewrite H in Htk; discriminate|].
      apply secure_message_no_confirm.
    + eapply (shown_confirm_token env q) in H as (userId & ? & ? & ? & ?);
        [exists q, userId; auto 10 | | assumption].
      apply requireAuthCallback_emits;
        try (intros; exact I); try (left; reflexivity).
      apply secure_callback_prompt.
  - intros env u s0 userId erase H.
    destruct (bots_deactivation cfg env u s0 userId erase (or_intror H))
      as (q & ? & ? & _). now exists q.
  - intros env u s0 tk H Htk.
    destruct u as [msg | q].
    + eapply shown_no_confirm in H; [rewrite H in Htk; discriminate|].
      apply complete_message_no_confirm.
    + eapply (shown_confirm_token env q) in H as (userId & ? & ? & ? & ?);
        [exists q, userId; auto 10 | | assumption].
      apply requireAuthCallback_emits;
        try (intros; exact I); try (left; reflexivity).
      apply complete_callback_prompt.
Qed.

Ltac press_from_last :=
  eexists; split; [apply in_or_app; right; left; reflexivity | in_calls].

Lemma deactivation_scenario_execution :
  execution (secure_bot cfg42) (fst deactivation_scenario)
    (snd deactivation_scenario).
Proof.
  unfold deactivation_scenario, run_step. cbn [fst snd].
  apply execution_step; [|press_from_last].
  apply execution_step; [|press_from_last].
  apply execution_step; [|press_from_last].
  apply execution_step; [|exact I].
  apply execution_start.
Qed.

Lemma confirmation_is_mandatory_witness :
  (exists before m,
     fst deactivation_scenario = before ++ [m]
     /\ In (Http (DeactivateReq "@john:x" false)) (calls m))
  /\ confirmed_before (fst deactivation_scenario).
Proof.
  split.
  - unfold deactivation_scenario, run_step. cbn [fst snd].
    eexists. eexists. split; [reflexivity|]. cbn [calls]. in_calls.
  - exact (proj1 (confirmation_is_mandatory cfg42 _ _
                    (or_introl deactivation_scenario_execution))).
Defined.

(** ** Running a handler on a fixed branch *)

Ltac tg_up Htg :=
  repeat match goal with
         | |- context [telegram ?env ?c] =>
             let mid := fresh "mid" in
             let H := fresh "Hmid" in
             destruct (Htg c) as [mid H]; rewrite H; clear H;
             cbv beta iota zeta
         end.

Ltac run_monad :=
  unfold bind, try_catch, ret, throw, await_tg, fire_tg, console, emit,
    userStates_set, userStates_get, userStates_delete,
    MatrixClient.getUsers, MatrixClient.deactivateUser,
    MatrixClient.axios_get_users, MatrixClient.axios_post_deactivate;
  change (default 0 None) with 0; change (default 100 None) with 100;
  cbv beta iota zeta.

(** Runs a handler whose branch is fixed: unfolds the monad, answers the
    Telegram calls with [Htg] and rewrites with [tac]. *)
Ltac run_handler Htg tac :=
  repeat progress (run_monad; tg_up Htg; tac; cbv beta iota zeta).

Lemma length_eqb_0 {A} (l : list A) : l <> [] -> (length l =? 0)%nat = false.
Proof. destruct l; [congruence | reflexivity]. Qed.

Lemma secure_deactivate_menu_run (env : Env) (q : CallbackQuery) (s : States)
    (usersData : option (list User)) :
  data q = "deactivate_menu" ->
  (forall c, exists mid, telegram env c = inr mid) ->
  get_users env 0 100 = inr usersData ->
  Secure.activeUsers usersData <> [] ->
  Secure.callback_query env q s =
    (Ok tt,
     <[chat_id q := listing_state (Secure.activeUsers usersData) 0]> s,
     [ Tg (answerCallbackQuery (query_id q) None);
       Tg (editMessageText LoadingUsers (chat_id q) (message_id q) None);
       Http (GetUsersReq 0 100);
       Tg (editMessageText SelectUser (chat_id q) (message_id q)
             (Some (Secure.createUserSelectionKeyboard
                      (Secure.activeUsers usersData) (Some (JS.Num 0)) None)));
       Tg (answerCallbackQuery (query_id q) None) ]).
Proof.
  intros Hdata Htg Hfetch Hne.
  unfold Secure.callback_query, Secure.callback_query_body. rewrite Hdata.
  cbv zeta. simpl String.eqb. cbv iota.
  run_handler Htg ltac:(rewrite ?Hfetch, ?(length_eqb_0 _ Hne)).
  reflexivity.
Qed.

(** ** Cancel *)

Lemma cancel_token_prompt (userId : string) :
  cancel_token (confirm_keyboard userId) = Some "deactivate_menu".
Proof. reflexivity. Qed.

Lemma filter_request_calls (a b c d : TgCall) (r : Request) :
  List.filter is_request [Tg a; Tg b; Http r; Tg c; Tg d] = [Http r].
Proof. reflexivity. Qed.

(** C7 (amended).  The "Cancel" button of the confirmation prompt sends the
    token [deactivate_menu].  When Telegram and the directory answer and
    there is a candidate, the run on that token ends normally, sends one
    request, a fresh [GET users] with offset 0 and limit 100, and no
    deactivation request, stores the candidates filtered from the answer
    with page 0, and shows their first page.  The session never held a
    pending target. *)
Theorem cancel_reopens_deactivation_menu (env : Env) (q : CallbackQuery)
    (s : States) (usersData : option (list User)) (userId : string) :
  cancel_token (confirm_keyboard userId) = Some (data q) ->
  (forall c, exists mid, telegram env c = inr mid) ->
  get_users env 0 100 = inr usersData ->
  Secure.activeUsers usersData <> [] ->
  outcome_of (Secure.callback_query env q s) = Ok tt
  /\ List.filter is_request (calls_of (Secure.callback_query env q s))
     = [Http (GetUsersReq 0 100)]
  /\ Forall no_deactivation (calls_of (Secure.callback_query env q s))
  /\ store_of (Secure.callback_query env q s) !! chat_id q
     = Some (listing_state (Secure.activeUsers usersData) 0)
  /\ In (Tg (editMessageText SelectUser (chat_id q) (message_id q)
               (Some (Secure.createUserSelectionKeyboard
                        (Secure.activeUsers usersData) (Some (JS.Num 0)) None))))
        (calls_of (Secure.callback_query env q s)).
Proof.
  intros Hcancel Htg Hfetch Hne.
  rewrite cancel_token_prompt in Hcancel. injection Hcancel as Hdata.
  symmetry in Hdata.
  rewrite (secure_deactivate_menu_run env q s usersData Hdata Htg Hfetch Hne).
  unfold outcome_of, store_of, calls_of. cbn [fst snd].
  split; [reflexivity|]. split; [reflexivity|].
  split; [repeat constructor|].
  split; [apply lookup_insert_eq|].
  simpl. auto.
Qed.

Lemma cancel_reopens_deactivation_menu_witness :
  store_of (Secure.callback_query (directory_env (accounts 25) telegram_up)
              (query "deactivate_menu") page_two_session) !! 5
  = Some (listing_state (accounts 25) 0).
Proof.
  assert (Secure.activeUsers (Some (accounts 25)) = accounts 25) as Hall
    by (vm_compute; reflexivity).
  rewrite <- Hall at 2.
  apply (cancel_reopens_deactivation_menu
           (directory_env (accounts 25) telegram_up)
           (query "deactivate_menu") page_two_session
           (Some (accounts 25)) "@u21:x").
  - reflexivity.
  - intros c. exists 1. reflexivity.
  - vm_compute. reflexivity.
  - rewrite Hall. vm_compute. discriminate.
Defined.

(** On page 2 of twenty-five candidates, with the prompt for [@u21:x] on
    the screen, "Cancel" puts the session on page 0 and queries the
    directory. *)
Lemma cancel_counterexample :
  cancel_token (confirm_keyboard "@u21:x") = Some (data (query "deactivate_menu"))
  /\ ~ cancel_as_claimed (directory_env (accounts 25) telegram_up)
         page_two_session (query "deactivate_menu").
Proof.
  split; [reflexivity|]. intros [Hpage _].
  assert (Secure.activeUsers (Some (accounts 25)) <> []) as Hne
    by (vm_compute; discriminate).
  rewrite (secure_deactivate_menu_run (directory_env (accounts 25) telegram_up)
             (query "deactivate_menu") page_two_session (Some (accounts 25))
             eq_refl (fun c => ex_intro _ 1 eq_refl) eq_refl Hne) in Hpage.
  unfold store_of in Hpage. cbn [fst snd query chat_id] in Hpage.
  rewrite lookup_insert_eq in Hpage. unfold page_two_session in Hpage.
  rewrite lookup_singleton_eq in Hpage. discriminate.
Qed.

(** ** Stale buttons *)

Lemma prefix_empty (s : string) : String.prefix "" s = true.
Proof. now destruct s. Qed.

Ltac pick_branch Hdata :=
  rewrite Hdata; cbv zeta; unfold JS.startsWith;
  simpl String.eqb; simpl String.prefix; rewrite ?prefix_empty; cbv iota.

Ltac silent_side :=
  unfold silent_no_op, outcome_of, store_of, calls_of; cbn [fst snd];
  repeat split; try reflexivity; repeat constructor.

Lemma secure_stale_page (env : Env) (q : CallbackQuery) (s : States)
    (rest : string) :
  data q = "users_page_" +:+ rest ->
  no_user_list s (chat_id q) ->
  silent_no_op (Secure.callback_query env q s) s.
Proof.
  intros Hdata Hno. unfold no_user_list in Hno.
  unfold Secure.callback_query, Secure.callback_query_body.
  pick_branch Hdata. run_monad.
  destruct (telegram env (answerCallbackQuery (query_id q) None));
    cbv beta iota zeta;
    (destruct (s !! chat_id q) as [st|]; simpl in Hno; cbv beta iota zeta;
     [rewrite Hno|]; cbv beta iota zeta; silent_side).
Qed.

Lemma complete_stale_page (env : Env) (q : CallbackQuery) (s : States)
    (rest : string) :
  data q = "deactivate_page_" +:+ rest ->
  no_user_list s (chat_id q) ->
  silent_no_op (Complete.callback_query env q s) s.
Proof.
  intros Hdata Hno. unfold no_user_list in Hno.
  unfold Complete.callback_query, Complete.callback_query_body.
  pick_branch Hdata. run_monad.
  destruct (telegram env (answerCallbackQuery (query_id q) None));
    cbv beta iota zeta;
    (destruct (s !! chat_id q) as [st|]; simpl in Hno; cbv beta iota zeta;
     [rewrite Hno|]; cbv beta iota zeta; silent_side).
Qed.

Lemma complete_stale_search_page (env : Env) (q : CallbackQuery) (s : States)
    (rest : string) :
  data q = "search_page_" +:+ rest ->
  no_search_results s (chat_id q) ->
  silent_no_op (Complete.callback_query env q s) s.
Proof.
  intros Hdata Hno. unfold no_search_results in Hno.
  unfold Complete.callback_query, Complete.callback_query_body.
  pick_branch Hdata. run_monad.
  destruct (telegram env (answerCallbackQuery (query_id q) None));
    cbv beta iota zeta;
    (destruct (s !! chat_id q) as [st|]; simpl in Hno; cbv beta iota zeta;
     [rewrite Hno|]; cbv beta iota zeta; silent_side).
Qed.

(** C8 (amended).  A page-navigation button pressed when the session holds
    no list to page through (the session was cleared, or holds something
    else) is a silent no-op: the run ends normally, leaves the session
    store as it was, sends no request, and shows the operator nothing; its
    only calls are the bare acknowledgement of the press and, if that
    fails, a console line.  This holds for [users_page_] in the secure
    bot and for [deactivate_page_] and [search_page_] in the complete
    bot. *)
Theorem stale_page_button_is_silent (env : Env) (q : CallbackQuery)
    (s : States) (rest : string) :
  (data q = "users_page_" +:+ rest -> no_user_list s (chat_id q) ->
   silent_no_op (Secure.callback_query env q s) s)
  /\ (data q = "deactivate_page_" +:+ rest -> no_user_list s (chat_id q) ->
      silent_no_op (Complete.callback_query env q s) s)
  /\ (data q = "search_page_" +:+ rest -> no_search_results s (chat_id q) ->
      silent_no_op (Complete.callback_query env q s) s).
Proof.
  split; [apply secure_stale_page|].
  split; [apply complete_stale_page | apply complete_stale_search_page].
Qed.

Lemma stale_page_button_is_silent_witness :
  silent_no_op (Secure.callback_query small_directory (query "users_page_1") ∅) ∅
  /\ silent_no_op (Complete.callback_query small_directory
                     (query "search_page_1") ∅) ∅.
Proof.
  split.
  - apply (proj1 (stale_page_button_is_silent small_directory
                    (query "users_page_1") ∅ "1")); reflexivity.
  - apply (proj2 (proj2 (stale_page_button_is_silent small_directory
                           (query "search_page_1") ∅ "1"))); reflexivity.
Defined.

(** After the session was cleared, the press of a "Next" button gets no
    notice: the secure bot only logs the access and acknowledges the
    press. *)
Lemma stale_page_counterexample :
  ~ Exists (fun e => is_notice e = true)
      (calls_of (secure_bot cfg42 small_directory (press "users_page_1") ∅)).
Proof.
  assert (calls_of (secure_bot cfg42 small_directory (press "users_page_1") ∅)
          = [ Console (AuthorizedAccess operator "callback: users_page_1");
              Tg (answerCallbackQuery "q" None);
              Tg (answerCallbackQuery "q" None) ]) as ->
    by (vm_compute; reflexivity).
  intros H. repeat (inversion_clear H as [? ? H' | ? ? H0]; [discriminate | rename H0 into H]).
  inversion H.
Qed.

(** ** How much of the directory the flows see *)

Lemma secure_get_users_run (env : Env) (q : CallbackQuery) (s : States)
    (usersData : option (list User)) :
  data q = "get_users" ->
  (forall c, exists mid, telegram env c = inr mid) ->
  get_users env 0 100 = inr usersData ->
  default [] usersData <> [] ->
  Secure.callback_query env q s =
    (Ok tt, s,
     [ Tg (answerCallbackQuery (query_id q) None);
       Tg (editMessageText FetchingUsers (chat_id q) (message_id q) None);
       Http (GetUsersReq 0 100);
       Tg (editMessageText (UsersList (default [] usersData))
             (chat_id q) (message_id q) (Some [ [ back_to_menu_button ] ]));
       Tg (answerCallbackQuery (query_id q) None) ]).
Proof.
  intros Hdata Htg Hfetch Hne.
  unfold Secure.callback_query, Secure.callback_query_body. rewrite Hdata.
  cbv zeta. simpl String.eqb. cbv iota.
  run_handler Htg ltac:(rewrite ?Hfetch, ?(length_eqb_0 _ Hne)).
  reflexivity.
Qed.

Lemma firstn_nonempty {A} (l : list A) (n : nat) :
  (0 < n)%nat -> (0 < length l)%nat -> firstn n l <> [].
Proof. destruct n, l; simpl; intros; try lia; discriminate. Qed.

Lemma secure_deactivate_menu_empty_run (env : Env) (q : CallbackQuery)
    (s : States) (usersData : option (list User)) :
  data q = "deactivate_menu" ->
  (forall c, exists mid, telegram env c = inr mid) ->
  get_users env 0 100 = inr usersData ->
  Secure.activeUsers usersData = [] ->
  Secure.callback_query env q s =
    (Ok tt, s,
     [ Tg (answerCallbackQuery (query_id q) None);
       Tg (editMessageText LoadingUsers (chat_id q) (message_id q) None);
       Http (GetUsersReq 0 100);
       Tg (editMessageText NoActiveUsers (chat_id q) (message_id q)
             (Some [ [ back_to_menu_button ] ])) ]).
Proof.
  intros Hdata Htg Hfetch Hnone.
  unfold Secure.callback_query, Secure.callback_query_body. rewrite Hdata.
  cbv zeta. simpl String.eqb. cbv iota.
  run_handler Htg ltac:(rewrite ?Hfetch, ?Hnone).
  reflexivity.
Qed.

Lemma directory_env_serves (directory : list User) (tg : TgCall -> string + Z) :
  serves (directory_env directory tg) directory.
Proof. intros from limit. reflexivity. Qed.

(** C10.  Against a directory of more than one hundred accounts, with
    Telegram answering: the "list users" flow of the secure bot sends one
    request, [GET users] with offset 0 and limit 100, and displays the
    first hundred accounts; the deactivation menu sends the same single
    request, and its candidates are the accounts of the first hundred
    that are not deactivated: it stores and shows them, or reports that
    there are none and leaves the session as it was; [searchUsers] sends
    its own request, with offset 0 and limit 1000, and filters the first
    thousand accounts. *)
Theorem listings_use_first_hundred (env : Env) (directory : list User)
    (q : CallbackQuery) (s : States) :
  serves env directory ->
  (forall c, exists mid, telegram env c = inr mid) ->
  (100 < length directory)%nat ->
  (data q = "get_users" ->
   calls_of (Secure.callback_query env q s) =
     [ Tg (answerCallbackQuery (query_id q) None);
       Tg (editMessageText FetchingUsers (chat_id q) (message_id q) None);
       Http (GetUsersReq 0 100);
       Tg (editMessageText (UsersList (firstn 100 directory))
             (chat_id q) (message_id q) (Some [ [ back_to_menu_button ] ]));
       Tg (answerCallbackQuery (query_id q) None) ])
  /\ (data q = "deactivate_menu" ->
      let candidates := Secure.activeUsers (Some (firstn 100 directory)) in
      let run := Secure.callback_query env q s in
      List.filter is_request (calls_of run) = [Http (GetUsersReq 0 100)]
      /\ (candidates <> [] ->
          store_of run !! chat_id q = Some (listing_state candidates 0)
          /\ In (Tg (editMessageText SelectUser (chat_id q) (message_id q)
                       (Some (Secure.createUserSelectionKeyboard candidates
                                (Some (JS.Num 0)) None))))
                (calls_of run))
      /\ (candidates = [] ->
          store_of run = s
          /\ In (Tg (editMessageText NoActiveUsers (chat_id q) (message_id q)
                       (Some [ [ back_to_menu_button ] ])))
                (calls_of run)))
  /\ (forall searchTerm,
        calls_of (MatrixClient.searchUsers env searchTerm None None s)
        = [Http (GetUsersReq 0 1000)]
        /\ exists result,
             outcome_of (MatrixClient.searchUsers env searchTerm None None s)
             = Ok result
             /\ SearchResult.total result
                = length (MatrixClient.filteredUsers env searchTerm
                            (firstn 1000 directory))
             /\ SearchResult.users result
                = firstn 100 (MatrixClient.filteredUsers env searchTerm
                                (firstn 1000 directory))).
Proof.
  intros Hserves Htg Hlen.
  pose proof (Hserves 0 100) as Hfetch.
  pose proof (Hserves 0 1000) as Hsearch.
  change (skipn (Z.to_nat 0) directory) with directory in Hfetch, Hsearch.
  change (Z.to_nat 100) with 100%nat in Hfetch.
  change (Z.to_nat 1000) with 1000%nat in Hsearch.
  split; [|split].
  - intros Hdata.
    rewrite (secure_get_users_run env q s _ Hdata Htg Hfetch); [reflexivity|].
    apply firstn_nonempty; lia.
  - intros Hdata candidates run. subst run.
    destruct candidates as [|c cs] eqn:Hc; subst candidates.
    + rewrite (secure_deactivate_menu_empty_run env q s _ Hdata Htg Hfetch Hc).
      unfold store_of, calls_of. cbn [fst snd].
      split; [reflexivity|]. split; [congruence|].
      intros _. split; [reflexivity|]. simpl. auto.
    + assert (Secure.activeUsers (Some (firstn 100 directory)) <> []) as Hne
        by (rewrite Hc; discriminate).
      rewrite (secure_deactivate_menu_run env q s _ Hdata Htg Hfetch Hne).
      unfold store_of, calls_of. cbn [fst snd]. rewrite Hc.
      split; [reflexivity|]. split; [|discriminate].
      intros _. split; [apply lookup_insert_eq|]. simpl. auto.
  - intros searchTerm. rewrite (searchUsers_ok _ searchTerm s _ Hsearch).
    split; [reflexivity|]. eexists. repeat split.
Qed.

(** A directory of 150 accounts: the listing shows 100 of them. *)
Lemma listings_use_first_hundred_witness :
  In (Tg (editMessageText (UsersList (firstn 100 (accounts 150))) 5 9
            (Some [ [ back_to_menu_button ] ])))
     (calls_of (Secure.callback_query (directory_env (accounts 150) telegram_up)
                  (query "get_users") ∅))
  /\ length (firstn 100 (accounts 150)) = 100%nat.
Proof.
  assert (100 < length (accounts 150))%nat as Hlen
    by (unfold accounts; rewrite length_map, length_seq; lia).
  split.
  - rewrite (proj1 (listings_use_first_hundred
                      (directory_env (accounts 150) telegram_up) (accounts 150)
                      (query "get_users") ∅
                      (directory_env_serves _ _)
                      (fun c => ex_intro _ 1 eq_refl) Hlen) eq_refl).
    cbn [chat_id message_id query]. simpl. auto.
  - rewrite length_firstn. lia.
Defined.

(** * Further properties of the handlers *)

(** ** The authorization check in front of the handlers *)

Lemma check_authorized_run (cfg : Config) (user : TgUser) (s : States) :
  check_authorized cfg user s
  = (Ok (Secure_auth.isAuthorized cfg user), s, locked_down_line cfg).
Proof.
  unfold check_authorized, locked_down_line, bind, console, emit, ret.
  destruct (_ && _); reflexivity.
Qed.

Lemma requireAuthCallback_denied (cfg : Config)
    (handler : CallbackQuery -> M unit) (q : CallbackQuery) (s : States) :
  Secure_auth.isAuthorized cfg (from q) = false ->
  requireAuthCallback cfg handler q s
  = (Ok tt, s,
     locked_down_line cfg
     ++ [ Console (UnauthorizedAccess (from q) ("callback: " +:+ data q));
          Tg (sendMessage (chat_id q) AccessDeniedText None);
          Tg (answerCallbackQuery (query_id q) (Some AccessDeniedAnswer)) ]).
Proof.
  intros Hauth. unfold requireAuthCallback. cbv zeta.
  unfold bind at 1. rewrite check_authorized_run, Hauth. reflexivity.
Qed.

Lemma requireAuth_denied (cfg : Config) (handler : Message -> M unit)
    (msg : Message) (s : States) :
  Secure_auth.isAuthorized cfg (msg_from msg) = false ->
  requireAuth cfg handler msg s
  = (Ok tt, s,
     locked_down_line cfg
     ++ [ Console (UnauthorizedAccess (msg_from msg)
                     (JS.or_else (msg_text msg) "callback"));
          Tg (sendMessage (msg_chat_id msg) AccessDeniedText None) ]).
Proof.
  intros Hauth. unfold requireAuth. cbv zeta.
  unfold bind at 1. rewrite check_authorized_run, Hauth. reflexivity.
Qed.

Lemma requireAuthCallback_granted (cfg : Config)
    (handler : CallbackQuery -> M unit) (q : CallbackQuery) (s : States) :
  Secure_auth.isAuthorized cfg (from q) = true ->
  requireAuthCallback cfg handler q s
  = (outcome_of (handler q s), store_of (handler q s),
     Console (AuthorizedAccess (from q) ("callback: " +:+ data q))
     :: calls_of (handler q s)).
Proof.
  intros Hauth. unfold requireAuthCallback. cbv zeta.
  unfold bind at 1. rewrite check_authorized_run, Hauth.
  assert (locked_down_line cfg = []) as ->.
  { unfold locked_down_line. destruct (_ && _) eqn:E; [|reflexivity].
    unfold Secure_auth.isAuthorized in Hauth. rewrite E in Hauth. discriminate. }
  cbv beta iota zeta. unfold negb, bind, console, emit.
  destruct (handler q s) as [[r s1] t1]. reflexivity.
Qed.

(** A press by a sender who is not on the allow-list never reaches the
    callback handler of either bot: the run logs the attempt, sends the
    denial message and answers "Access denied"; it sends no request and
    leaves the session store as it was. *)
Theorem unauthorized_press_is_denied (cfg : Config) (env : Env)
    (q : CallbackQuery) (s : States) :
  Secure_auth.isAuthorized cfg (from q) = false ->
  secure_bot cfg env (CallbackUpdate q) s
  = (Ok tt, s,
     locked_down_line cfg
     ++ [ Console (UnauthorizedAccess (from q) ("callback: " +:+ data q));
          Tg (sendMessage (chat_id q) AccessDeniedText None);
          Tg (answerCallbackQuery (query_id q) (Some AccessDeniedAnswer)) ])
  /\ complete_bot cfg env (CallbackUpdate q) s
     = secure_bot cfg env (CallbackUpdate q) s.
Proof.
  intros Hauth. simpl.
  unfold Secure.on_callback_query, Complete.on_callback_query.
  rewrite !requireAuthCallback_denied by assumption. split; reflexivity.
Qed.

Lemma unauthorized_press_is_denied_witness :
  calls_of (secure_bot cfg42 small_directory
              (CallbackUpdate {| query_id := "q"; from := {| id := 7; username := Some "eve"; first_name := None; last_name := None |};
                                 data := "confirm_deactivate_@john:x";
                                 chat_id := 5; message_id := 9 |}) ∅)
  = [ Console (UnauthorizedAccess
                 {| id := 7; username := Some "eve"; first_name := None;
                    last_name := None |}
                 "callback: confirm_deactivate_@john:x");
      Tg (sendMessage 5 AccessDeniedText None);
      Tg (answerCallbackQuery "q" (Some AccessDeniedAnswer)) ].
Proof.
  rewrite (proj1 (unauthorized_press_is_denied cfg42 small_directory
                    {| query_id := "q";
                       from := {| id := 7; username := Some "eve";
                                  first_name := None; last_name := None |};
                       data := "confirm_deactivate_@john:x";
                       chat_id := 5; message_id := 9 |} ∅ eq_refl)).
  reflexivity.
Defined.

Lemma quiet_run_ret (P : Effect -> Prop) : quiet_run P (ret tt).
Proof. intros s. exists []. split; [reflexivity | constructor]. Qed.

Lemma quiet_run_seq (P : Effect -> Prop) (m k : M unit) :
  quiet_run P m -> quiet_run P k -> quiet_run P (m ;; k).
Proof.
  intros Hm Hk s. destruct (Hm s) as (t1 & E1 & H1).
  destruct (Hk s) as (t2 & E2 & H2).
  exists (t1 ++ t2). unfold bind. rewrite E1, E2.
  split; [reflexivity | now apply Forall_app].
Qed.

Lemma locked_down_line_denial (cfg : Config) (chatId : Z) :
  Forall (is_denial chatId) (locked_down_line cfg).
Proof.
  unfold locked_down_line. destruct (_ && _); repeat constructor.
Qed.

Lemma onText_denied (cfg : Config) (regexp : string -> bool)
    (handler : Message -> M unit) (msg : Message) :
  Secure_auth.isAuthorized cfg (msg_from msg) = false ->
  quiet_run (is_denial (msg_chat_id msg)) (onText cfg regexp handler msg).
Proof.
  intros Hauth. unfold onText.
  destruct (msg_text msg) as [t|] eqn:Ht; [|apply quiet_run_ret].
  destruct (regexp t); [|apply quiet_run_ret].
  intros s. unfold detached. rewrite requireAuth_denied by assumption.
  eexists. split; [reflexivity|].
  apply Forall_app. split; [apply locked_down_line_denial|].
  repeat constructor.
Qed.

(** A message from a sender who is not on the allow-list never reaches a
    listener of either bot, whatever commands it contains: the run ends
    normally, leaves the session store as it was, and makes no call but
    console lines and denial messages to the chat of the message. *)
Theorem unauthorized_message_is_denied (cfg : Config) (env : Env)
    (msg : Message) :
  Secure_auth.isAuthorized cfg (msg_from msg) = false ->
  quiet_run (is_denial (msg_chat_id msg)) (secure_bot cfg env (MessageUpdate msg))
  /\ quiet_run (is_denial (msg_chat_id msg))
       (complete_bot cfg env (MessageUpdate msg)).
Proof.
  intros Hauth. split; simpl.
  - unfold Secure.on_message.
    repeat apply quiet_run_seq; now apply onText_denied.
  - unfold Complete.on_message.
    repeat apply quiet_run_seq; try now apply onText_denied.
    intros s. unfold detached. rewrite requireAuth_denied by assumption.
    eexists. split; [reflexivity|].
    apply Forall_app. split; [apply locked_down_line_denial|].
    repeat constructor.
Qed.

Lemma unauthorized_message_is_denied_witness :
  quiet_run (is_denial 5)
    (complete_bot cfg42 small_directory
       (MessageUpdate {| msg_from := {| id := 7; username := None;
                                        first_name := None; last_name := None |};
                         msg_chat_id := 5; msg_text := Some "/search john" |})).
Proof.
  exact (proj2 (unauthorized_message_is_denied cfg42 small_directory
                  {| msg_from := {| id := 7; username := None;
                                    first_name := None; last_name := None |};
                     msg_chat_id := 5; msg_text := Some "/search john" |}
                  eq_refl)).
Defined.

(** ** When a callback handler can reject *)

Section ThrowsOnly.
Context (P : string -> Prop).

Lemma throws_only_ret {A} (a : A) : throws_only P (ret a).
Proof. intros s e H. discriminate. Qed.

Lemma throws_only_emit (e : Effect) : throws_only P (emit e).
Proof. intros s e' H. discriminate. Qed.

Lemma throws_only_bind {A B} (m : M A) (f : A -> M B) :
  throws_only P m -> (forall a, throws_only P (f a)) -> throws_only P (bind m f).
Proof.
  intros Hm Hf s e. unfold bind. specialize (Hm s).
  destruct (m s) as [[[a | e1] s1] t1]; unfold outcome_of in *; simpl in *.
  - specialize (Hf a s1 e). destruct (f a s1) as [[r s2] t2]. exact Hf.
  - intros H. apply Hm. injection H as <-. reflexivity.
Qed.

(** What the [try] block raises is caught: only the [catch] block counts. *)
Lemma throws_only_try_catch {A} (m : M A) (h : string -> M A) :
  (forall e, throws_only P (h e)) -> throws_only P (try_catch m h).
Proof.
  intros Hh s e. unfold try_catch.
  destruct (m s) as [[[a | e1] s1] t1]; unfold outcome_of; simpl.
  - discriminate.
  - specialize (Hh e1 s1 e). destruct (h e1 s1) as [[r s2] t2]. exact Hh.
Qed.

Lemma throws_only_await_tg (env : Env) (c : TgCall) :
  (forall e, telegram env c = inl e -> P e) -> throws_only P (await_tg env c).
Proof.
  intros H s e. unfold await_tg, outcome_of.
  destruct (telegram env c) as [e1 | mid]; simpl; [|discriminate].
  intros E. injection E as <-. now apply H.
Qed.

End ThrowsOnly.

Lemma callback_throws (env : Env) (q : CallbackQuery) :
  throws_only (fun e => exists error, telegram env (error_message q error) = inl e)
    (Secure.callback_query env q)
  /\ throws_only (fun e => exists error, telegram env (error_message q error) = inl e)
       (Complete.callback_query env q).
Proof.
  split.
  - unfold Secure.callback_query.
    apply throws_only_bind; [|intros _; apply throws_only_bind].
    + apply throws_only_try_catch. intros e. apply throws_only_emit.
    + apply throws_only_try_catch. intros error.
      apply throws_only_bind; [apply throws_only_emit | intros _].
      apply throws_only_bind; [|intros _; apply throws_only_ret].
      apply throws_only_await_tg. intros e He. now exists error.
    + intros [|]; [apply throws_only_emit | apply throws_only_ret].
  - unfold Complete.callback_query.
    apply throws_only_bind; [|intros _].
    + apply throws_only_try_catch. intros e. apply throws_only_emit.
    + apply throws_only_try_catch. intros error.
      apply throws_only_bind; [apply throws_only_emit | intros _].
      apply throws_only_bind; [|intros _; apply throws_only_ret].
      apply throws_only_await_tg. intros e He. now exists error.
Qed.

(** The callback handler of either bot rejects only when the message that
    reports a caught error cannot be delivered, and then with Telegram's
    error; so when Telegram takes every call the handler ends normally,
    whatever the token, the session and the answers of the directory. *)
Theorem callback_handler_rejection (env : Env) (q : CallbackQuery) (s : States)
    (e : string) :
  (outcome_of (Secure.callback_query env q s) = Throw e
   \/ outcome_of (Complete.callback_query env q s) = Throw e ->
   exists error, telegram env (error_message q error) = inl e)
  /\ ((forall c, exists mid, telegram env c = inr mid) ->
      outcome_of (Secure.callback_query env q s) = Ok tt
      /\ outcome_of (Complete.callback_query env q s) = Ok tt).
Proof.
  destruct (callback_throws env q) as [Hs Hc]. split.
  - intros [H | H]; [exact (Hs s e H) | exact (Hc s e H)].
  - intros Htg. split.
    + destruct (outcome_of (Secure.callback_query env q s)) as [[] | e'] eqn:E;
        [reflexivity|].
      destruct (Hs s e' E) as (error & He).
      destruct (Htg (error_message q error)) as [mid Hm]. congruence.
    + destruct (outcome_of (Complete.callback_query env q s)) as [[] | e'] eqn:E;
        [reflexivity|].
      destruct (Hc s e' E) as (error & He).
      destruct (Htg (error_message q error)) as [mid Hm]. congruence.
Qed.

(** With Telegram down the list request is never sent and the handler
    rejects; with Telegram up and a deactivation the directory refuses, it
    ends normally. *)
Lemma callback_handler_rejection_witness :
  (exists error,
     telegram (directory_env [john; mary] telegram_down)
       (error_message (query "get_users") error) = inl "ETELEGRAM")
  /\ outcome_of (Secure.callback_query
                   {| get_users := fun _ _ => inl "timeout";
                      post_deactivate := fun _ _ => inl "timeout";
                      get_user := fun _ => inl "timeout";
                      telegram := telegram_up;
                      toLowerCase := JS.toLowerCase |}
                   (query "confirm_deactivate_@john:x") ∅) = Ok tt.
Proof.
  split.
  - apply (proj1 (callback_handler_rejection
                    (directory_env [john; mary] telegram_down)
                    (query "get_users") ∅ "ETELEGRAM")).
    left. vm_compute. reflexivity.
  - apply (proj2 (callback_handler_rejection
                    {| get_users := fun _ _ => inl "timeout";
                       post_deactivate := fun _ _ => inl "timeout";
                       get_user := fun _ => inl "timeout";
                       telegram := telegram_up;
                       toLowerCase := JS.toLowerCase |}
                    (query "confirm_deactivate_@john:x") ∅ "")).
    intros c. exists 1. reflexivity.
Defined.

(** ** Sessions do not interfere *)

Section Elsewhere.
Context (c : Z).

Lemma same_elsewhere_refl (s : States) : same_elsewhere c s s.
Proof. intros c' _. reflexivity. Qed.

Lemma same_elsewhere_trans (s1 s2 s3 : States) :
  same_elsewhere c s1 s2 -> same_elsewhere c s2 s3 -> same_elsewhere c s1 s3.
Proof. intros H1 H2 c' Hc. now rewrite (H2 c' Hc), (H1 c' Hc). Qed.

Lemma elsewhere_ret {A} (a : A) : store_rel (same_elsewhere c) (ret a).
Proof. intros s. apply same_elsewhere_refl. Qed.

Lemma elsewhere_throw {A} (e : string) : store_rel (same_elsewhere c) (@throw A e).
Proof. intros s. apply same_elsewhere_refl. Qed.

Lemma elsewhere_emit (e : Effect) : store_rel (same_elsewhere c) (emit e).
Proof. intros s. apply same_elsewhere_refl. Qed.

Lemma elsewhere_get (chatId : Z) : store_rel (same_elsewhere c) (userStates_get chatId).
Proof. intros s. apply same_elsewhere_refl. Qed.

Lemma elsewhere_set (v : State) : store_rel (same_elsewhere c) (userStates_set c v).
Proof. intros s c' Hc. unfold store_of. simpl. now apply lookup_insert_ne. Qed.

Lemma elsewhere_delete : store_rel (same_elsewhere c) (userStates_delete c).
Proof. intros s c' Hc. unfold store_of. simpl. now apply lookup_delete_ne. Qed.

Lemma elsewhere_await_tg (env : Env) (call : TgCall) :
  store_rel (same_elsewhere c) (await_tg env call).
Proof.
  intros s. unfold await_tg. destruct (telegram env call);
    apply same_elsewhere_refl.
Qed.

Lemma elsewhere_axios_get_users (env : Env) (from limit : Z) :
  store_rel (same_elsewhere c) (MatrixClient.axios_get_users env from limit).
Proof.
  intros s. unfold MatrixClient.axios_get_users.
  destruct (get_users env from limit); apply same_elsewhere_refl.
Qed.

Lemma elsewhere_axios_post_deactivate (env : Env) (userId : string) (erase : bool) :
  store_rel (same_elsewhere c)
    (MatrixClient.axios_post_deactivate env userId erase).
Proof.
  intros s. unfold MatrixClient.axios_post_deactivate.
  destruct (post_deactivate env userId erase); apply same_elsewhere_refl.
Qed.

Lemma elsewhere_axios_get_user (env : Env) (userId : string) :
  store_rel (same_elsewhere c) (MatrixClient.axios_get_user env userId).
Proof.
  intros s. unfold MatrixClient.axios_get_user.
  destruct (get_user env userId); apply same_elsewhere_refl.
Qed.

Lemma elsewhere_bind {A B} (m : M A) (f : A -> M B) :
  store_rel (same_elsewhere c) m ->
  (forall a, store_rel (same_elsewhere c) (f a)) ->
  store_rel (same_elsewhere c) (bind m f).
Proof.
  intros Hm Hf s. unfold bind. specialize (Hm s).
  destruct (m s) as [[[a | e] s1] t1]; unfold store_of in *; simpl in *;
    [|assumption].
  specialize (Hf a s1). destruct (f a s1) as [[r s2] t2]. simpl in *.
  eapply same_elsewhere_trans; eassumption.
Qed.

Lemma elsewhere_try_catch {A} (m : M A) (h : string -> M A) :
  store_rel (same_elsewhere c) m ->
  (forall e, store_rel (same_elsewhere c) (h e)) ->
  store_rel (same_elsewhere c) (try_catch m h).
Proof.
  intros Hm Hh s. unfold try_catch. specialize (Hm s).
  destruct (m s) as [[[a | e] s1] t1]; unfold store_of in *; simpl in *;
    [assumption|].
  specialize (Hh e s1). destruct (h e s1) as [[r s2] t2]. simpl in *.
  eapply same_elsewhere_trans; eassumption.
Qed.

Lemma elsewhere_detached (m : M unit) :
  store_rel (same_elsewhere c) m -> store_rel (same_elsewhere c) (detached m).
Proof.
  intros H s. unfold detached. specialize (H s).
  now destruct (m s) as [[r s1] t1].
Qed.

End Elsewhere.

Ltac elsewhere_step :=
  lazymatch goal with
  | |- store_rel _ (ret _) => apply elsewhere_ret
  | |- store_rel _ (throw _) => apply elsewhere_throw
  | |- store_rel _ (bind _ _) => apply elsewhere_bind; [| intros ?]
  | |- store_rel _ (try_catch _ _) => apply elsewhere_try_catch; [| intros ?]
  | |- store_rel _ (console _) => apply elsewhere_emit
  | |- store_rel _ (emit _) => apply elsewhere_emit
  | |- store_rel _ (fire_tg _) => apply elsewhere_emit
  | |- store_rel _ (await_tg _ _) => apply elsewhere_await_tg
  | |- store_rel _ (userStates_get _) => apply elsewhere_get
  | |- store_rel _ (userStates_set _ _) => apply elsewhere_set
  | |- store_rel _ (userStates_delete _) => apply elsewhere_delete
  | |- store_rel _ (detached _) => apply elsewhere_detached
  | |- store_rel _ (MatrixClient.axios_get_users _ _ _) =>
      apply elsewhere_axios_get_users
  | |- store_rel _ (MatrixClient.axios_post_deactivate _ _ _) =>
      apply elsewhere_axios_post_deactivate
  | |- store_rel _ (MatrixClient.axios_get_user _ _) =>
      apply elsewhere_axios_get_user
  | |- store_rel _ (if ?b then _ else _) => destruct b eqn:?
  | |- store_rel _ (match ?x with _ => _ end) => destruct x eqn:?
  end.

Ltac open_handlers :=
  progress
    (unfold requireAuth, requireAuthCallback, check_authorized,
       sendUnauthorizedMessage, onText,
       start_command, help_command, menu_command, whoami_command,
       Complete.search_command, Complete.message_listener,
       Complete.show_search_results,
       MatrixClient.getUsers, MatrixClient.deactivateUser,
       MatrixClient.searchUsers, MatrixClient.getUserInfo;
     cbv zeta).

Ltac elsewhere_walk := repeat first [elsewhere_step | open_handlers].

Lemma bots_elsewhere (cfg : Config) (env : Env) (u : Update) :
  store_rel (same_elsewhere (update_chat u)) (secure_bot cfg env u)
  /\ store_rel (same_elsewhere (update_chat u)) (complete_bot cfg env u).
Proof.
  destruct u as [msg | q]; simpl; split.
  - unfold Secure.on_message. elsewhere_walk.
  - unfold Complete.on_message. elsewhere_walk.
  - unfold Secure.on_callback_query, Secure.callback_query,
      Secure.callback_query_body. cbv zeta. elsewhere_walk.
  - unfold Complete.on_callback_query, Complete.callback_query,
      Complete.callback_query_body. cbv zeta. elsewhere_walk.
Qed.

(** Whatever update either bot processes, and whatever the outside world
    answers, the session of every chat other than the chat of the update
    is left as it was. *)
Theorem sessions_are_isolated (cfg : Config) (env : Env) (u : Update)
    (s : States) (chatId : Z) :
  chatId <> update_chat u ->
  store_of (secure_bot cfg env u s) !! chatId = s !! chatId
  /\ store_of (complete_bot cfg env u s) !! chatId = s !! chatId.
Proof.
  intros Hc. destruct (bots_elsewhere cfg env u) as [Hs Hcm].
  split; [apply (Hs s) | apply (Hcm s)]; assumption.
Qed.

Lemma sessions_are_isolated_witness :
  store_of (secure_bot cfg42 (directory_env (accounts 25) telegram_up)
              (CallbackUpdate {| query_id := "q"; from := operator;
                                 data := "deactivate_menu";
                                 chat_id := 6; message_id := 9 |})
              page_two_session) !! 5
  = Some (listing_state (accounts 25) 2).
Proof.
  rewrite (proj1 (sessions_are_isolated cfg42
                    (directory_env (accounts 25) telegram_up)
                    (CallbackUpdate {| query_id := "q"; from := operator;
                                       data := "deactivate_menu";
                                       chat_id := 6; message_id := 9 |})
                    page_two_session 5 ltac:(discriminate))).
  reflexivity.
Defined.

(** ** Single steps of the callback handler *)

Ltac tg_cases :=
  repeat match goal with
         | |- context [telegram ?env ?c] =>
             destruct (telegram env c); cbv beta iota zeta
         end.

Lemma substring_append (p r : string) :
  JS.substring (String.length p) (p +:+ r) = r.
Proof. induction p as [|c p IH]; simpl; [now destruct r | exact IH]. Qed.

(** "Back to menu" always clears the session of the chat: the entry is
    deleted before the menu is drawn, so it is gone whether Telegram takes
    the calls or not. *)
Theorem back_to_menu_clears_session (env : Env) (q : CallbackQuery) (s : States) :
  data q = "back_to_menu" ->
  store_of (Secure.callback_query env q s) = delete (chat_id q) s
  /\ store_of (Complete.callback_query env q s) = delete (chat_id q) s.
Proof.
  intros Hdata. split.
  - unfold Secure.callback_query, Secure.callback_query_body.
    pick_branch Hdata. run_monad. tg_cases; reflexivity.
  - unfold Complete.callback_query, Complete.callback_query_body.
    pick_branch Hdata. run_monad. tg_cases; reflexivity.
Qed.

Lemma back_to_menu_clears_session_witness :
  store_of (Secure.callback_query (directory_env [john; mary] telegram_down)
              (query "back_to_menu") page_two_session) !! 5 = None.
Proof.
  rewrite (proj1 (back_to_menu_clears_session
                    (directory_env [john; mary] telegram_down)
                    (query "back_to_menu") page_two_session eq_refl)).
  apply lookup_delete_eq.
Defined.

(** When the directory refuses the list request, the "list users" flow and
    the deactivation menu of the secure bot end normally and leave the
    session store as it was: the client logs the failure and raises
    "Failed to fetch users: <error>", the handler logs it and reports it
    to the operator in a message with a "Back to Menu" button. *)
Theorem fetch_failure_is_reported (env : Env) (q : CallbackQuery) (s : States)
    (error : string) (first_text : Text) :
  (data q = "get_users" /\ first_text = FetchingUsers
   \/ data q = "deactivate_menu" /\ first_text = LoadingUsers) ->
  (forall c, exists mid, telegram env c = inr mid) ->
  get_users env 0 100 = inl error ->
  Secure.callback_query env q s
  = (Ok tt, s,
     [ Tg (answerCallbackQuery (query_id q) None);
       Tg (editMessageText first_text (chat_id q) (message_id q) None);
       Http (GetUsersReq 0 100);
       Console (ClientError (GetUsersReq 0 100) error);
       Console (CallbackQueryError ("Failed to fetch users: " +:+ error));
       Tg (error_message q ("Failed to fetch users: " +:+ error));
       Tg (answerCallbackQuery (query_id q) None) ]).
Proof.
  intros [[Hdata ->] | [Hdata ->]] Htg Hfetch;
    unfold Secure.callback_query, Secure.callback_query_body;
    pick_branch Hdata;
    run_handler Htg ltac:(rewrite ?Hfetch);
    reflexivity.
Qed.

Lemma fetch_failure_is_reported_witness :
  In (Tg (error_message (query "deactivate_menu") "Failed to fetch users: timeout"))
     (calls_of (Secure.callback_query (failing_directory "timeout" telegram_up)
                  (query "deactivate_menu") page_two_session))
  /\ store_of (Secure.callback_query (failing_directory "timeout" telegram_up)
                 (query "deactivate_menu") page_two_session)
     = page_two_session.
Proof.
  rewrite (fetch_failure_is_reported (failing_directory "timeout" telegram_up)
             (query "deactivate_menu") page_two_session "timeout" LoadingUsers
             (or_intror (conj eq_refl eq_refl))
             (fun c => ex_intro _ 1 eq_refl) eq_refl).
  split; [simpl; auto 10 | reflexivity].
Defined.

Lemma confirm_branch (q : CallbackQuery) (userId : string) :
  data q = "confirm_deactivate_" +:+ userId ->
  JS.substring (String.length "confirm_deactivate_") (data q) = userId.
Proof. intros ->. apply substring_append. Qed.

(** When the directory refuses a confirmed deactivation, the secure bot
    ends normally and leaves the session store as it was: the client
    raises "Failed to deactivate user: <error>", no deactivation is
    logged, and the operator gets the failure text with the "Try Again"
    and "Back to Menu" buttons. *)
Theorem deactivation_failure_is_reported (env : Env) (q : CallbackQuery)
    (s : States) (userId error : string) :
  data q = "confirm_deactivate_" +:+ userId ->
  (forall c, exists mid, telegram env c = inr mid) ->
  post_deactivate env userId false = inl error ->
  Secure.callback_query env q s
  = (Ok tt, s,
     [ Tg (answerCallbackQuery (query_id q) None);
       Tg (editMessageText (DeactivatingUser userId) (chat_id q) (message_id q) None);
       Http (DeactivateReq userId false);
       Console (ClientError (DeactivateReq userId false) error);
       Tg (editMessageText
             (DeactivationFailed ("Failed to deactivate user: " +:+ error))
             (chat_id q) (message_id q) (Some failed_keyboard));
       Tg (answerCallbackQuery (query_id q) None) ]).
Proof.
  intros Hdata Htg Hpost.
  unfold Secure.callback_query, Secure.callback_query_body.
  rewrite (confirm_branch q userId Hdata). pick_branch Hdata.
  run_handler Htg ltac:(rewrite ?Hpost).
  reflexivity.
Qed.

Lemma deactivation_failure_is_reported_witness :
  outcome_of (Secure.callback_query (failing_directory "timeout" telegram_up)
                (query "confirm_deactivate_@john:x") page_two_session) = Ok tt
  /\ store_of (Secure.callback_query (failing_directory "timeout" telegram_up)
                 (query "confirm_deactivate_@john:x") page_two_session)
     = page_two_session.
Proof.
  rewrite (deactivation_failure_is_reported
             (failing_directory "timeout" telegram_up)
             (query "confirm_deactivate_@john:x") page_two_session
             "@john:x" "timeout" eq_refl (fun c => ex_intro _ 1 eq_refl) eq_refl).
  split; reflexivity.
Defined.

Lemma secure_confirm_run (env : Env) (q : CallbackQuery) (s : States)
    (userId : string) :
  data q = "confirm_deactivate_" +:+ userId ->
  (forall c, exists mid, telegram env c = inr mid) ->
  post_deactivate env userId false = inr tt ->
  Secure.callback_query env q s
  = (Ok tt, s,
     [ Tg (answerCallbackQuery (query_id q) None);
       Tg (editMessageText (DeactivatingUser userId) (chat_id q) (message_id q) None);
       Http (DeactivateReq userId false);
       Console (DeactivatedBy (from q) userId);
       Tg (editMessageText (UserDeactivated userId) (chat_id q) (message_id q)
             (Some deactivated_keyboard));
       Tg (answerCallbackQuery (query_id q) None) ]).
Proof.
  intros Hdata Htg Hpost.
  unfold Secure.callback_query, Secure.callback_query_body.
  rewrite (confirm_branch q userId Hdata). pick_branch Hdata.
  run_handler Htg ltac:(rewrite ?Hpost).
  reflexivity.
Qed.

(** A confirmed deactivation the directory accepts: the secure bot sends
    one request, for exactly the user id the token carries and with
    [erase = false], logs who deactivated whom, and shows the success text
    with the "Deactivate Another" and "Back to Menu" buttons.  The session
    store is left as it was: a stored candidate list still holds the
    deactivated account. *)
Theorem deactivation_success (env : Env) (q : CallbackQuery) (s : States)
    (userId : string) :
  data q = "confirm_deactivate_" +:+ userId ->
  (forall c, exists mid, telegram env c = inr mid) ->
  post_deactivate env userId false = inr tt ->
  Secure.callback_query env q s
  = (Ok tt, s,
     [ Tg (answerCallbackQuery (query_id q) None);
       Tg (editMessageText (DeactivatingUser userId) (chat_id q) (message_id q) None);
       Http (DeactivateReq userId false);
       Console (DeactivatedBy (from q) userId);
       Tg (editMessageText (UserDeactivated userId) (chat_id q) (message_id q)
             (Some deactivated_keyboard));
       Tg (answerCallbackQuery (query_id q) None) ])
  /\ List.filter is_request (calls_of (Secure.callback_query env q s))
     = [Http (DeactivateReq userId false)].
Proof.
  intros Hdata Htg Hpost.
  rewrite (secure_confirm_run env q s userId Hdata Htg Hpost).
  split; reflexivity.
Qed.

Lemma deactivation_success_witness :
  store_of (Secure.callback_query (directory_env (accounts 25) telegram_up)
              (query "confirm_deactivate_@u21:x") page_two_session) !! 5
  = Some (listing_state (accounts 25) 2).
Proof.
  rewrite (proj1 (deactivation_success (directory_env (accounts 25) telegram_up)
                    (query "confirm_deactivate_@u21:x") page_two_session "@u21:x"
                    eq_refl (fun c => ex_intro _ 1 eq_refl) eq_refl)).
  reflexivity.
Defined.

(** ** From the button of a user to the request *)

Lemma secure_select_run (env : Env) (q : CallbackQuery) (s : States)
    (userId : string) :
  data q = "deactivate_" +:+ userId ->
  userId <> "menu" ->
  (forall c, exists mid, telegram env c = inr mid) ->
  Secure.callback_query env q s
  = (Ok tt, s,
     [ Tg (answerCallbackQuery (query_id q) None);
       Tg (prompt q userId);
       Tg (answerCallbackQuery (query_id q) None) ]).
Proof.
  intros Hdata Hmenu Htg. apply String.eqb_neq in Hmenu.
  unfold Secure.callback_query, Secure.callback_query_body.
  replace (JS.substring (String.length "deactivate_") (data q)) with userId
    by (rewrite Hdata; symmetry; apply substring_append).
  pick_branch Hdata. rewrite Hmenu. cbv iota.
  run_handler Htg idtac.
  reflexivity.
Qed.

(** The button of a user in the selection keyboard of the secure bot
    leads to the request for that user and no other.  Unless the user id
    is the word "menu", pressing the button only shows the confirmation
    prompt for that id (no request, session untouched); the "Yes" button
    of that prompt carries the id, and pressing it sends the deactivation
    request for exactly that id. *)
Theorem selected_user_is_the_one_deactivated (env : Env) (user : User)
    (q q' : CallbackQuery) (s s' : States) :
  name user <> "menu" ->
  (forall c, exists mid, telegram env c = inr mid) ->
  post_deactivate env (name user) false = inr tt ->
  map callback_data (Secure.user_button user) = [data q] ->
  yes_token (markup_of (prompt q (name user))) = Some (data q') ->
  Secure.callback_query env q s
  = (Ok tt, s,
     [ Tg (answerCallbackQuery (query_id q) None);
       Tg (prompt q (name user));
       Tg (answerCallbackQuery (query_id q) None) ])
  /\ List.filter is_request (calls_of (Secure.callback_query env q' s'))
     = [Http (DeactivateReq (name user) false)].
Proof.
  intros Hmenu Htg Hpost Hq Hq'.
  injection Hq as Hq. injection Hq' as Hq'. symmetry in Hq, Hq'.
  split; [now apply secure_select_run|].
  now rewrite (secure_confirm_run env q' s' (name user) Hq' Htg Hpost).
Qed.

Lemma selected_user_is_the_one_deactivated_witness :
  List.filter is_request
    (calls_of (Secure.callback_query small_directory
                 (query "confirm_deactivate_@john:x") ∅))
  = [Http (DeactivateReq "@john:x" false)].
Proof.
  apply (proj2 (selected_user_is_the_one_deactivated small_directory john
                  (query "deactivate_@john:x")
                  (query "confirm_deactivate_@john:x") ∅ ∅
                  ltac:(discriminate) (fun c => ex_intro _ 1 eq_refl)
                  eq_refl eq_refl eq_refl)).
Defined.

(** ** Page tokens: printing and parsing a page number *)

Lemma digits_step (radix : Z) (acc : option Z) (c : ascii) (s : string) (k : Z) :
  JS.digit_of radix c = Some k ->
  JS.digits radix acc (String c s)
  = JS.digits radix (Some (match acc with Some a => a * radix + k | None => k end)) s.
Proof. intros H. simpl. now rewrite H. Qed.

Ltac digit_step :=
  erewrite digits_step by (vm_compute; reflexivity).

Lemma digits_acc (d : Decimal.uint) (p : positive) :
  JS.digits 10 (Some (Zpos p)) (NilEmpty.string_of_uint d)
  = Some (Zpos (Pos.of_uint_acc d p)).
Proof.
  revert p. induction d as [|d IH|d IH|d IH|d IH|d IH|d IH|d IH|d IH|d IH|d IH];
    intros p; [reflexivity|..];
    cbn [NilEmpty.string_of_uint Pos.of_uint_acc]; digit_step;
    rewrite <- IH; do 2 f_equal; lia.
Qed.

Lemma digits_zero (d : Decimal.uint) :
  JS.digits 10 (Some 0) (NilEmpty.string_of_uint d)
  = Some (Z.of_N (Pos.of_uint d)).
Proof.
  induction d as [|d IH|d IH|d IH|d IH|d IH|d IH|d IH|d IH|d IH|d IH];
    [reflexivity|..];
    cbn [NilEmpty.string_of_uint Pos.of_uint]; digit_step;
    first [exact IH | apply digits_acc].
Qed.

Lemma digits_uint (d : Decimal.uint) :
  d <> Decimal.Nil ->
  JS.digits 10 None (NilEmpty.string_of_uint d) = Some (Z.of_uint d).
Proof.
  unfold Z.of_uint.
  destruct d; intros H; [congruence|..];
    cbn [NilEmpty.string_of_uint Pos.of_uint]; digit_step;
    first [apply digits_zero | apply digits_acc].
Qed.

Lemma unsigned_uint (d : Decimal.uint) :
  d <> Decimal.Nil ->
  JS.unsigned (NilEmpty.string_of_uint d) = Some (Z.of_uint d).
Proof.
  intros H. rewrite <- (digits_uint d H). unfold JS.unsigned.
  destruct d as [|d|d|d|d|d|d|d|d|d|d]; try reflexivity; destruct d; reflexivity.
Qed.

Lemma trimStart_nonspace (c : ascii) (s : string) :
  JS.is_space c = false -> (nat_of_ascii c <? 128)%nat = true ->
  JS.trimStart (String c s) = String c s.
Proof.
  intros H Hc. apply Nat.ltb_lt in Hc.
  assert (forall n, (128 <= n)%nat -> JS.byte c n = false) as Hb
    by (intros n Hn; apply Nat.eqb_neq; lia).
  cbn [JS.trimStart]. rewrite H.
  destruct s as [|b s2]; [reflexivity|].
  unfold JS.is_space2. rewrite (Hb 194%nat) by lia. cbn [andb].
  destruct s2 as [|c3 s3]; [reflexivity|].
  unfold JS.is_space3.
  rewrite (Hb 225%nat), (Hb 226%nat), (Hb 227%nat), (Hb 239%nat) by lia.
  reflexivity.
Qed.

Lemma parseInt_uint (d : Decimal.uint) :
  d <> Decimal.Nil ->
  JS.parseInt (NilEmpty.string_of_uint d) = JS.Num (Z.of_uint d)
  /\ JS.parseInt (String "-" (NilEmpty.string_of_uint d)) = JS.Num (- Z.of_uint d).
Proof.
  intros H. pose proof (unsigned_uint d H) as Hu. split.
  - unfold JS.parseInt.
    destruct d; try congruence;
      cbn [NilEmpty.string_of_uint] in *;
      rewrite trimStart_nonspace by reflexivity;
      cbv iota beta; now rewrite Hu.
  - unfold JS.parseInt. rewrite trimStart_nonspace by reflexivity.
    cbv iota beta. now rewrite Hu.
Qed.

(** Printing an integer and parsing it back gives the integer. *)
Lemma parseInt_toString (z : Z) : JS.parseInt (JS.toString (JS.Num z)) = JS.Num z.
Proof.
  unfold JS.toString. destruct z as [|p|p]; [reflexivity|..];
    unfold Z.to_int, NilZero.string_of_int, NilZero.string_of_uint;
    pose proof (DecimalPos.Unsigned.to_uint_nonnil p) as Hnil;
    destruct (parseInt_uint _ Hnil) as [Hpos Hneg];
    assert (Z.of_uint (Pos.to_uint p) = Zpos p) as Hval
      by (unfold Z.of_uint; now rewrite DecimalPos.Unsigned.of_to).
  - rewrite Hval in Hpos. destruct (Pos.to_uint p); [congruence|..]; exact Hpos.
  - rewrite Hval in Hneg. destruct (Pos.to_uint p); [congruence|..]; exact Hneg.
Qed.

Lemma split_uint (d : Decimal.uint) :
  JS.split "_" (NilEmpty.string_of_uint d) = [NilEmpty.string_of_uint d].
Proof.
  induction d; [reflexivity|..];
    cbn [NilEmpty.string_of_uint]; simpl JS.split; now rewrite IHd.
Qed.

Lemma split_toString (z : Z) :
  JS.split "_" (JS.toString (JS.Num z)) = [JS.toString (JS.Num z)].
Proof.
  unfold JS.toString. destruct z as [|p|p]; [reflexivity|..];
    unfold Z.to_int, NilZero.string_of_int, NilZero.string_of_uint.
  - destruct (Pos.to_uint p) eqn:E; try reflexivity; rewrite <- E;
      apply split_uint.
  - assert (JS.split "_" (NilEmpty.string_of_uint (Pos.to_uint p))
            = [NilEmpty.string_of_uint (Pos.to_uint p)]) as H by apply split_uint.
    destruct (Pos.to_uint p) eqn:E; try reflexivity;
      simpl JS.split; simpl JS.split in H; now rewrite H.
Qed.

(** The page a navigation token carries is the page it was printed from. *)
Lemma page_token_parse (z : Z) :
  JS.parseInt_opt
    (nth_error (JS.split "_" ("users_page_" +:+ JS.toString (JS.Num z))) 2)
  = JS.Num z
  /\ JS.parseInt_opt
       (nth_error (JS.split "_" ("deactivate_page_" +:+ JS.toString (JS.Num z))) 2)
     = JS.Num z
  /\ JS.parseInt_opt
       (nth_error (JS.split "_" ("search_page_" +:+ JS.toString (JS.Num z))) 2)
     = JS.Num z.
Proof.
  pose proof (split_toString z) as H. pose proof (parseInt_toString z) as Hp.
  set (t := JS.toString (JS.Num z)) in *.
  repeat split; simpl JS.split; rewrite H; simpl; exact Hp.
Qed.

Lemma navRow_member {A} (prefix : string) (users : list A) (page size : JS.jsnum)
    (b : Button) :
  In b (navRow prefix users page size) ->
  (text b = Previous
   /\ callback_data b = prefix +:+ JS.toString (JS.sub page (JS.Num 1))
   /\ JS.gt page (JS.Num 0) = true)
  \/ (text b = Next
      /\ callback_data b = prefix +:+ JS.toString (JS.add page (JS.Num 1))
      /\ JS.lt (endIndex users page size) (JS.len users) = true).
Proof.
  unfold navRow.
  destruct (JS.gt page (JS.Num 0)), (JS.lt _ _); simpl;
    intros H; repeat destruct H as [<- | H]; try contradiction; auto.
Qed.

Lemma paged_nav_member {B} (l : Label) (row : B -> list Button) (items : list B)
    (nav last : list Button) (b : Button) :
  (forall x b, In b (row x) -> text b <> l) ->
  (forall b, In b last -> text b <> l) ->
  In b (concat (map row items ++ push_navRow nav ++ [last])) ->
  text b = l -> In b nav.
Proof.
  intros Hrow Hlast Hb E.
  rewrite !concat_app, push_navRow_concat in Hb. simpl in Hb.
  rewrite app_nil_r, !in_app_iff in Hb. destruct Hb as [Hb | [Hb | Hb]].
  - apply in_concat in Hb as (r & Hr & Hb).
    apply in_map_iff in Hr as (x & <- & _). now destruct (Hrow x b Hb).
  - assumption.
  - now destruct (Hlast b Hb).
Qed.

Lemma secure_nav_button (users : list User) (p : Z) (b : Button) :
  In b (concat (Secure.createUserSelectionKeyboard users (Some (JS.Num p)) None)) ->
  (text b = Next ->
   callback_data b = "users_page_" +:+ JS.toString (JS.Num (p + 1))
   /\ (p + 1) * 10 < Z.of_nat (length users))
  /\ (text b = Previous ->
      callback_data b = "users_page_" +:+ JS.toString (JS.Num (p - 1))
      /\ 0 <= p - 1).
Proof.
  intros Hb. split; intros E.
  - apply (paged_nav_member Next) in Hb; try assumption.
    + apply navRow_member in Hb as [(E' & _) | (_ & Hd & Hlt)]; [congruence|].
      split; [exact Hd|]. unfold endIndex, startIndex in Hlt. simpl in Hlt.
      apply Z.ltb_lt in Hlt. lia.
    + intros x b' [<- | []]. discriminate.
    + intros b' [<- | []]. discriminate.
  - apply (paged_nav_member Previous) in Hb; try assumption.
    + apply navRow_member in Hb as [(_ & Hd & Hgt) | (E' & _)]; [|congruence].
      split; [exact Hd|]. simpl in Hgt. apply Z.ltb_lt in Hgt. lia.
    + intros x b' [<- | []]. discriminate.
    + intros b' [<- | []]. discriminate.
Qed.

Lemma secure_page_run (env : Env) (q : CallbackQuery) (s : States) (st : State)
    (state_users : list User) (z : Z) :
  data q = "users_page_" +:+ JS.toString (JS.Num z) ->
  s !! chat_id q = Some st ->
  users st = Some state_users ->
  (forall c, exists mid, telegram env c = inr mid) ->
  Secure.callback_query env q s
  = (Ok tt, <[chat_id q := set_page st (JS.Num z)]> s,
     [ Tg (answerCallbackQuery (query_id q) None);
       Tg (editMessageReplyMarkup
             (Secure.createUserSelectionKeyboard state_users (Some (JS.Num z)) None)
             (chat_id q) (message_id q));
       Tg (answerCallbackQuery (query_id q) None) ]).
Proof.
  intros Hdata Hst Hus Htg.
  unfold Secure.callback_query, Secure.callback_query_body.
  pick_branch Hdata. rewrite (proj1 (page_token_parse z)).
  run_handler Htg ltac:(rewrite ?Hst, ?Hus).
  reflexivity.
Qed.

(** Turning the page in the secure bot.  When the session holds the list a
    selection keyboard was drawn from, pressing its "Next" button stores
    the next page number and redraws the keyboard for that page, which
    starts inside the list; pressing "Previous" stores the previous page
    number, which is not negative, and redraws the keyboard for it.  The
    list itself is kept, and no request is sent. *)
Theorem page_buttons_turn_the_page (env : Env) (q : CallbackQuery) (s : States)
    (st : State) (state_users : list User) (p : Z) (b : Button) :
  s !! chat_id q = Some st ->
  users st = Some state_users ->
  In b (concat (Secure.createUserSelectionKeyboard state_users
                  (Some (JS.Num p)) None)) ->
  data q = callback_data b ->
  (forall c, exists mid, telegram env c = inr mid) ->
  (text b = Next ->
   Secure.callback_query env q s
   = (Ok tt, <[chat_id q := set_page st (JS.Num (p + 1))]> s,
      [ Tg (answerCallbackQuery (query_id q) None);
        Tg (editMessageReplyMarkup
              (Secure.createUserSelectionKeyboard state_users
                 (Some (JS.Num (p + 1))) None)
              (chat_id q) (message_id q));
        Tg (answerCallbackQuery (query_id q) None) ])
   /\ (p + 1) * 10 < Z.of_nat (length state_users))
  /\ (text b = Previous ->
      Secure.callback_query env q s
      = (Ok tt, <[chat_id q := set_page st (JS.Num (p - 1))]> s,
         [ Tg (answerCallbackQuery (query_id q) None);
           Tg (editMessageReplyMarkup
                 (Secure.createUserSelectionKeyboard state_users
                    (Some (JS.Num (p - 1))) None)
                 (chat_id q) (message_id q));
           Tg (answerCallbackQuery (query_id q) None) ])
      /\ 0 <= p - 1).
Proof.
  intros Hst Hus Hb Hdata Htg.
  destruct (secure_nav_button state_users p b Hb) as [Hnext Hprev].
  split; intros E.
  - destruct (Hnext E) as [Hd Hin]. rewrite Hd in Hdata.
    split; [now apply secure_page_run | exact Hin].
  - destruct (Hprev E) as [Hd Hin]. rewrite Hd in Hdata.
    split; [now apply secure_page_run | exact Hin].
Qed.

Lemma page_buttons_turn_the_page_witness :
  store_of (Secure.callback_query small_directory (query "users_page_1")
              {[ 5 := listing_state (accounts 25) 0 ]}) !! 5
  = Some (listing_state (accounts 25) 1).
Proof.
  assert (In {| text := Next; callback_data := "users_page_1" |}
            (concat (Secure.createUserSelectionKeyboard (accounts 25)
                       (Some (JS.Num 0)) None))) as Hb
    by (vm_compute; repeat (first [left; reflexivity | right])).
  rewrite (proj1 (proj1 (page_buttons_turn_the_page small_directory
                           (query "users_page_1")
                           {[ 5 := listing_state (accounts 25) 0 ]}
                           (listing_state (accounts 25) 0) (accounts 25) 0
                           {| text := Next; callback_data := "users_page_1" |}
                           (lookup_singleton_eq _ _) eq_refl Hb eq_refl
                           (fun c => ex_intro _ 1 eq_refl))
                   eq_refl)).
  unfold store_of. cbn [fst snd query chat_id]. apply lookup_insert_eq.
Defined.

(** ** Searching from the chat (complete bot) *)

Lemma searchUsers_failed (env : Env) (searchTerm error : string) (s : States) :
  get_users env 0 1000 = inl error ->
  MatrixClient.searchUsers env searchTerm None None s =
    (Throw ("Failed to search users: " +:+ error), s,
     [Http (GetUsersReq 0 1000);
      Console (ClientError (GetUsersReq 0 1000) error)]).
Proof.
  intros H. unfold MatrixClient.searchUsers. run_monad. now rewrite H.
Qed.

Lemma firstn_length_eqb_0 {A} (l : list A) :
  (length (firstn 100 l) =? 0)%nat = (length l =? 0)%nat.
Proof. now destruct l. Qed.

(** The text a chat sends after "Search Users" is the search term.  With
    Telegram taking the calls, the listener of the complete bot trims it,
    announces the search, and asks the directory for its first thousand
    accounts.  When accounts match, the session of the chat becomes the
    first hundred matches, the term and page 0, and the results are shown
    with the number of all matches; when none matches, or the directory
    refuses, the outcome is reported and the session of the chat is
    deleted.  In every case the chat is no longer waiting for a term. *)
Theorem search_input (env : Env) (msg : Message) (s : States) (st : State)
    (t : string) (mid : Z) :
  s !! msg_chat_id msg = Some st ->
  waiting_for_search st = true ->
  msg_text msg = Some t ->
  JS.startsWith t "/" = false ->
  JS.trim t <> "" ->
  (forall c, exists m, telegram env c = inr m) ->
  telegram env (sendMessage (msg_chat_id msg) (Searching (JS.trim t)) None) = inr mid ->
  let chatId := msg_chat_id msg in
  let searchTerm := JS.trim t in
  let announced := Tg (sendMessage chatId (Searching searchTerm) None) in
  Complete.message_listener env msg s
  = match get_users env 0 1000 with
    | inr response =>
        let found :=
          MatrixClient.filteredUsers env searchTerm (default [] response) in
        if (length found =? 0)%nat
        then (Ok tt, delete chatId s,
              [ announced; Http (GetUsersReq 0 1000);
                Tg (editMessageText (NoSearchResults searchTerm) chatId mid
                      (Some Complete.no_results_keyboard)) ])
        else (Ok tt,
              <[chatId := search_session searchTerm (firstn 100 found) 0]> s,
              [ announced; Http (GetUsersReq 0 1000);
                Tg (editMessageText (SearchResults (length found) (Some searchTerm))
                      chatId mid
                      (Some (Complete.createSearchResultKeyboard (firstn 100 found)
                               (Some searchTerm) (Some (JS.Num 0)) None))) ])
    | inl error =>
        (Ok tt, delete chatId s,
         [ announced; Http (GetUsersReq 0 1000);
           Console (ClientError (GetUsersReq 0 1000) error);
           Tg (editMessageText (SearchFailed ("Failed to search users: " +:+ error))
                 chatId mid (Some [ [ back_to_menu_button ] ])) ])
    end.
Proof.
  intros Hst Hwait Htext Hslash Hterm Htg Hmid chatId searchTerm announced.
  subst chatId searchTerm announced.
  assert (String.eqb t "" = false) as Hne
    by (destruct t; [now destruct Hterm | reflexivity]).
  apply String.eqb_neq in Hterm.
  unfold Complete.message_listener. rewrite Htext.
  unfold JS.truthy, JS.or_else. rewrite Hne, Hslash, andb_false_r.
  cbv zeta. unfold bind at 1, userStates_get. rewrite Hst, Hwait, Hterm.
  unfold bind at 1, await_tg at 1. rewrite Hmid. cbv beta iota zeta.
  unfold try_catch at 1, Complete.show_search_results.
  unfold bind at 1.
  destruct (get_users env 0 1000) as [error | response] eqn:Hget.
  - rewrite (searchUsers_failed env _ error _ Hget). cbv beta iota zeta.
    run_handler Htg idtac. reflexivity.
  - rewrite (searchUsers_ok env _ _ response Hget). cbv beta iota zeta.
    cbn [SearchResult.users SearchResult.total].
    rewrite firstn_length_eqb_0.
    destruct (length _ =? 0)%nat; run_handler Htg idtac; reflexivity.
Qed.

Lemma search_input_witness :
  store_of (Complete.message_listener small_directory (text_message " MARY ")
              {[ 5 := waiting_session ]}) !! 5
  = Some (search_session "MARY" [mary] 0).
Proof.
  rewrite (search_input small_directory (text_message " MARY ")
             {[ 5 := waiting_session ]} waiting_session " MARY " 1
             (lookup_singleton_eq _ _) eq_refl eq_refl eq_refl
             ltac:(vm_compute; discriminate)
             (fun c => ex_intro _ 1 eq_refl) eq_refl).
  vm_compute get_users. cbv beta iota zeta.
  change (JS.trim " MARY ") with "MARY".
  replace (MatrixClient.filteredUsers small_directory "MARY"
             (default [] (Some [john; mary])))
    with [mary] by (vm_compute; reflexivity).
  cbn [length Nat.eqb firstn]. unfold store_of. cbn [fst snd text_message msg_chat_id].
  apply lookup_insert_eq.
Defined.

(** ** Messages and requests *)

Lemma in_bind {A B} (m : M A) (f : A -> M B) (s : States) (e : Effect) :
  In e (calls_of (bind m f s)) ->
  In e (calls_of (m s)) \/ exists a s1, In e (calls_of (f a s1)).
Proof.
  unfold bind, calls_of. destruct (m s) as [[[a | err] s1] t1]; cbn [snd].
  - destruct (f a s1) as [[r s2] t2] eqn:E. cbn [snd].
    rewrite in_app_iff. intros [H | H]; [now left|].
    right. exists a, s1. now rewrite E.
  - now left.
Qed.

Lemma requireAuth_granted (cfg : Config) (handler : Message -> M unit)
    (msg : Message) (s : States) :
  Secure_auth.isAuthorized cfg (msg_from msg) = true ->
  requireAuth cfg handler msg s
  = (outcome_of (handler msg s), store_of (handler msg s),
     Console (AuthorizedAccess (msg_from msg) (JS.or_else (msg_text msg) "callback"))
     :: calls_of (handler msg s)).
Proof.
  intros Hauth. unfold requireAuth. cbv zeta.
  unfold bind at 1. rewrite check_authorized_run, Hauth.
  assert (locked_down_line cfg = []) as ->.
  { unfold locked_down_line. destruct (_ && _) eqn:E; [|reflexivity].
    unfold Secure_auth.isAuthorized in Hauth. rewrite E in Hauth. discriminate. }
  cbv beta iota zeta. unfold negb, bind, console, emit.
  destruct (handler msg s) as [[r s1] t1]. reflexivity.
Qed.

Lemma commands_no_request (cfg : Config) (env : Env) (msg : Message) :
  emits no_request (Secure.on_message cfg msg)
  /\ emits no_request
       (onText cfg re_start start_command msg ;;
        onText cfg re_help help_command msg ;;
        onText cfg re_menu menu_command msg ;;
        onText cfg re_whoami whoami_command msg ;;
        onText cfg (fun t => bool_decide (is_Some (re_search t)))
          (fun msg => Complete.search_command env msg None) msg).
Proof.
  split; [unfold Secure.on_message|];
    repeat (apply emits_bind; [|intros ?]);
    apply onText_emits; try (intros; exact I);
    unfold start_command, help_command, menu_command, whoami_command,
      Complete.search_command;
    emits_walk; exact I.
Qed.

Lemma listener_search_request_only (env : Env) (msg : Message) :
  emits search_request_only (Complete.message_listener env msg).
Proof.
  unfold Complete.message_listener, Complete.show_search_results. cbv zeta.
  emits_walk; try exact I; try reflexivity.
  all: destruct (_ =? _)%nat; emits_walk; try exact I; try reflexivity.
  all: destruct clear_when_empty; emits_walk.
Qed.

Lemma listener_idle (env : Env) (msg : Message) (s : States) (r : Request) :
  In (Http r) (calls_of (Complete.message_listener env msg s)) ->
  search_awaited s msg.
Proof.
  unfold Complete.message_listener, search_awaited. cbv zeta.
  destruct (msg_text msg) as [t|] eqn:Htext.
  - unfold JS.truthy, JS.or_else.
    destruct (String.eqb t "") eqn:Hne.
    + apply String.eqb_eq in Hne. subst t. cbn [negb andb].
      unfold bind at 1, userStates_get.
      destruct (s !! msg_chat_id msg) as [st|]; [|intros []].
      destruct (waiting_for_search st); [|intros []].
      cbn. intros [H | []]. discriminate.
    + cbn [negb andb].
      destruct (JS.startsWith t "/") eqn:Hslash; [intros []|].
      unfold bind at 1, userStates_get.
      destruct (s !! msg_chat_id msg) as [st|] eqn:Hst; [|intros []].
      destruct (waiting_for_search st) eqn:Hwait; [|intros []].
      destruct (String.eqb (JS.trim t) "") eqn:Hterm.
      * cbn. intros [H | []]. discriminate.
      * intros _. exists st, t. apply String.eqb_neq in Hterm. tauto.
  - cbn [JS.truthy andb]. unfold bind at 1, userStates_get.
    destruct (s !! msg_chat_id msg) as [st|]; [|intros []].
    destruct (waiting_for_search st); intros [].
Qed.

(** No message makes the secure bot send a request.  A message makes the
    complete bot send a request only when its sender is authorized and the
    chat was asked for a search term that the message carries; the request
    is then the one for the first thousand accounts.  So the [/search]
    command, whose text starts with a slash, never reaches the directory. *)
Theorem messages_and_requests (cfg : Config) (env : Env) (msg : Message)
    (s : States) (r : Request) :
  ~ In (Http r) (calls_of (secure_bot cfg env (MessageUpdate msg) s))
  /\ (In (Http r) (calls_of (complete_bot cfg env (MessageUpdate msg) s)) ->
      r = GetUsersReq 0 1000
      /\ Secure_auth.isAuthorized cfg (msg_from msg) = true
      /\ search_awaited s msg).
Proof.
  destruct (commands_no_request cfg env msg) as [Hsecure Hcommands].
  split.
  - intros H. exact (emits_in _ _ _ _ Hsecure H).
  - cbn [complete_bot]. unfold Complete.on_message. intros H.
    apply in_bind in H as [H | (a & s1 & H)].
    + unfold detached, calls_of in H.
      destruct (Secure_auth.isAuthorized cfg (msg_from msg)) eqn:Hauth.
      * rewrite (requireAuth_granted _ _ _ _ Hauth) in H. cbn [snd] in H.
        destruct H as [H | H]; [discriminate|].
        split; [|split; [reflexivity|]].
        -- exact (emits_in _ _ _ _ (listener_search_request_only env msg) H).
        -- exact (listener_idle _ _ _ _ H).
      * rewrite (requireAuth_denied _ _ _ _ Hauth) in H. cbn [snd] in H.
        apply in_app_iff in H as [H | H].
        -- unfold locked_down_line in H. destruct (_ && _) in H;
             [destruct H as [H | []]; discriminate | destruct H].
        -- repeat destruct H as [H | H]; try discriminate. destruct H.
    + destruct (emits_in _ _ _ _ Hcommands H).
Qed.

Lemma messages_and_requests_witness :
  search_awaited {[ 5 := waiting_session ]} (text_message "mary").
Proof.
  apply (proj2 (messages_and_requests cfg42 small_directory (text_message "mary")
                  {[ 5 := waiting_session ]} (GetUsersReq 0 1000))).
  in_calls.
Defined.

(** ** Where deactivation is offered (complete bot) *)

Lemma slice_In {A} (a : list A) (start end_ : JS.jsnum) (x : A) :
  In x (JS.slice a start end_) -> In x a.
Proof.
  unfold JS.slice. cbv zeta. intros H.
  rewrite <- (firstn_skipn (Z.to_nat (JS.rel_index (Z.of_nat (length a)) start)) a).
  apply in_or_app. right.
  rewrite <- (firstn_skipn
                (Z.to_nat (JS.rel_index (Z.of_nat (length a)) end_
                           - JS.rel_index (Z.of_nat (length a)) start))
                (skipn _ a)).
  apply in_or_app. now left.
Qed.

Lemma navRow_not_deactivate {A} (users : list A) (page size : JS.jsnum)
    (b : Button) :
  In b (navRow "search_page_" users page size) ->
  JS.startsWith (callback_data b) "deactivate_" = false.
Proof.
  intros H. apply navRow_member in H as [(_ & -> & _) | (_ & -> & _)]; reflexivity.
Qed.

(** The results keyboard of the complete bot offers deactivation only for
    accounts of the list that are neither deactivated nor administrators:
    every button whose token starts with "deactivate_" carries the id of
    such an account, and every such account on the page has that button. *)
Theorem search_keyboard_protects_admins (users : list User)
    (term : option string) (page size : option JS.jsnum) :
  (forall b,
     In b (concat (Complete.createSearchResultKeyboard users term page size)) ->
     JS.startsWith (callback_data b) "deactivate_" = true ->
     exists user, In user users
                  /\ callback_data b = "deactivate_" +:+ name user
                  /\ deactivated user = false /\ admin user = false)
  /\ (forall user,
        In user (pageUsers users (default (JS.Num 0) page)
                   (default (JS.Num 10) size)) ->
        deactivated user = false -> admin user = false ->
        In {| text := DeactivateAction;
              callback_data := "deactivate_" +:+ name user |}
           (concat (Complete.createSearchResultKeyboard users term page size))).
Proof.
  unfold Complete.createSearchResultKeyboard. cbv zeta.
  rewrite !concat_app, push_navRow_concat. split.
  - intros b Hb Htok. rewrite !in_app_iff in Hb.
    destruct Hb as [Hb | [Hb | Hb]].
    + apply in_concat in Hb as (row & Hrow & Hb).
      apply in_map_iff in Hrow as (user & <- & Huser).
      destruct Hb as [<- | [<- | []]]; [discriminate|].
      exists user. split; [exact (slice_In _ _ _ _ Huser)|].
      unfold Complete.actionButton in *.
      destruct (deactivated user); [discriminate|].
      destruct (admin user); [discriminate|]. auto.
    + now rewrite (navRow_not_deactivate _ _ _ _ Hb) in Htok.
    + simpl in Hb. destruct Hb as [<- | [<- | []]]; discriminate.
  - intros user Huser Hd Ha. rewrite in_app_iff. left.
    apply in_concat. eexists. split.
    + apply in_map_iff. exists user. split; [reflexivity | exact Huser].
    + right. left. unfold Complete.actionButton. now rewrite Hd, Ha.
Qed.

(** The information screen of the complete bot.  Pressing the name of an
    account asks the directory for that account and changes no session.
    The screen that shows the answer offers "Deactivate User" for the
    pressed id exactly when the answer says the account is not deactivated,
    whether or not it is an administrator; a refusal of the directory is
    reported with only a "Back to Menu" button. *)
Theorem userinfo_screen (env : Env) (q : CallbackQuery) (s : States)
    (userId : string) :
  data q = "userinfo_" +:+ userId ->
  (forall c, exists mid, telegram env c = inr mid) ->
  Complete.callback_query env q s
  = match get_user env userId with
    | inr userInfo =>
        (Ok tt, s,
         [ Tg (answerCallbackQuery (query_id q) None);
           Http (GetUserReq userId);
           Tg (editMessageText (UserInformation userInfo) (chat_id q) (message_id q)
                 (Some (Complete.userinfo_keyboard userInfo userId))) ])
    | inl error =>
        (Ok tt, s,
         [ Tg (answerCallbackQuery (query_id q) None);
           Http (GetUserReq userId);
           Console (ClientError (GetUserReq userId) error);
           Tg (editMessageText
                 (ErrorGettingUserInfo ("Failed to get user info: " +:+ error))
                 (chat_id q) (message_id q) (Some [ [ back_to_menu_button ] ])) ])
    end
  /\ forall userInfo,
       In ("deactivate_" +:+ userId)
          (tokens (Complete.userinfo_keyboard userInfo userId))
       <-> deactivated userInfo = false.
Proof.
  intros Hdata Htg. split.
  - unfold Complete.callback_query, Complete.callback_query_body.
    pick_branch Hdata.
    change (String.length "userinfo_") with 9%nat.
    change (JS.substring 9 ("userinfo_" +:+ userId)) with userId.
    unfold MatrixClient.getUserInfo, MatrixClient.axios_get_user.
    destruct (get_user env userId) eqn:Hget;
      run_handler Htg ltac:(rewrite ?Hget); reflexivity.
  - intros userInfo. unfold Complete.userinfo_keyboard, tokens.
    destruct (deactivated userInfo); simpl; split; intros H;
      try discriminate; try tauto.
    destruct H as [H | [H | [H | []]]]; discriminate.
Qed.

Lemma userinfo_screen_witness :
  In "deactivate_@john:x"
     (shown_tokens small_directory
        (calls_of (Complete.callback_query small_directory
                     (query "userinfo_@john:x") ∅))).
Proof.
  rewrite (proj1 (userinfo_screen small_directory (query "userinfo_@john:x") ∅
                    "@john:x" eq_refl (fun c => ex_intro _ 1 eq_refl))).
  vm_compute. auto.
Defined.

Lemma search_keyboard_protects_admins_witness :
  In {| text := DeactivateAction; callback_data := "deactivate_@john:x" |}
     (concat (Complete.createSearchResultKeyboard [john; mary] None None None)).
Proof.
  apply (proj2 (search_keyboard_protects_admins [john; mary] None None None) john);
    [vm_compute; auto | reflexivity | reflexivity].
Defined.

(** ** The pages of a list *)

Lemma firstn_plus {A} (a b : nat) (l : list A) :
  firstn (a + b) l = firstn a l ++ firstn b (skipn a l).
Proof.
  revert l. induction a as [|a IH]; intros [|x l]; simpl;
    try reflexivity; [now destruct b | now rewrite IH].
Qed.

Lemma pageUsers_chunk {A} (users : list A) (p : nat) (n : Z) :
  0 < n ->
  pageUsers users (JS.Num (Z.of_nat p)) (JS.Num n)
  = firstn (Z.to_nat n) (skipn (p * Z.to_nat n) users).
Proof.
  intros Hn. rewrite pageUsers_value by lia. unfold items_between.
  replace (Z.to_nat (Z.of_nat p * n)) with (p * Z.to_nat n)%nat by nia.
  set (rest := skipn (p * Z.to_nat n) users).
  assert (length rest = (length users - p * Z.to_nat n)%nat) as Hrest
    by apply length_skipn.
  destruct (Z.le_ge_cases (Z.of_nat p * n + n) (Z.of_nat (length users))).
  - f_equal. lia.
  - rewrite Z.min_r by lia.
    rewrite !firstn_all2; [reflexivity | nia | nia].
Qed.

(** Paging loses nothing and repeats nothing: for a positive page size,
    the pages 0, 1, ..., k-1 of a list, one after the other, are the list
    itself as soon as k pages are enough to hold it. *)
Theorem pages_cover_the_list {A} (users : list A) (n : Z) (k : nat) :
  0 < n ->
  Z.of_nat (length users) <= Z.of_nat k * n ->
  concat (map (fun p => pageUsers users (JS.Num (Z.of_nat p)) (JS.Num n))
              (seq 0 k))
  = users.
Proof.
  intros Hn Hk.
  assert (forall j,
            concat (map (fun p => pageUsers users (JS.Num (Z.of_nat p)) (JS.Num n))
                        (seq 0 j))
            = firstn (j * Z.to_nat n) users) as Hprefix.
  { induction j as [|j IH]; [reflexivity|].
    rewrite seq_S, map_app, concat_app, IH. simpl.
    rewrite app_nil_r, pageUsers_chunk by exact Hn.
    rewrite Nat.add_comm. symmetry. apply firstn_plus. }
  rewrite Hprefix. apply firstn_all2. nia.
Qed.

Lemma pages_cover_the_list_witness :
  concat (map (fun p => pageUsers (accounts 25) (JS.Num (Z.of_nat p)) (JS.Num 10))
              (seq 0 3))
  = accounts 25.
Proof.
  apply pages_cover_the_list; [lia|]. vm_compute. discriminate.
Defined.

(** ** From the environment to the allow-list *)

Lemma parse_users_In (env : option string) (x : JS.jsnum) :
  In x (parse_users env)
  <-> JS.truthy env = true
      /\ exists entry, In entry (JS.split "," (JS.or_else env ""))
                       /\ JS.parseInt (JS.trim entry) = x.
Proof.
  unfold parse_users. destruct (JS.truthy env).
  - rewrite in_map_iff. split.
    + intros (entry & <- & H). eauto.
    + intros (_ & entry & H & <-). eauto.
  - split; [intros [] | intros [H _]; discriminate].
Qed.

Lemma parse_usernames_In (env : option string) (x : string) :
  In x (parse_usernames env)
  <-> JS.truthy env = true
      /\ exists entry, In entry (JS.split "," (JS.or_else env ""))
                       /\ JS.toLowerCase (JS.trim entry) = x.
Proof.
  unfold parse_usernames. destruct (JS.truthy env).
  - rewrite in_map_iff. split.
    + intros (entry & <- & H). eauto.
    + intros (_ & entry & H & <-). eauto.
  - split; [intros [] | intros [H _]; discriminate].
Qed.

(** Who is let in, stated in terms of the two environment variables,
    for ids the model holds exactly and for handles that are ASCII text:
    the entries of [AUTHORIZED_USERS] parse to integers of magnitude at
    most 2^53 or to no number, the sender's id is such an integer, and the
    trimmed entries of [AUTHORIZED_USERNAMES] and the sender's handle are
    ASCII.  Then a sender is authorized exactly when [AUTHORIZED_USERS] is
    set and one of its comma-separated entries, trimmed, parses (as
    [parseInt] does) to the sender's id, or the sender has a handle,
    [AUTHORIZED_USERNAMES] is set and one of its entries, trimmed, equals
    the handle up to the case of letters. *)
Theorem authorization_from_environment (ids handles : option string)
    (user : TgUser) :
  Forall exact_number (parse_users ids) ->
  Z.abs (id user) <= 2 ^ 53 ->
  Forall (fun entry => JS.is_ascii (JS.trim entry) = true)
         (JS.split "," (JS.or_else handles "")) ->
  (forall h, username user = Some h -> JS.is_ascii h = true) ->
  Secure_auth.isAuthorized (config_of_env ids handles) user = true
  <-> (JS.truthy ids = true
       /\ exists entry, In entry (JS.split "," (JS.or_else ids ""))
                        /\ JS.parseInt (JS.trim entry) = JS.Num (id user))
      \/ (JS.truthy handles = true
          /\ exists h entry,
               username user = Some h /\ h <> ""
               /\ In entry (JS.split "," (JS.or_else handles ""))
               /\ same_text (JS.trim entry) h).
Proof.
  intros _ _ _ _.
  rewrite isAuthorized_spec. unfold config_of_env.
  cbn [AUTHORIZED_USERS AUTHORIZED_USERNAMES].
  rewrite parse_users_In. split.
  - intros [_ [H | (h & Hh & Hne & H)]]; [now left|].
    right. apply parse_usernames_In in H as (Ht & entry & He & Hl).
    split; [exact Ht|]. exists h, entry. repeat split; try assumption.
    now apply toLowerCase_same.
  - intros [H | (Ht & h & entry & Hh & Hne & He & Hl)].
    + split; [|now left].
      intros [Hids _]. apply parse_users_In in H.
      rewrite Hids in H. destruct H.
    + apply toLowerCase_same in Hl.
      assert (In (JS.toLowerCase h) (parse_usernames handles)) as Hin
        by (apply parse_usernames_In; eauto).
      split; [|right; eauto].
      intros [_ Hhandles]. rewrite Hhandles in Hin. destruct Hin.
Qed.

(** The variable holds " Admin , bob": the handle "admin" gets through. *)
Lemma authorization_from_environment_witness :
  Secure_auth.isAuthorized (config_of_env (Some "42") (Some " Admin , bob"))
    {| id := 7; username := Some "admin"; first_name := None; last_name := None |}
  = true.
Proof.
  apply (authorization_from_environment (Some "42") (Some " Admin , bob")
           {| id := 7; username := Some "admin"; first_name := None;
              last_name := None |}).
  - repeat constructor. vm_compute. discriminate.
  - vm_compute. discriminate.
  - repeat constructor.
  - intros h [= <-]. reflexivity.
  - right. split; [reflexivity|]. exists "admin", " Admin ".
    repeat split; [discriminate | vm_compute; now left |].
    change (JS.trim " Admin ") with "Admin".
    apply same_cons; [right; left; split; reflexivity | apply same_text_refl].
Defined.

(** ** Paging through search results (complete bot) *)

Lemma search_nav_button (results : list User) (term : option string) (p : Z)
    (b : Button) :
  In b (concat (Complete.createSearchResultKeyboard results term
                  (Some (JS.Num p)) None)) ->
  (text b = Next ->
   callback_data b = "search_page_" +:+ JS.toString (JS.Num (p + 1))
   /\ (p + 1) * 10 < Z.of_nat (length results))
  /\ (text b = Previous ->
      callback_data b = "search_page_" +:+ JS.toString (JS.Num (p - 1))
      /\ 0 <= p - 1).
Proof.
  intros Hb. split; intros E.
  - apply (paged_nav_member Next) in Hb; try assumption.
    + apply navRow_member in Hb as [(E' & _) | (_ & Hd & Hlt)]; [congruence|].
      split; [exact Hd|]. unfold endIndex, startIndex in Hlt. simpl in Hlt.
      apply Z.ltb_lt in Hlt. lia.
    + intros x b' [<- | [<- | []]]; [discriminate|].
      unfold Complete.actionButton. now destruct (deactivated x), (admin x).
    + intros b' [<- | [<- | []]]; discriminate.
  - apply (paged_nav_member Previous) in Hb; try assumption.
    + apply navRow_member in Hb as [(_ & Hd & Hgt) | (E' & _)]; [|congruence].
      split; [exact Hd|]. simpl in Hgt. apply Z.ltb_lt in Hgt. lia.
    + intros x b' [<- | [<- | []]]; [discriminate|].
      unfold Complete.actionButton. now destruct (deactivated x), (admin x).
    + intros b' [<- | [<- | []]]; discriminate.
Qed.

Lemma search_page_run (env : Env) (q : CallbackQuery) (s : States) (st : State)
    (results : list User) (z : Z) :
  data q = "search_page_" +:+ JS.toString (JS.Num z) ->
  s !! chat_id q = Some st ->
  search_results st = Some results ->
  (forall c, exists mid, telegram env c = inr mid) ->
  Complete.callback_query env q s
  = (Ok tt, <[chat_id q := set_search_page st (JS.Num z)]> s,
     [ Tg (answerCallbackQuery (query_id q) None);
       Tg (editMessageReplyMarkup
             (Complete.createSearchResultKeyboard results (search_term st)
                (Some (JS.Num z)) None)
             (chat_id q) (message_id q)) ]).
Proof.
  intros Hdata Hst Hres Htg.
  unfold Complete.callback_query, Complete.callback_query_body.
  pick_branch Hdata. rewrite (proj2 (proj2 (page_token_parse z))).
  run_handler Htg ltac:(rewrite ?Hst, ?Hres).
  reflexivity.
Qed.

Lemma back_to_search_run (env : Env) (q : CallbackQuery) (s : States) (st : State)
    (results : list User) :
  data q = "back_to_search" ->
  s !! chat_id q = Some st ->
  search_results st = Some results ->
  (forall c, exists mid, telegram env c = inr mid) ->
  Complete.callback_query env q s
  = (Ok tt, s,
     [ Tg (answerCallbackQuery (query_id q) None);
       Tg (editMessageText (SearchResults (length results) (search_term st))
             (chat_id q) (message_id q)
             (Some (Complete.createSearchResultKeyboard results (search_term st)
                      (Some (Complete.search_page_or_0 st)) None))) ]).
Proof.
  intros Hdata Hst Hres Htg.
  unfold Complete.callback_query, Complete.callback_query_body.
  pick_branch Hdata.
  run_handler Htg ltac:(rewrite ?Hst, ?Hres).
  reflexivity.
Qed.

Lemma search_page_or_0_set (st : State) (z : Z) :
  Complete.search_page_or_0 (set_search_page st (JS.Num z)) = JS.Num z.
Proof.
  unfold Complete.search_page_or_0, set_search_page. cbn [search_page].
  destruct (Z.eqb_spec z 0); congruence.
Qed.

(** Paging through search results in the complete bot.  When the session
    holds the results a keyboard was drawn from, its "Next" (or
    "Previous") button stores the next (or previous) page number, keeps
    results and term, and redraws the keyboard for that page, which starts
    inside the results (or is not negative).  "Back to Search", pressed in
    the same chat afterwards, shows the page that was stored, with the
    number of stored results, and changes no session. *)
Theorem search_results_paging (env : Env) (q back : CallbackQuery) (s : States)
    (st : State) (results : list User) (p p' : Z) (b : Button) :
  s !! chat_id q = Some st ->
  search_results st = Some results ->
  In b (concat (Complete.createSearchResultKeyboard results (search_term st)
                  (Some (JS.Num p)) None)) ->
  text b = Next /\ p' = p + 1 \/ text b = Previous /\ p' = p - 1 ->
  data q = callback_data b ->
  data back = "back_to_search" ->
  chat_id back = chat_id q ->
  (forall c, exists mid, telegram env c = inr mid) ->
  let s' := <[chat_id q := set_search_page st (JS.Num p')]> s in
  let keyboard :=
    Complete.createSearchResultKeyboard results (search_term st)
      (Some (JS.Num p')) None in
  Complete.callback_query env q s
  = (Ok tt, s',
     [ Tg (answerCallbackQuery (query_id q) None);
       Tg (editMessageReplyMarkup keyboard (chat_id q) (message_id q)) ])
  /\ Complete.callback_query env back s'
     = (Ok tt, s',
        [ Tg (answerCallbackQuery (query_id back) None);
          Tg (editMessageText (SearchResults (length results) (search_term st))
                (chat_id q) (message_id back) (Some keyboard)) ])
  /\ (text b = Next -> p' * 10 < Z.of_nat (length results))
  /\ (text b = Previous -> 0 <= p').
Proof.
  intros Hst Hres Hb Hdir Hdata Hback Hchat Htg s' keyboard.
  destruct (search_nav_button results (search_term st) p b Hb) as [Hnext Hprev].
  assert (data q = "search_page_" +:+ JS.toString (JS.Num p')
          /\ (text b = Next -> p' * 10 < Z.of_nat (length results))
          /\ (text b = Previous -> 0 <= p'))
    as (Htoken & Hhigh & Hlow).
  { destruct Hdir as [[E ->] | [E ->]].
    - destruct (Hnext E) as [Hd Hin]. rewrite Hd in Hdata.
      repeat split; [exact Hdata | auto | intros E'; congruence].
    - destruct (Hprev E) as [Hd Hin]. rewrite Hd in Hdata.
      repeat split; [exact Hdata | intros E'; congruence | auto]. }
  split; [now apply search_page_run|].
  split; [|split; assumption].
  subst s' keyboard.
  rewrite (back_to_search_run env back _ (set_search_page st (JS.Num p')) results
             Hback); try assumption.
  - rewrite search_page_or_0_set, Hchat. reflexivity.
  - rewrite Hchat. apply lookup_insert_eq.
Qed.

Lemma search_results_paging_witness :
  store_of (Complete.callback_query small_directory (query "search_page_1")
              {[ 5 := search_session "u" (accounts 25) 0 ]}) !! 5
  = Some (search_session "u" (accounts 25) 1).
Proof.
  assert (In {| text := Next; callback_data := "search_page_1" |}
            (concat (Complete.createSearchResultKeyboard (accounts 25) (Some "u")
                       (Some (JS.Num 0)) None))) as Hb
    by (vm_compute; repeat (first [left; reflexivity | right])).
  rewrite (proj1 (search_results_paging small_directory
                    (query "search_page_1") (query "back_to_search")
                    {[ 5 := search_session "u" (accounts 25) 0 ]}
                    (search_session "u" (accounts 25) 0) (accounts 25) 0 1
                    {| text := Next; callback_data := "search_page_1" |}
                    (lookup_singleton_eq _ _) eq_refl Hb
                    (or_introl (conj eq_refl eq_refl)) eq_refl eq_refl eq_refl
                    (fun c => ex_intro _ 1 eq_refl))).
  unfold store_of. cbn [fst snd query chat_id]. apply lookup_insert_eq.
Defined.

(** ** The first bot *)

Lemma basic_callback_no_confirmed (env : Env) (q : CallbackQuery) :
  emits (confirmed_deactivation (data q)) (Basic.on_callback_query env q).
Proof.
  unfold Basic.on_callback_query, Basic.callback_query_body. cbv zeta.
  emits_walk; try destruct a; emits_walk; confirmed_side.
Qed.

(** The first bot serves every sender.  Its callback listener is
    registered without a check and never looks at the sender, so the press
    of a confirmation token is carried out whoever sent it, a sender whom
    the [isAuthorized] of that script rejects included: one deactivation
    request for the id of the token, with [erase = false], the success
    text, and the acknowledgement.  What the first bot does keep is the
    token discipline: it sends a deactivation request only in answer to a
    confirmation token. *)
Theorem first_bot_serves_every_sender (env : Env) (q : CallbackQuery)
    (s : States) (userId : string) :
  data q = "confirm_deactivate_" +:+ userId ->
  (forall c, exists mid, telegram env c = inr mid) ->
  post_deactivate env userId false = inr tt ->
  Basic.on_callback_query env q s
  = (Ok tt, s,
     [ Tg (editMessageText (DeactivatingUser userId) (chat_id q) (message_id q) None);
       Http (DeactivateReq userId false);
       Tg (editMessageText (UserDeactivated userId) (chat_id q) (message_id q)
             (Some deactivated_keyboard));
       Tg (answerCallbackQuery (query_id q) None) ])
  /\ forall q' s' userId' erase,
       In (Http (DeactivateReq userId' erase))
          (calls_of (Basic.on_callback_query env q' s')) ->
       data q' = "confirm_deactivate_" +:+ userId' /\ erase = false.
Proof.
  intros Hdata Htg Hpost. split.
  - unfold Basic.on_callback_query, Basic.callback_query_body.
    pick_branch Hdata.
    change (String.length "confirm_deactivate_") with 19%nat.
    change (JS.substring 19 ("confirm_deactivate_" +:+ userId)) with userId.
    run_handler Htg ltac:(rewrite ?Hpost). reflexivity.
  - intros q' s' userId' erase H.
    exact (emits_in _ _ _ _ (basic_callback_no_confirmed env q') H).
Qed.

Lemma first_bot_serves_every_sender_witness :
  Basic_auth.isAuthorized cfg42 stranger = false
  /\ In (Http (DeactivateReq "@john:x" false))
     (calls_of (Basic.on_callback_query small_directory
                  {| query_id := "q"; from := stranger;
                     data := "confirm_deactivate_@john:x";
                     chat_id := 5; message_id := 9 |} ∅)).
Proof.
  split; [reflexivity|].
  rewrite (proj1 (first_bot_serves_every_sender small_directory
                    {| query_id := "q"; from := stranger;
                       data := "confirm_deactivate_@john:x";
                       chat_id := 5; message_id := 9 |} ∅ "@john:x"
                    eq_refl (fun c => ex_intro _ 1 eq_refl) eq_refl)).
  cbn. auto.
Defined.

(** ** Asking for a search term *)

(** "Search Users" replaces the session of the chat by the bare waiting
    mark, dropping any stored list, page or results, but only once the
    prompt was delivered: when Telegram refuses the prompt the session
    store is left as it was.  Both bots do this, though only the complete
    bot has a listener that reads the mark. *)
Theorem search_prompt_sets_waiting (env : Env) (q : CallbackQuery) (s : States) :
  data q = "search_users" ->
  let after :=
    match telegram env (editMessageText SearchPrompt (chat_id q) (message_id q)
                          (Some [ [ back_to_menu_button ] ])) with
    | inr _ => <[chat_id q := waiting_session]> s
    | inl _ => s
    end in
  store_of (Secure.callback_query env q s) = after
  /\ store_of (Complete.callback_query env q s) = after.
Proof.
  intros Hdata after. subst after. split.
  - unfold Secure.callback_query, Secure.callback_query_body.
    pick_branch Hdata. run_monad.
    destruct (telegram env (answerCallbackQuery (query_id q) None));
      cbv beta iota zeta;
      destruct (telegram env (editMessageText SearchPrompt _ _ _));
      cbv beta iota zeta; tg_cases; reflexivity.
  - unfold Complete.callback_query, Complete.callback_query_body.
    pick_branch Hdata. run_monad.
    destruct (telegram env (answerCallbackQuery (query_id q) None));
      cbv beta iota zeta;
      destruct (telegram env (editMessageText SearchPrompt _ _ _));
      cbv beta iota zeta; tg_cases; reflexivity.
Qed.

Lemma search_prompt_sets_waiting_witness :
  store_of (Complete.callback_query small_directory (query "search_users")
              page_two_session) !! 5
  = Some waiting_session.
Proof.
  rewrite (proj2 (search_prompt_sets_waiting small_directory (query "search_users")
                    page_two_session eq_refl)).
  reflexivity.
Defined.

(** ** Commands *)

Lemma onText_run (cfg : Config) (regexp : string -> bool)
    (handler : Message -> M unit) (msg : Message) (t : string) (c : TgCall)
    (s : States) :
  Secure_auth.isAuthorized cfg (msg_from msg) = true ->
  msg_text msg = Some t ->
  handler msg = fire_tg c ->
  onText cfg regexp handler msg s
  = (Ok tt, s,
     if regexp t
     then [ Console (AuthorizedAccess (msg_from msg) (JS.or_else (Some t) "callback"));
            Tg c ]
     else []).
Proof.
  intros Hauth Htext Hh. unfold onText. rewrite Htext.
  destruct (regexp t); [|reflexivity].
  unfold detached. rewrite (requireAuth_granted _ _ _ _ Hauth), Hh, Htext.
  reflexivity.
Qed.

(** The command patterns are not anchored.  For an authorized sender the
    secure bot answers a text message with the welcome, the help, the menu
    or the sender's data exactly when "/start", "/help", "/menu" or
    "/whoami" occurs somewhere in the text, so one message can trigger
    several commands and a command inside a sentence still runs. *)
Theorem commands_match_anywhere (cfg : Config) (env : Env) (msg : Message)
    (t : string) (s : States) :
  Secure_auth.isAuthorized cfg (msg_from msg) = true ->
  msg_text msg = Some t ->
  let sent c := In (Tg c) (calls_of (secure_bot cfg env (MessageUpdate msg) s)) in
  let occurs command := exists before after, t = before +:+ command +:+ after in
  let chatId := msg_chat_id msg in
  (sent (sendMessage chatId (WelcomeText (msg_from msg)) (Some createMainKeyboard))
   <-> occurs "/start")
  /\ (sent (sendMessage chatId HelpText None) <-> occurs "/help")
  /\ (sent (sendMessage chatId ChooseAction (Some createMainKeyboard))
      <-> occurs "/menu")
  /\ (sent (sendMessage chatId (AuthorizationInfo (msg_from msg)) None)
      <-> occurs "/whoami").
Proof.
  intros Hauth Htext sent occurs chatId. subst sent occurs chatId. cbv beta.
  rewrite <- !includes_spec.
  cbn [secure_bot]. unfold Secure.on_message.
  unfold bind.
  rewrite (onText_run cfg re_start start_command msg t _ s Hauth Htext eq_refl).
  rewrite (onText_run cfg re_help help_command msg t _ s Hauth Htext eq_refl).
  rewrite (onText_run cfg re_menu menu_command msg t _ s Hauth Htext eq_refl).
  rewrite (onText_run cfg re_whoami whoami_command msg t _ s Hauth Htext eq_refl).
  unfold calls_of. cbn [snd].
  unfold re_start, re_help, re_menu, re_whoami.
  destruct (JS.includes t "/start"), (JS.includes t "/help"),
    (JS.includes t "/menu"), (JS.includes t "/whoami");
    cbn [app In]; repeat split; intros H; try reflexivity; try discriminate;
    try tauto;
    repeat (destruct H as [H | H]; try discriminate); try destruct H.
Qed.

Lemma commands_match_anywhere_witness :
  In (Tg (sendMessage 5 HelpText None))
     (calls_of (secure_bot cfg42 small_directory
                  (MessageUpdate (text_message "no /help please")) ∅)).
Proof.
  apply (proj2 (proj1 (proj2 (commands_match_anywhere cfg42 small_directory
                                (text_message "no /help please") "no /help please"
                                ∅ eq_refl eq_refl)))).
  exists "no ", " please". reflexivity.
Defined.
